(** * Biscuit Flash Utility: device discovery and flash sequencing

    A shallow embedding of [biscuit_flash.py].

    - Python strings are [string]s, that is sequences of 8-bit
      characters: the program is modelled on the ASCII range of [str],
      where [lower], [strip], [isdigit] and [int] are as written in
      [PyStr] ([int] without the interpreter's limit on the number of
      digits).  Python [int] is [Z].
    - The outside world (the enumeration of the serial ports, the
      esptool subprocesses, the download server) is an oracle record
      [World]; the keyboard is a finite list of input events.
    - Every function with an effect threads a [Session] through: what is
      left of the keyboard input, the call counters of the oracles,
      [main]'s [flash_results], and a log of what the program did.
    - Exceptions are results ([Raise]); the two [while True] loops of
      [main] take fuel, and [main_terminates] shows how much is enough. *)

From Stdlib Require Import String Ascii List ZArith Lia Bool Sorted Permutation.
From Stdlib Require Import DecimalString.
Import ListNotations.
Open Scope string_scope.
Open Scope Z_scope.

(* ================================================================== *)
(** * Python string operations used by the program *)
(* ================================================================== *)

Module PyStr.

Definition code (c : ascii) : nat := nat_of_ascii c.

Definition in_range (lo hi : nat) (c : ascii) : bool :=
  (Nat.leb lo (code c) && Nat.leb (code c) hi)%bool.

(** [str.lower] on one character: only [A]..[Z] change. *)
Definition lower_char (c : ascii) : ascii :=
  if in_range 65 90 c then ascii_of_nat (code c + 32) else c.

Fixpoint lower (s : string) : string :=
  match s with
  | EmptyString => EmptyString
  | String c r => String (lower_char c) (lower r)
  end.

(** [str.isspace] on the ASCII range: TAB, LF, VT, FF, CR, the four
    separators FS..US, and the space. *)
Definition isspace (c : ascii) : bool :=
  (in_range 9 13 c || in_range 28 32 c)%bool.

Fixpoint lstrip (s : string) : string :=
  match s with
  | EmptyString => EmptyString
  | String c r => if isspace c then lstrip r else s
  end.

Fixpoint rstrip (s : string) : string :=
  match s with
  | EmptyString => EmptyString
  | String c r =>
      match rstrip r with
      | EmptyString => if isspace c then EmptyString else String c EmptyString
      | r' => String c r'
      end
  end.

Definition strip (s : string) : string := lstrip (rstrip s).

(** [needle in hay] *)
Fixpoint contains (needle hay : string) : bool :=
  (String.prefix needle hay ||
   match hay with
   | EmptyString => false
   | String _ r => contains needle r
   end)%bool.

(** [str.isdigit] on the ASCII range. *)
Definition isdigit (c : ascii) : bool := in_range 48 57 c.

(** [''.join(filter(pred, s))] *)
Fixpoint filter (p : ascii -> bool) (s : string) : string :=
  match s with
  | EmptyString => EmptyString
  | String c r => if p c then String c (filter p r) else filter p r
  end.

Definition digit_value (c : ascii) : Z := Z.of_nat (code c - 48).

Fixpoint int_acc (acc : Z) (s : string) : option Z :=
  match s with
  | EmptyString => Some acc
  | String c r =>
      if isdigit c then int_acc (10 * acc + digit_value c) r else None
  end.

(** [int(s)] for a string without sign or blanks: [None] stands for
    [ValueError] (the empty string, or a character that is no digit). *)
Definition int (s : string) : option Z :=
  match s with
  | EmptyString => None
  | _ => int_acc 0 s
  end.

(** [sep.join(parts)] *)
Definition join (sep : string) (parts : list string) : string :=
  String.concat sep parts.

(** [str(n)] for an [int]. *)
Definition str_of_int (n : Z) : string :=
  NilZero.string_of_int (Z.to_int n).

(** Python truthiness of a [str]. *)
Definition truthy (s : string) : bool :=
  match s with EmptyString => false | _ => true end.

End PyStr.

(* ================================================================== *)
(** * Data model *)
(* ================================================================== *)

(** The keys of [FLASH_CONFIG], [devices] and [flash_results]. *)
Inductive DeviceType := C5 | Wroom.

Definition DeviceType_eqb (a b : DeviceType) : bool :=
  match a, b with
  | C5, C5 | Wroom, Wroom => true
  | _, _ => false
  end.

Record FlashConfig := mkFlashConfig {
  chip : string;
  baud : string;
  flash_freq : string;
  name : string
}.

Definition FLASH_CONFIG (t : DeviceType) : FlashConfig :=
  match t with
  | C5 => mkFlashConfig "esp32c5" "460800" "80m" "C5 Scanner"
  | Wroom => mkFlashConfig "esp32" "921600" "40m" "WROOM BLE Gateway"
  end.

(** The objects returned by [list_com_ports]: only [device] and
    [description] are ever read. *)
Record PortInfo := mkPortInfo {
  device : string;
  description : string
}.

(** Exceptions.  [KeyboardInterrupt] is the one class here that is not a
    subclass of [Exception]. *)
Inductive ExnClass :=
| KeyboardInterrupt | EOFError | ImportError | TimeoutExpired
| FileNotFoundError | CalledProcessError | URLError | HTTPError
| KeyError | OtherError.

Record Exn := mkExn { exn_class : ExnClass; exn_text : string }.

Definition is_Exception (e : Exn) : bool :=
  match exn_class e with KeyboardInterrupt => false | _ => true end.

Definition is_class (c : ExnClass) (e : Exn) : bool :=
  match c, exn_class e with
  | KeyboardInterrupt, KeyboardInterrupt | EOFError, EOFError
  | ImportError, ImportError | TimeoutExpired, TimeoutExpired
  | FileNotFoundError, FileNotFoundError
  | CalledProcessError, CalledProcessError
  | URLError, URLError | HTTPError, HTTPError
  | URLError, HTTPError (* HTTPError is a subclass of URLError *)
  | KeyError, KeyError | OtherError, OtherError => true
  | _, _ => false
  end.

(** What [subprocess.run(..., capture_output=True, text=True, timeout=..)]
    does: it returns a completed process or raises. *)
Inductive RunOutcome :=
| Completed (returncode : Z) (stdout stderr : string)
| RunRaised (e : Exn).

(** What the [Popen] block of [flash_device] observes: the lines read
    from the merged output stream and the exit status, or an exception
    raised by [Popen], by reading the stream or by [process.wait]. *)
Inductive WriteOutcome :=
| Exited (output_lines : list string) (returncode : Z)
| WriteRaised (e : Exn).

(** What [import serial.tools.list_ports] followed by [comports()] does. *)
Inductive SerialOutcome :=
| Comports (ports : list PortInfo)
| SerialRaised (e : Exn).

(** The value [json.loads] gives for the PowerShell output, as far as
    [list_com_ports] looks at it.  An object is the list of its string
    members ([DeviceID] and [Description] of [Win32_SerialPort] are
    strings; a null [Description] is read as [""] by [or ""], as a missing
    one is). *)
Inductive JsonItem :=
| ItemDict (members : list (string * string))
| ItemOther.

Inductive JsonData :=
| DataDict (members : list (string * string))
| DataList (items : list JsonItem)
| DataOther.

(** One keyboard event at an [input()] call.  The end of the list of
    events is the end of the input stream ([EOFError]). *)
Inductive InputEvent :=
| Line (s : string)
| CtrlC.

(** The return values of the prompt functions. *)
Inductive Action := Retry | Erase | Skip | Rescan | Quit.

Inductive Prompt := PromptRetry | PromptNoDevices | PromptDisconnect.

(** [devices] and [flash_results]: dicts with exactly the two keys. *)
Record Devices := mkDevices {
  dev_c5 : option string;
  dev_wroom : option string
}.

Definition dev_get (d : Devices) (t : DeviceType) : option string :=
  match t with C5 => dev_c5 d | Wroom => dev_wroom d end.

Definition dev_set (d : Devices) (t : DeviceType) (p : string) : Devices :=
  match t with
  | C5 => mkDevices (Some p) (dev_wroom d)
  | Wroom => mkDevices (dev_c5 d) (Some p)
  end.

(** [None] = pending, [Some true] = success, [Some false] = skipped. *)
Record FlashResults := mkResults {
  res_c5 : option bool;
  res_wroom : option bool
}.

Definition res_get (r : FlashResults) (t : DeviceType) : option bool :=
  match t with C5 => res_c5 r | Wroom => res_wroom r end.

Definition res_set (r : FlashResults) (t : DeviceType) (b : bool)
  : FlashResults :=
  match t with
  | C5 => mkResults (Some b) (res_wroom r)
  | Wroom => mkResults (res_c5 r) (Some b)
  end.

(** Python truthiness of [devices[t]]: [None] and [""] are false. *)
Definition truthy_port (p : option string) : bool :=
  match p with
  | None => false
  | Some s => PyStr.truthy s
  end.

(** What the session writes down as it runs.  Each event stands for one
    place of the source:
    - [EvProbe]: [scan_for_devices] got the answer of [detect_chip_type]
      for a port (the three [print]s after the call);
    - [EvBegin]: the line "[C5] Flashing ... on ..." (or its WROOM twin)
      that opens an attempt sequence in [main];
    - [EvAttempt]: [flash_device] is entered;
    - [EvErase], [EvWrite]: the esptool [erase_flash] and [write_flash]
      subprocesses are started with this command line;
    - [EvChoice]: a prompt function returns;
    - [EvSummary]: the summary block at the end of [main] is printed. *)
Inductive Event :=
| EvProbe (port : string) (chip_type : option DeviceType)
| EvBegin (t : DeviceType) (port : string)
| EvAttempt (t : DeviceType) (port : string) (erase_first : bool)
| EvErase (cmd : list string)
| EvWrite (cmd : list string)
| EvChoice (site : Prompt) (a : Action)
| EvSummary.

(** The manifest, as far as [main] reads it: [manifest[k]] may be
    missing, and so may the two members of an entry. *)
Record ManifestEntry := mkEntry {
  version : option string;
  mergedFilename : option string
}.

Record Manifest := mkManifest {
  manifest_c5 : option ManifestEntry;
  manifest_wroom : option ManifestEntry
}.

(** A call into code that [main] only consumes: it returns or raises. *)
Inductive Outcome (A : Type) :=
| Returns (a : A)
| Raises (e : Exn).
Arguments Returns {A} a.
Arguments Raises {A} e.

(** The outside world.  The [_at] oracles answer the k-th call of their
    kind; the three bootstrap collaborators of [main] are consumed as
    they are. *)
Record World := mkWorld {
  sys_executable : string;
  pyserial_at : nat -> SerialOutcome;
  powershell_at : nat -> RunOutcome;
  json_loads : string -> option JsonData;
  chip_id_at : nat -> RunOutcome;
  erase_at : nat -> RunOutcome;
  write_at : nat -> WriteOutcome;
  check_esptool : Outcome bool;
  download_manifest : Outcome Manifest;
  download_firmware : string -> Outcome (option string)
}.

(** The state a session threads through: what is left of the keyboard
    input, how many calls of each kind were made, [main]'s
    [flash_results], and the log, newest entry first, each event with
    the [flash_results] of the moment it was written. *)
Record Session := mkSession {
  stdin : list InputEvent;
  enum_calls : nat;
  chip_calls : nat;
  erase_calls : nat;
  write_calls : nat;
  flash_results : FlashResults;
  log : list (Event * FlashResults)
}.

Definition initial_session (keys : list InputEvent) : Session :=
  mkSession keys 0 0 0 0 (mkResults None None) [].

(* ================================================================== *)
(** * The monad of the program: state, exceptions and fuel *)
(* ================================================================== *)

Inductive Result (A : Type) :=
| Ok (a : A)
| Raise (e : Exn)
| OutOfFuel.
Arguments Ok {A} a.
Arguments Raise {A} e.
Arguments OutOfFuel {A}.

Definition M (A : Type) : Type := Session -> Result A * Session.

Definition ret {A} (a : A) : M A := fun st => (Ok a, st).

Definition bind {A B} (m : M A) (f : A -> M B) : M B :=
  fun st =>
    match m st with
    | (Ok a, st') => f a st'
    | (Raise e, st') => (Raise e, st')
    | (OutOfFuel, st') => (OutOfFuel, st')
    end.

Definition raise {A} (e : Exn) : M A := fun st => (Raise e, st).

Definition out_of_fuel {A} : M A := fun st => (OutOfFuel, st).

Declare Scope py_scope.
Delimit Scope py_scope with py.
Notation "x <- m ;; k" := (bind m (fun x => k))
  (at level 61, m at next level, right associativity) : py_scope.
Notation "m ;; k" := (bind m (fun _ => k))
  (at level 61, right associativity) : py_scope.
Open Scope py_scope.

Definition emit (e : Event) : M unit := fun st =>
  (Ok tt,
   mkSession (stdin st) (enum_calls st) (chip_calls st) (erase_calls st)
     (write_calls st) (flash_results st)
     ((e, flash_results st) :: log st)).

Definition get_results : M FlashResults := fun st => (Ok (flash_results st), st).

(** [flash_results[t] = b] *)
Definition set_result (t : DeviceType) (b : bool) : M unit := fun st =>
  (Ok tt,
   mkSession (stdin st) (enum_calls st) (chip_calls st) (erase_calls st)
     (write_calls st) (res_set (flash_results st) t b) (log st)).

Definition with_stdin (st : Session) (keys : list InputEvent) : Session :=
  mkSession keys (enum_calls st) (chip_calls st) (erase_calls st)
    (write_calls st) (flash_results st) (log st).

Definition next_enum : M nat := fun st =>
  (Ok (enum_calls st),
   mkSession (stdin st) (S (enum_calls st)) (chip_calls st) (erase_calls st)
     (write_calls st) (flash_results st) (log st)).

Definition next_chip : M nat := fun st =>
  (Ok (chip_calls st),
   mkSession (stdin st) (enum_calls st) (S (chip_calls st)) (erase_calls st)
     (write_calls st) (flash_results st) (log st)).

Definition next_erase : M nat := fun st =>
  (Ok (erase_calls st),
   mkSession (stdin st) (enum_calls st) (chip_calls st) (S (erase_calls st))
     (write_calls st) (flash_results st) (log st)).

Definition next_write : M nat := fun st =>
  (Ok (write_calls st),
   mkSession (stdin st) (enum_calls st) (chip_calls st) (erase_calls st)
     (S (write_calls st)) (flash_results st) (log st)).

(** [input("      > ")]: the next keyboard event. *)
Definition input : M string := fun st =>
  match stdin st with
  | [] => (Raise (mkExn EOFError ""), st)
  | CtrlC :: rest => (Raise (mkExn KeyboardInterrupt ""), with_stdin st rest)
  | Line s :: rest => (Ok s, with_stdin st rest)
  end.

(** [try: m except <classes>: h] *)
Definition try_except {A} (m : M A) (handles : Exn -> bool) (h : M A) : M A :=
  fun st =>
    match m st with
    | (Raise e, st') => if handles e then h st' else (Raise e, st')
    | r => r
    end.

(* ================================================================== *)
(** * The functions of [biscuit_flash.py] *)
(* ================================================================== *)

Definition newline : string := String (ascii_of_nat 10) EmptyString.

(** [d.get(key, "")] on the members of a JSON object. *)
Fixpoint dict_get (key : string) (members : list (string * string)) : string :=
  match members with
  | [] => ""
  | (k, v) :: rest => if (k =? key)%string then v else dict_get key rest
  end.

(** The list comprehension of [list_com_ports]: [None] when an item has
    no [get] ([AttributeError]). *)
Fixpoint port_infos (data : list JsonItem) : option (list PortInfo) :=
  match data with
  | [] => Some []
  | ItemOther :: _ => None
  | ItemDict p :: rest =>
      match port_infos rest with
      | None => None
      | Some infos =>
          Some (mkPortInfo (dict_get "DeviceID" p) (dict_get "Description" p)
                  :: infos)
      end
  end.

(** Lines 169-179 of [detect_chip_type]: the chip type read off the
    tool's output. *)
Definition chip_of_output (output : string) : option DeviceType :=
  let output_lower := PyStr.lower output in
  if (PyStr.contains "esp32-c5" output_lower
      || PyStr.contains "esp32c5" output_lower)%bool then Some C5
  else if (PyStr.contains "esp32-c" output_lower
           || PyStr.contains "esp32c" output_lower)%bool then None
  else if (PyStr.contains "esp32-d" output_lower
           || PyStr.contains "esp32" output_lower)%bool then Some Wroom
  else None.

(** Lines 287-299 of [flash_device]: the result once the write process
    has exited with [returncode]. *)
Definition write_result (output_lines : list string) (returncode : Z)
  : bool * option string :=
  if returncode =? 0 then (true, None)
  else
    let output := PyStr.join newline output_lines in
    if PyStr.contains "Failed to connect" output then
      (false, Some "Failed to connect (device not in download mode?)")
    else if PyStr.contains "Timed out" output then
      (false, Some "Connection timed out")
    else if PyStr.contains "Permission" (PyStr.lower output) then
      (false, Some "Permission denied (port in use by another program?)")
    else
      (false, Some ("Flash failed (exit code "
                      ++ PyStr.str_of_int returncode ++ ")")).

(** The [while True] loop of [prompt_retry] over the keyboard events:
    the action and what is left of the input. *)
Fixpoint prompt_retry_loop (keys : list InputEvent)
  : Action * list InputEvent :=
  match keys with
  | [] => (Quit, [])
  | CtrlC :: rest => (Quit, rest)
  | Line s :: rest =>
      let choice := PyStr.lower (PyStr.strip s) in
      if ((choice =? "")%string
          || ((choice =? "r")%string
              && Nat.eqb (String.length choice) 0))%bool then (Retry, rest)
      else if (choice =? "e")%string then (Erase, rest)
      else if (choice =? "s")%string then (Skip, rest)
      else if (choice =? "r")%string then (Rescan, rest)
      else if (choice =? "q")%string then (Quit, rest)
      else prompt_retry_loop rest
  end.

(** The loop shared, word for word, by [prompt_no_devices] and
    [prompt_disconnect]. *)
Fixpoint prompt_rescan_loop (keys : list InputEvent)
  : Action * list InputEvent :=
  match keys with
  | [] => (Quit, [])
  | CtrlC :: rest => (Quit, rest)
  | Line s :: rest =>
      let choice := PyStr.lower (PyStr.strip s) in
      if ((choice =? "")%string || (choice =? "r")%string)%bool
      then (Rescan, rest)
      else if (choice =? "q")%string then (Quit, rest)
      else prompt_rescan_loop rest
  end.

Definition prompt_with (site : Prompt)
  (loop : list InputEvent -> Action * list InputEvent) : M Action :=
  fun st =>
    let '(action, rest) := loop (stdin st) in
    (emit (EvChoice site action) ;; ret action) (with_stdin st rest).

(** [get_port_num], the sort key inside [scan_for_devices]. *)
Definition get_port_num (p : PortInfo) : Z :=
  match PyStr.int (PyStr.filter PyStr.isdigit (device p)) with
  | Some n => n
  | None => 0
  end.

(** [sorted(ports, key=key, reverse=True)]: descending, and stable
    (entries with equal keys keep their order). *)
Fixpoint insert_desc {A} (key : A -> Z) (x : A) (l : list A) : list A :=
  match l with
  | [] => [x]
  | y :: r => if key y <=? key x then x :: y :: r
              else y :: insert_desc key x r
  end.

Definition sorted_reverse {A} (key : A -> Z) (l : list A) : list A :=
  fold_right (insert_desc key) [] l.

Section Program.

Variable w : World.

Definition list_com_ports : M (list PortInfo) :=
  k <- next_enum ;;
  match pyserial_at w k with
  | Comports ports => ret ports
  | SerialRaised e =>
      if is_class ImportError e then
        (* Fallback to PowerShell if pyserial not available *)
        match powershell_at w k with
        | Completed returncode stdout _ =>
            if ((returncode =? 0)
                && PyStr.truthy (PyStr.strip stdout))%bool then
              match json_loads w stdout with
              | None => ret []
              | Some data =>
                  let data :=
                    match data with
                    | DataDict p => Some [ItemDict p]
                    | DataList items => Some items
                    | DataOther => None
                    end in
                  match data with
                  | None => ret []
                  | Some items =>
                      match port_infos items with
                      | Some infos => ret infos
                      | None => ret []
                      end
                  end
              end
            else ret []
        | RunRaised e' => if is_Exception e' then ret [] else raise e'
        end
      else raise e
  end.

Definition port_exists (port : string) : M bool :=
  ports <- list_com_ports ;;
  ret (existsb (fun p => (device p =? port)%string) ports).

Definition detect_chip_type (port : string) : M (option DeviceType) :=
  k <- next_chip ;;
  match chip_id_at w k with
  | Completed _ stdout stderr => ret (chip_of_output (stdout ++ stderr))
  | RunRaised e => if is_Exception e then ret None else raise e
  end.

(** The [for] loop of [scan_for_devices]. *)
Fixpoint scan_loop (ports : list PortInfo) (devices : Devices) : M Devices :=
  match ports with
  | [] => ret devices
  | port_info :: rest =>
      let port := device port_info in
      chip_type <- detect_chip_type port ;;
      emit (EvProbe port chip_type) ;;
      let devices :=
        match chip_type with
        | Some t => dev_set devices t port
        | None => devices
        end in
      if (truthy_port (dev_c5 devices)
          && truthy_port (dev_wroom devices))%bool
      then ret devices
      else scan_loop rest devices
  end.

Definition scan_for_devices : M Devices :=
  let devices := mkDevices None None in
  ports <- list_com_ports ;;
  match ports with
  | [] => ret devices
  | _ => scan_loop (sorted_reverse get_port_num ports) devices
  end.

Definition flash_device (device_type : DeviceType)
  (port firmware_path : string) (erase_first : bool)
  : M (bool * option string) :=
  emit (EvAttempt device_type port erase_first) ;;
  let config := FLASH_CONFIG device_type in
  present <- port_exists port ;;
  if negb present then ret (false, Some "Device disconnected")
  else
    let cmd := [sys_executable w; "-m"; "esptool";
                "--chip"; chip config;
                "--port"; port;
                "--baud"; baud config;
                "--before"; "default_reset";
                "--after"; "hard_reset"] in
    erase_error <-
      (if erase_first then
         let erase_cmd := (cmd ++ ["erase_flash"])%list in
         emit (EvErase erase_cmd) ;;
         k <- next_erase ;;
         match erase_at w k with
         | Completed returncode _ _ =>
             if negb (returncode =? 0) then ret (Some "Erase failed")
             else ret None
         | RunRaised e =>
             if is_class TimeoutExpired e then ret (Some "Erase timed out")
             else raise e
         end
       else ret None) ;;
    match erase_error with
    | Some msg => ret (false, Some msg)
    | None =>
        let flash_cmd :=
          (cmd ++ ["write_flash";
                   "--flash_mode"; "dio";
                   "--flash_freq"; flash_freq config;
                   "--flash_size"; "detect";
                   "0x0"; firmware_path])%list in
        emit (EvWrite flash_cmd) ;;
        k <- next_write ;;
        match write_at w k with
        | Exited lines returncode =>
            ret (write_result (map PyStr.rstrip lines) returncode)
        | WriteRaised e =>
            if is_class TimeoutExpired e then
              ret (false, Some "Flash operation timed out")
            else if is_Exception e then ret (false, Some (exn_text e))
            else raise e
        end
    end.

Definition prompt_retry : M Action := prompt_with PromptRetry prompt_retry_loop.

Definition prompt_no_devices : M Action :=
  prompt_with PromptNoDevices prompt_rescan_loop.

Definition prompt_disconnect : M Action :=
  prompt_with PromptDisconnect prompt_rescan_loop.

End Program.

(* ================================================================== *)
(** * [main] *)
(* ================================================================== *)

(** How the body of a [while True] loop of [main] is left: by [break],
    or by [return code] out of [main]. *)
Inductive LoopExit :=
| Break
| Return (code : Z).

Definition is_pending (r : option bool) : bool :=
  match r with None => true | Some _ => false end.

Definition lift {A} (o : Outcome A) : M A :=
  match o with
  | Returns a => ret a
  | Raises e => raise e
  end.

(** [d[key]]: a missing key raises [KeyError]. *)
Definition subscript {A} (key : string) (v : option A) : M A :=
  match v with
  | Some a => ret a
  | None => raise (mkExn KeyError key)
  end.

Section Main.

Variable w : World.

(** The inner [while True] loop of [main], written out twice in the
    source (lines 470-506 for the C5, lines 516-552 for the WROOM): one
    turn of the loop per unit of fuel. *)
Fixpoint attempt_loop (fuel : nat) (t : DeviceType)
  (port firmware : string) (erase_flash : bool) : M LoopExit :=
  match fuel with
  | O => out_of_fuel
  | S fuel' =>
      r <- flash_device w t port firmware erase_flash ;;
      let '(success, error) := r in
      if success : bool then
        set_result t true ;;
        ret Break
      else
        (* Check if device disconnected *)
        present <- port_exists w port ;;
        if negb present then
          action <- prompt_disconnect ;;
          match action with
          | Quit => ret (Return 1)
          | _ => ret Break  (* Will rescan *)
          end
        else
          action <- prompt_retry ;;
          match action with
          | Retry => attempt_loop fuel' t port firmware false
          | Erase => attempt_loop fuel' t port firmware true
          | Skip => set_result t false ;; ret Break
          | Rescan => ret Break
          | Quit => ret (Return 1)
          end
  end.

(** [if devices[t] and flash_results[t] is None: ...] (lines 464-508
    and 511-554). *)
Definition flash_one (fuel : nat) (t : DeviceType) (devices : Devices)
  (firmware : string) : M LoopExit :=
  results <- get_results ;;
  match dev_get devices t with
  | Some port =>
      if (PyStr.truthy port && is_pending (res_get results t))%bool then
        emit (EvBegin t port) ;;
        attempt_loop fuel t port firmware false
      else ret Break
  | None => ret Break
  end.

(** The reading of the answer at line 571: [None] on Ctrl-C or at the
    end of the input. *)
Definition read_choice : M (option string) :=
  try_except
    (s <- input ;; ret (Some (PyStr.lower (PyStr.strip s))))
    (fun e => (is_class KeyboardInterrupt e || is_class EOFError e)%bool)
    (ret None).

(** The main flash loop (lines 437-576): one turn per unit of fuel. *)
Fixpoint main_loop (fuel : nat) (c5_firmware wroom_firmware : string)
  : M LoopExit :=
  match fuel with
  | O => out_of_fuel
  | S fuel' =>
      devices <- scan_for_devices w ;;
      let found_any :=
        (truthy_port (dev_c5 devices)
         || truthy_port (dev_wroom devices))%bool in
      if negb found_any then
        action <- prompt_no_devices ;;
        match action with
        | Quit => ret (Return 1)
        | _ => main_loop fuel' c5_firmware wroom_firmware  (* Rescan *)
        end
      else
        r <- flash_one fuel' C5 devices c5_firmware ;;
        match r with
        | Return code => ret (Return code)
        | Break =>
            r <- flash_one fuel' Wroom devices wroom_firmware ;;
            match r with
            | Return code => ret (Return code)
            | Break =>
                results <- get_results ;;
                let handled :=
                  filter (fun k => negb (is_pending (res_get results k)))
                    [C5; Wroom] in
                let pending :=
                  filter (fun k => is_pending (res_get results k))
                    [C5; Wroom] in
                match pending with
                | [] => ret Break  (* All devices handled *)
                | _ =>
                    match handled with
                    | [] => main_loop fuel' c5_firmware wroom_firmware
                    | _ =>
                        choice <- read_choice ;;
                        match choice with
                        | None => ret Break
                        | Some c =>
                            if (c =? "q")%string then ret Break
                            else main_loop fuel' c5_firmware wroom_firmware
                        end
                    end
                end
            end
        end
  end.

Definition is_True (r : option bool) : bool :=
  match r with Some true => true | _ => false end.

(** [main].  The [--fresh] switch only changes what [download_firmware]
    is asked to do and is part of the world here. *)
Definition main (fuel : nat) : M Z :=
  (* Step 1: Check esptool *)
  ok <- lift (check_esptool w) ;;
  if negb ok then ret 1
  else
    (* Step 2: Download manifest *)
    fetched <-
      try_except (m <- lift (download_manifest w) ;; ret (Some m))
        (fun e => (is_class URLError e || is_class HTTPError e)%bool)
        (ret None) ;;
    match fetched with
    | None => ret 1
    | Some manifest =>
        c5 <- subscript "c5" (manifest_c5 manifest) ;;
        c5_version <- subscript "version" (version c5) ;;
        wroom <- subscript "wroom" (manifest_wroom manifest) ;;
        wroom_version <- subscript "version" (version wroom) ;;
        let c5_merged := mergedFilename c5 in
        let wroom_merged := mergedFilename wroom in
        (* Step 3: Download firmware files *)
        if negb (truthy_port c5_merged) then ret 1
        else if negb (truthy_port wroom_merged) then ret 1
        else
          match c5_merged, wroom_merged with
          | Some c5_name, Some wroom_name =>
              c5_firmware <- lift (download_firmware w c5_name) ;;
              wroom_firmware <- lift (download_firmware w wroom_name) ;;
              match c5_firmware, wroom_firmware with
              | Some c5_path, Some wroom_path =>
                  (* Main flash loop *)
                  r <- main_loop fuel c5_path wroom_path ;;
                  match r with
                  | Return code => ret code
                  | Break =>
                      (* Summary *)
                      emit EvSummary ;;
                      results <- get_results ;;
                      let c5_status := res_c5 results in
                      let wroom_status := res_wroom results in
                      (* Return success if at least one device was flashed *)
                      ret (if (is_True c5_status
                               || is_True wroom_status)%bool
                           then 0 else 1)
                  end
              | _, _ => ret 1
              end
          | _, _ => ret 1
          end
    end.

(** [sys.exit(main())] under the [KeyboardInterrupt] handler of the
    script: an exception that leaves [main] ends the process with
    status 1, through the handler or through the interpreter. *)
Definition process_exit_code (r : Result Z) : option Z :=
  match r with
  | Ok code => Some code
  | Raise _ => Some 1
  | OutOfFuel => None
  end.

End Main.

(* ================================================================== *)
(** * Notions the properties are stated with *)
(* ================================================================== *)

(** [needle] occurs in [hay] as a run of consecutive characters. *)
Definition occurs_in (needle hay : string) : Prop :=
  exists pre post, hay = pre ++ needle ++ post.

(** [needle] occurs in [hay] in some letter case. *)
Definition occurs_nocase (needle hay : string) : Prop :=
  exists pre t post,
    hay = pre ++ t ++ post /\ PyStr.lower t = PyStr.lower needle.

(** The output carries a mark of the C5. *)
Definition c5_marker (output : string) : Prop :=
  occurs_nocase "esp32-c5" output \/ occurs_nocase "esp32c5" output.

(** The output carries a mark of some chip of the C family. *)
Definition c_family_marker (output : string) : Prop :=
  occurs_nocase "esp32-c" output \/ occurs_nocase "esp32c" output.

(** The port is not among the ports a fresh enumeration lists. *)
Definition port_absent (w : World) (st : Session) (port : string) : Prop :=
  exists ports,
    fst (list_com_ports w st) = Ok ports /\ ~ In port (map device ports).

(** The result of [flash_device] for a port that has gone. *)
Definition disconnected : bool * option string :=
  (false, Some "Device disconnected").

(** One probe of a scan: the port asked and the chip type answered. *)
Definition Probe : Type := string * option DeviceType.

(** The log entry a probe leaves in a session whose [flash_results] are
    [r]. *)
Definition probe_entry (r : FlashResults) (pr : Probe)
  : Event * FlashResults :=
  (EvProbe (fst pr) (snd pr), r).

(** What one turn of the scan loop does to [devices]. *)
Definition record_probe (devices : Devices) (pr : Probe) : Devices :=
  match snd pr with
  | Some t => dev_set devices t (fst pr)
  | None => devices
  end.

(** The first, and the last, of the probed ports that answered [t]. *)
Fixpoint first_found (t : DeviceType) (probes : list Probe) : option string :=
  match probes with
  | [] => None
  | (port, chip_type) :: rest =>
      match chip_type with
      | Some t' => if DeviceType_eqb t' t then Some port
                   else first_found t rest
      | None => first_found t rest
      end
  end.

Definition last_found (t : DeviceType) (probes : list Probe) : option string :=
  first_found t (rev probes).

(** The numeric suffix of a port identifier, as the specification has
    it: the number written by the digits the identifier ends with, and 0
    when it does not end with a digit. *)
Fixpoint suffix_digits (s : string) : string :=
  match s with
  | EmptyString => EmptyString
  | String c r =>
      let tail := suffix_digits r in
      if (PyStr.isdigit c && Nat.eqb (String.length tail) (String.length r))%bool
      then String c tail
      else tail
  end.

Definition numeric_suffix (s : string) : Z :=
  match PyStr.int (suffix_digits s) with
  | Some n => n
  | None => 0
  end.

(** Descending order of the sort key. *)
Definition key_desc {A} (key : A -> Z) (a b : A) : Prop := key b <= key a.

(** The probes written in a stretch of the log, oldest first. *)
Fixpoint probes_of (entries : list (Event * FlashResults)) : list Probe :=
  match entries with
  | [] => []
  | (EvProbe port chip_type, _) :: rest => probes_of rest ++ [(port, chip_type)]
  | _ :: rest => probes_of rest
  end.

(** The probes made between two moments of a session: those of the
    part of the log written since [before]. *)
Definition scan_probes (before after : Session) : list Probe :=
  probes_of (firstn (length (log after) - length (log before)) (log after)).

(* ================================================================== *)
(** * What a well-formed session log looks like *)
(* ================================================================== *)

(** Every outcome that is settled in [s] is settled, the same way, in
    [s']. *)
Definition res_le (s s' : FlashResults) : Prop :=
  forall t b, res_get s t = Some b -> res_get s' t = Some b.

(** The newest entry of the log is the operator's choice "erase" at the
    retry prompt. *)
Definition head_is_erase (l : list (Event * FlashResults)) : bool :=
  match l with
  | (EvChoice PromptRetry Erase, _) :: _ => true
  | _ => false
  end.

(** The events after which nothing more is written: a "quit" and the
    summary. *)
Definition is_final (e : Event) : bool :=
  match e with
  | EvChoice _ Quit | EvSummary => true
  | _ => false
  end.

(** The events of the scanner and of the tools. *)
Definition is_quiet (e : Event) : bool :=
  match e with
  | EvProbe _ _ | EvErase _ | EvWrite _ => true
  | _ => false
  end.

(** A log, newest entry first, is in order when, for each entry: the
    entries before it in time are not final and their outcomes are kept
    in it; and, if it is an attempt, its device type is pending and it
    erases first exactly when the entry just before it is the choice
    "erase". *)
Fixpoint log_ok (l : list (Event * FlashResults)) : Prop :=
  match l with
  | [] => True
  | (e, s) :: rest =>
      log_ok rest /\
      (forall e' s', In (e', s') rest -> res_le s' s /\ is_final e' = false) /\
      (forall t port erase_first,
          e = EvAttempt t port erase_first ->
          res_get s t = None /\
          (erase_first = true <-> head_is_erase rest = true))
  end.

Definition session_ok (st : Session) : Prop :=
  log_ok (log st) /\
  (forall e s, In (e, s) (log st) -> res_le s (flash_results st)).

(** Nothing final has been written yet. *)
Definition open_session (st : Session) : Prop :=
  forall e s, In (e, s) (log st) -> is_final e = false.

Definition ended_by_quit (st : Session) : Prop :=
  exists site s rest, log st = (EvChoice site Quit, s) :: rest.

(** What holds when a loop of [main] is left, in whatever way. *)
Definition loop_post (res : Result LoopExit * Session) : Prop :=
  session_ok (snd res) /\
  match fst res with
  | Ok (Return code) => code = 1 /\ ended_by_quit (snd res)
  | _ => open_session (snd res)
  end.

(** At least one device was flashed. *)
Definition some_success (r : FlashResults) : bool :=
  (is_True (res_c5 r) || is_True (res_wroom r))%bool.

(** The three ways a run of [main] can stand: the summary is the newest
    entry of the log and the exit code tells whether a device was
    flashed; or a "quit" is the newest entry and the exit code is 1; or
    nothing final was written and the run did not return 0 (an early
    exit of the bootstrap, an exception, or the fuel ran out). *)
Definition main_post (res : Result Z * Session) : Prop :=
  session_ok (snd res) /\
  ((exists rest,
       log (snd res) = (EvSummary, flash_results (snd res)) :: rest /\
       fst res
       = Ok (if some_success (flash_results (snd res)) then 0 else 1)) \/
   (fst res = Ok 1 /\ ended_by_quit (snd res)) \/
   (fst res <> Ok 0 /\ open_session (snd res))).




(* ================================================================== *)
(** * Worlds to run the program in *)
(* ================================================================== *)

(** An oracle that answers its k-th call with the k-th entry of a
    script, and with [last] once the script is used up. *)
Definition script {A} (answers : list A) (last : A) : nat -> A :=
  fun k => nth k answers last.

Definition tool_missing : RunOutcome :=
  RunRaised (mkExn FileNotFoundError "[Errno 2] No such file or directory").

Definition good_manifest : Manifest :=
  mkManifest (Some (mkEntry (Some "1.0.0") (Some "c5_merged.bin")))
             (Some (mkEntry (Some "1.0.0") (Some "wroom_merged.bin"))).

(** A workstation with pyserial installed and a good download server:
    what remains to be said is what is plugged in and what esptool
    answers. *)
Definition workstation (serial : nat -> SerialOutcome)
  (chip_id erase : nat -> RunOutcome) (write : nat -> WriteOutcome) : World :=
  mkWorld "python" serial (fun _ => tool_missing) (fun _ => None)
    chip_id erase write
    (Returns true) (Returns good_manifest) (fun f => Returns (Some f)).

Definition com (n : string) : PortInfo :=
  mkPortInfo ("COM" ++ n) "USB Serial Device".

Definition chip_says (text : string) : RunOutcome := Completed 0 text "".

(** A workstation on which one port is listed at every enumeration and
    the write step of esptool always ends the same way. *)
Definition one_port_world (port : string) (write : WriteOutcome) : World :=
  workstation (fun _ => Comports [mkPortInfo port "USB Serial Device"])
    (fun _ => tool_missing) (fun _ => Completed 0 "" "") (fun _ => write).

(** What esptool prints when another program holds the port. *)
Definition port_busy_lines : list string :=
  ["esptool.py v4.7.0" ++ newline;
   "Serial port COM3" ++ newline;
   "A fatal error occurred: Could not open COM3, the port is busy" ++ newline;
   "(could not open port 'COM3': PermissionError(13, 'Access is denied.'))"
     ++ newline].

(** Three ports, listed in the order COM3, COM4, COM5, and what esptool
    answers to the successive identification runs. *)
Definition three_ports (answers : list string) : World :=
  workstation (fun _ => Comports [com "3"; com "4"; com "5"])
    (script (map chip_says answers) tool_missing)
    (fun _ => Completed 0 "" "") (fun _ => Exited [] 0).

(** Two ports as macOS names them, with nothing of ours behind them. *)
Definition mac_ports : World :=
  workstation
    (fun _ => Comports [mkPortInfo "/dev/cu.usbmodem1101" "";
                        mkPortInfo "/dev/cu.usbserial-A50285BI" ""])
    (fun _ => chip_says "A fatal error occurred: Failed to connect")
    (fun _ => Completed 0 "" "") (fun _ => Exited [] 0).

(** A C5 on COM5 and nothing else; the write steps end as scripted, and
    succeed once the script is used up. *)
Definition one_c5_world (writes : list WriteOutcome) : World :=
  workstation (fun _ => Comports [com "5"])
    (fun _ => chip_says "Chip is ESP32-C5 (revision v1.0)")
    (fun _ => Completed 0 "" "") (script writes (Exited [] 0)).

(** A WROOM on COM3 and a C5 on COM5. *)
Definition two_device_world (writes : list WriteOutcome) : World :=
  workstation (fun _ => Comports [com "3"; com "5"])
    (script [chip_says "Chip is ESP32-C5 (revision v1.0)"]
       (chip_says "Chip is ESP32-D0WD-V3 (revision v3.1)"))
    (fun _ => Completed 0 "" "") (script writes (Exited [] 0)).

(** A workstation on which every identification run prints [text]. *)
Definition chip_world (text : string) : World :=
  workstation (fun _ => Comports []) (fun _ => chip_says text)
    (fun _ => tool_missing) (fun _ => Exited [] 0).

Definition connect_failure : WriteOutcome :=
  Exited ["A fatal error occurred: Failed to connect to ESP32: No serial data received."]
    2.


(* ================================================================== *)
(** * Further notions: the scanner and the flash executor *)
(* ================================================================== *)

(** Both device types have a port, as the test that ends the scan loop
    reads it. *)
Definition both_found (d : Devices) : bool :=
  (truthy_port (dev_c5 d) && truthy_port (dev_wroom d))%bool.

(** The port is among the ports a fresh enumeration lists. *)
Definition port_present (w : World) (st : Session) (port : string) : Prop :=
  exists ports,
    fst (list_com_ports w st) = Ok ports /\ In port (map device ports).

(** A Windows workstation without pyserial: the PowerShell query prints
    [stdout], which [json.loads] reads as [data]. *)
Definition powershell_world (stdout : string) (data : option JsonData)
  : World :=
  mkWorld "python"
    (fun _ => SerialRaised (mkExn ImportError "No module named 'serial'"))
    (fun _ => Completed 0 stdout "") (fun _ => data)
    (fun _ => tool_missing) (fun _ => tool_missing) (fun _ => Exited [] 0)
    (Returns true) (Returns good_manifest) (fun f => Returns (Some f)).

(** COM5 is listed, and the erase run ends as given. *)
Definition erase_world (erase : RunOutcome) : World :=
  workstation (fun _ => Comports [com "5"])
    (fun _ => chip_says "Chip is ESP32-C5 (revision v1.0)")
    (fun _ => erase) (fun _ => Exited [] 0).

(* ================================================================== *)
(** * Further notions: the prompts *)
(* ================================================================== *)

(** What a typed line means at the retry prompt, once stripped and
    lower-cased: [None] when it is none of the five answers. *)
Definition retry_answer (s : string) : option Action :=
  let choice := PyStr.lower (PyStr.strip s) in
  if (choice =? "")%string then Some Retry
  else if (choice =? "e")%string then Some Erase
  else if (choice =? "s")%string then Some Skip
  else if (choice =? "r")%string then Some Rescan
  else if (choice =? "q")%string then Some Quit
  else None.

(** The same at the no-devices and disconnect prompts. *)
Definition rescan_answer (s : string) : option Action :=
  let choice := PyStr.lower (PyStr.strip s) in
  if ((choice =? "")%string || (choice =? "r")%string)%bool then Some Rescan
  else if (choice =? "q")%string then Some Quit
  else None.

(* ================================================================== *)
(** * Further notions: how an attempt sequence settles an outcome *)
(* ================================================================== *)

(** What an attempt sequence on [t], entered in [st], may have done to
    the outcomes when it is left: nothing; or set [t] to success, by
    [break], right after a write that exited with status 0; or set [t] to
    skipped, by [break], right after the choice "skip". *)
Definition settles (w : World) (t : DeviceType) (st : Session)
  (res : Result LoopExit * Session) : Prop :=
  (write_calls st <= write_calls (snd res))%nat /\
  (flash_results (snd res) = flash_results st \/
   (flash_results (snd res) = res_set (flash_results st) t true /\
    fst res = Ok Break /\
    (write_calls st < write_calls (snd res))%nat /\
    (exists lines,
        write_at w (Nat.pred (write_calls (snd res))) = Exited lines 0) /\
    (exists cmd s older, log (snd res) = (EvWrite cmd, s) :: older)) \/
   (flash_results (snd res) = res_set (flash_results st) t false /\
    fst res = Ok Break /\
    (exists s older,
        log (snd res) = (EvChoice PromptRetry Skip, s) :: older))).

(* ================================================================== *)
(** * The bootstrap of [main]: esptool, the manifest, the images *)
(* ================================================================== *)

(** [main] above takes the answers of [check_esptool],
    [download_manifest] and [download_firmware] from the world.  Here the
    three functions themselves are embedded, each over what it touches:
    the two subprocess runs, the HTTP requests and the clock, the cache
    directory. *)
Module Bootstrap.

(** [s.split(sep)] for a one-character separator. *)
Fixpoint split_on (sep : ascii) (s : string) : list string :=
match s with
| EmptyString => [EmptyString]
| String c r =>
    if Ascii.eqb c sep then EmptyString :: split_on sep r
    else match split_on sep r with
         | [] => [String c EmptyString]
         | first :: others => String c first :: others
         end
end.

(** [s.split()]: the runs of characters that are not blanks. *)
Fixpoint words_from (current : string) (s : string) : list string :=
match s with
| EmptyString =>
    match current with EmptyString => [] | _ => [current] end
| String c r =>
    if PyStr.isspace c then
      match current with
      | EmptyString => words_from EmptyString r
      | _ => current :: words_from EmptyString r
      end
    else words_from (current ++ String c EmptyString) r
end.

Definition split (s : string) : list string := words_from EmptyString s.

(** What [check_esptool] prints. *)
Inductive Printed :=
| PrintVersion (v : string)   (* "esptool <v> installed" *)
| PrintInstalling             (* "Installing esptool..." *)
| PrintInstalled              (* "esptool installed successfully" *)
| PrintInstallFailed.         (* "ERROR: Failed to install esptool: ..." *)

Definition IndexError : Exn := mkExn OtherError "list index out of range".

(** The second half of [check_esptool] (lines 70-80): the pip run, made
    with [check=True], so that a nonzero exit status is a
    [CalledProcessError]. *)
Definition install_esptool (pip_run : RunOutcome)
  : Outcome bool * list Printed :=
match pip_run with
| Completed returncode _ _ =>
    if returncode =? 0 then (Returns true, [PrintInstalling; PrintInstalled])
    else (Returns false, [PrintInstalling; PrintInstallFailed])
| RunRaised e =>
    if is_class CalledProcessError e
    then (Returns false, [PrintInstalling; PrintInstallFailed])
    else (Raises e, [PrintInstalling])
end.

(** [check_esptool], over the outcome of the version run and, should it
    come to that, of the pip run: what it returns and what it prints. *)
Definition check_esptool (version_run pip_run : RunOutcome)
  : Outcome bool * list Printed :=
match version_run with
| Completed returncode stdout _ =>
    if returncode =? 0 then
      (* Extract version from output *)
      let version_line := hd EmptyString (split_on (ascii_of_nat 10) (PyStr.strip stdout)) in
      match rev (split version_line) with
      | v :: _ => (Returns true, [PrintVersion v])
      | [] => (Raises IndexError, [])
      end
    else install_esptool pip_run
| RunRaised e =>
    if (is_class TimeoutExpired e || is_class FileNotFoundError e)%bool
    then install_esptool pip_run
    else (Raises e, [])
end.

(** The network as [download_manifest] sees it: how many requests were
    made, and the [time.sleep] calls, oldest first. *)
Record Net := mkNet {
  requests : nat;
  slept : list Z
}.

Section Manifest.

(** The values [json.loads] gives, Python's [None] apart, and the
    outcome of the k-th request: [urlopen], [read], [decode] and
    [json.loads] together.  [Returns None] is a body that [json.loads]
    reads as [None] (the JSON text [null]). *)
Variable Json : Type.
Variable fetch : nat -> Outcome (option Json).

(** The [for attempt in range(retries)] loop, with [todo] turns left.
    What [json.loads] gives is returned as it is; [return None] ends the
    function when the loop has no turn left. *)
Fixpoint manifest_attempts (retries : Z) (todo : nat) (attempt : Z)
  (net : Net) : Outcome (option Json) * Net :=
match todo with
| O => (Returns None, net)
| S todo' =>
    let net1 := mkNet (S (requests net)) (slept net) in
    match fetch (requests net) with
    | Returns manifest => (Returns manifest, net1)
    | Raises e =>
        if (is_class URLError e || is_class HTTPError e)%bool then
          if attempt <? retries - 1 then
            let wait_time := 2 ^ attempt in  (* Exponential backoff *)
            manifest_attempts retries todo' (attempt + 1)
              (mkNet (requests net1) (slept net1 ++ [wait_time]))
          else (Raises e, net1)
        else (Raises e, net1)
    end
end.

Definition download_manifest (retries : Z) (net : Net)
  : Outcome (option Json) * Net :=
  manifest_attempts retries (Z.to_nat retries) 0 net.

End Manifest.

(** What [urlopen] gives [download_firmware]: it raises, or it opens a
    response whose [read] returns the body or raises. *)
Inductive Response :=
| OpenRaised (e : Exn)
| Opened (body : Outcome string).

(** The files of the disk, each under the name the system knows it by,
    as a list of (file, content) with the newest write first, and the
    count of requests made. *)
Record Cache := mkCache {
  files : list (string * string);
  downloads : nat
}.

Fixpoint read_file (file : string) (fs : list (string * string))
  : option string :=
match fs with
| [] => None
| (f, content) :: rest =>
    if (f =? file)%string then Some content else read_file file rest
end.

Definition path_exists (file : string) (c : Cache) : bool :=
match read_file file (files c) with Some _ => true | None => false end.

(** [open(path, "wb")] followed by [write(content)]: the file is created
    or replaced. *)
Definition write_file (file content : string) (c : Cache) : Cache :=
  mkCache ((file, content) :: files c) (downloads c).

Section Firmware.

(** The paths of [pathlib], the join [dir / name] and the file a path
    names.  Nothing is assumed of them: for an absolute [name] the join
    of [pathlib] is [name] itself, and two paths may name one file. *)
Variable Path : Type.
Variable joinpath : Path -> string -> Path.
Variable locate : Path -> string.

Variable CACHE_DIR : Path.
Variable FIRMWARE_BASE_URL : string.

(** The answer to the k-th request, made for a URL. *)
Variable urlopen : string -> nat -> Response.

(** [download_firmware].  Creating the cache directory and writing the
    file are taken to succeed. *)
Definition download_firmware (filename : string) (force : bool) (c : Cache)
  : Outcome (option Path) * Cache :=
  let cache_path := joinpath CACHE_DIR filename in
  if (path_exists (locate cache_path) c && negb force)%bool then
    (Returns (Some cache_path), c)
  else
    let url := FIRMWARE_BASE_URL ++ filename in
    let c1 := mkCache (files c) (S (downloads c)) in
    let failed (e : Exn) (c' : Cache) : Outcome (option Path) * Cache :=
      if (is_class URLError e || is_class HTTPError e)%bool
      then (Returns None, c')
      else (Raises e, c') in
    match urlopen url (downloads c) with
    | OpenRaised e => failed e c1
    | Opened body =>
        (* open(cache_path, "wb") has created or emptied the file *)
        let c2 := write_file (locate cache_path) EmptyString c1 in
        match body with
        | Raises e => failed e c2
        | Returns data =>
            (Returns (Some cache_path),
             write_file (locate cache_path) data c2)
        end
    end.

End Firmware.

End Bootstrap.

(** The waits of the backoff: 2^first, 2^(first+1), ..., [count] of
    them. *)
Fixpoint backoff (first : Z) (count : nat) : list Z :=
match count with
| O => []
| S n => 2 ^ first :: backoff (first + 1) n
end.

Definition total (waits : list Z) : Z := fold_right Z.add 0 waits.

(** The request fails with an error of the URL family. *)
Definition url_failure {A} (o : Outcome A) : Prop :=
  exists e, o = Raises e /\
            (is_class URLError e || is_class HTTPError e)%bool = true.

(** The version run does not show a working esptool: it exits with a
    nonzero status, times out, or the interpreter is not found. *)
Definition needs_install (version_run : RunOutcome) : Prop :=
  (exists rc out err, version_run = Completed rc out err /\ rc <> 0) \/
  (exists e, version_run = RunRaised e /\
             (is_class TimeoutExpired e || is_class FileNotFoundError e)%bool
             = true).

(** The pip run ends in a [CalledProcessError]. *)
Definition pip_failed (pip_run : RunOutcome) : Prop :=
  (exists rc out err, pip_run = Completed rc out err /\ rc <> 0) \/
  (exists e, pip_run = RunRaised e /\ is_class CalledProcessError e = true).

(** The request number [k] from now is the first that does not fail
    with an error of the URL family, and its body is read as [None]. *)
Definition null_body_at {A} (fetch : nat -> Outcome (option A))
  (net : Bootstrap.Net) (k : nat) : Prop :=
  (forall i, (i < k)%nat ->
             url_failure (fetch (Bootstrap.requests net + i)%nat)) /\
  fetch (Bootstrap.requests net + k)%nat = Returns None.

(** A server that refuses the first [failures] requests and then
    serves [manifest]. *)
Definition flaky_server {A} (failures : nat) (manifest : A)
  : nat -> Outcome A :=
  fun k => if Nat.ltb k failures
           then Raises (mkExn URLError "<urlopen error timed out>")
           else Returns manifest.

Definition fresh_net : Bootstrap.Net := Bootstrap.mkNet 0 [].






(** A string without any blank character. *)
Definition no_blank (s : string) : Prop :=
  forall c, In c (list_ascii_of_string s) -> PyStr.isspace c = false.

(** At least one device type is settled: flashed or skipped. *)
Definition handled_some (r : FlashResults) : Prop :=
  res_get r C5 <> None \/ res_get r Wroom <> None.

(** Where a summary stands in the log of a run, and what it shows. *)
Definition summary_post (res : Result Z * Session) : Prop :=
  forall s, In (EvSummary, s) (log (snd res)) ->
            s = flash_results (snd res) /\ handled_some s.

(* ================================================================== *)
(** * Facts about the string operations *)
(* ================================================================== *)

Lemma prefix_spec (a b : string) :
  String.prefix a b = true <-> exists post, b = a ++ post.
Proof.
  revert b; induction a as [|c a IH]; intros b.
  - destruct b; simpl; split; intros; try reflexivity; eexists; reflexivity.
  - destruct b as [|d b]; simpl.
    + split; [discriminate | intros [post H]; discriminate].
    + destruct (ascii_dec c d) as [->|Hne].
      * rewrite IH. split; intros [post H]; exists post.
        -- now rewrite H.
        -- now inversion H.
      * split; [discriminate | intros [post H]; inversion H; congruence].
Qed.

Lemma contains_spec (needle hay : string) :
  PyStr.contains needle hay = true <-> occurs_in needle hay.
Proof.
  unfold occurs_in. induction hay as [|c hay IH].
  - cbn [PyStr.contains]. rewrite orb_false_r. split.
    + intros H. apply prefix_spec in H. destruct H as [post H].
      exists "", post. exact H.
    + intros [pre [post H]]. destruct pre; simpl in H.
      * apply prefix_spec. now exists post.
      * discriminate.
  - cbn [PyStr.contains]. rewrite orb_true_iff, IH. split.
    + intros [H | [pre [post H]]].
      * apply prefix_spec in H. destruct H as [post H]. now exists "", post.
      * exists (String c pre), post. simpl. now rewrite H.
    + intros [pre [post H]]. destruct pre as [|d pre]; simpl in H.
      * left. apply prefix_spec. now exists post.
      * right. inversion H. now exists pre, post.
Qed.

Lemma string_app_assoc (a b c : string) : (a ++ b) ++ c = a ++ b ++ c.
Proof. induction a; simpl; [reflexivity | now rewrite IHa]. Qed.

Lemma lower_app (a b : string) :
  PyStr.lower (a ++ b) = PyStr.lower a ++ PyStr.lower b.
Proof. induction a; simpl; [reflexivity | now rewrite IHa]. Qed.

Lemma lower_split (s a b : string) :
  PyStr.lower s = a ++ b ->
  exists a' b', s = a' ++ b' /\ PyStr.lower a' = a /\ PyStr.lower b' = b.
Proof.
  revert s; induction a as [|c a IH]; intros s H.
  - exists "", s. simpl in *. auto.
  - destruct s as [|d s]; simpl in H; [discriminate|].
    inversion H as [[Hc Hs]]. destruct (IH _ Hs) as [a' [b' [E [Ea Eb]]]].
    exists (String d a'), b'. simpl. subst. auto.
Qed.

Lemma lower_char_idem (c : ascii) :
  PyStr.lower_char (PyStr.lower_char c) = PyStr.lower_char c.
Proof.
  destruct c as [[] [] [] [] [] [] [] []]; reflexivity.
Qed.

Lemma lower_idem (s : string) : PyStr.lower (PyStr.lower s) = PyStr.lower s.
Proof. induction s; simpl; [reflexivity | now rewrite lower_char_idem, IHs]. Qed.

(** The test the program makes, [needle in output.lower()] for a
    lower-case [needle], is the occurrence of [needle] in any letter
    case. *)
Lemma contains_lower_iff (needle hay : string) :
  PyStr.lower needle = needle ->
  PyStr.contains needle (PyStr.lower hay) = true <-> occurs_nocase needle hay.
Proof.
  intros Hn. rewrite contains_spec. unfold occurs_in, occurs_nocase. split.
  - intros [pre [post H]].
    destruct (lower_split _ _ _ H) as [pre' [r [E [Ep Er]]]].
    destruct (lower_split _ _ _ Er) as [t [post' [E' [Et Epost]]]].
    exists pre', t, post'. subst. now rewrite Hn.
  - intros [pre [t [post [E Et]]]]. subst hay.
    exists (PyStr.lower pre), (PyStr.lower post).
    now rewrite !lower_app, Et, Hn.
Qed.

Lemma occurs_nocase_weaken (short long hay : string) :
  occurs_in short long ->
  occurs_nocase long hay -> occurs_nocase short hay.
Proof.
  intros [a [b E]] [pre [t [post [H Ht]]]]. subst long.
  rewrite !lower_app in Ht.
  destruct (lower_split _ _ _ Ht) as [a' [r [E1 [Ea Er]]]].
  destruct (lower_split _ _ _ Er) as [s' [b' [E2 [Es Eb]]]].
  exists (pre ++ a'), s', (b' ++ post). split; [|exact Es].
  subst. now rewrite !string_app_assoc.
Qed.

(* ================================================================== *)
(** * The chip classifier *)
(* ================================================================== *)

Lemma chip_of_output_c5 (output : string) :
  c5_marker output -> chip_of_output output = Some C5.
Proof.
  intros [H | H]; apply contains_lower_iff in H; try reflexivity;
    unfold chip_of_output; rewrite H; [reflexivity|].
  now rewrite orb_true_r.
Qed.

Lemma not_marker_false (needle output : string) :
  PyStr.lower needle = needle ->
  ~ occurs_nocase needle output ->
  PyStr.contains needle (PyStr.lower output) = false.
Proof.
  intros Hn H. destruct (PyStr.contains _ _) eqn:E; [|reflexivity].
  apply contains_lower_iff in E; [contradiction | exact Hn].
Qed.

Lemma chip_of_output_other_c (output : string) :
  c_family_marker output -> ~ c5_marker output -> chip_of_output output = None.
Proof.
  intros Hc Hn5. unfold chip_of_output.
  rewrite (not_marker_false "esp32-c5"), (not_marker_false "esp32c5");
    try reflexivity; try (intros H; apply Hn5; [left + right]; exact H).
  cbn [orb].
  destruct Hc as [H | H]; apply contains_lower_iff in H; try reflexivity;
    rewrite H; [reflexivity | now rewrite orb_true_r].
Qed.

Lemma chip_of_output_wroom (output : string) :
  occurs_nocase "esp32" output -> ~ c_family_marker output ->
  chip_of_output output = Some Wroom.
Proof.
  intros He Hnc. unfold chip_of_output.
  assert (H5a : ~ occurs_nocase "esp32-c5" output).
  { intros H. apply Hnc. left.
    apply (occurs_nocase_weaken "esp32-c" "esp32-c5"); [|exact H].
    now exists "", "5". }
  assert (H5b : ~ occurs_nocase "esp32c5" output).
  { intros H. apply Hnc. right.
    apply (occurs_nocase_weaken "esp32c" "esp32c5"); [|exact H].
    now exists "", "5". }
  rewrite (not_marker_false "esp32-c5"), (not_marker_false "esp32c5"),
    (not_marker_false "esp32-c"), (not_marker_false "esp32c");
    try reflexivity; try assumption;
    try (intros H; apply Hnc; [left + right]; exact H).
  cbn [orb]. apply contains_lower_iff in He; [|reflexivity].
  rewrite He. now rewrite orb_true_r.
Qed.

Lemma c3_is_c_family (output : string) :
  occurs_nocase "esp32-c3" output -> c_family_marker output.
Proof.
  intros H. left. apply (occurs_nocase_weaken "esp32-c" "esp32-c3"); [|exact H].
  now exists "", "3".
Qed.

Lemma chip_of_output_none (output : string) :
  ~ occurs_nocase "esp32" output -> chip_of_output output = None.
Proof.
  intros Hn. unfold chip_of_output.
  assert (Hno : forall marker,
             PyStr.lower marker = marker -> occurs_in "esp32" marker ->
             PyStr.contains marker (PyStr.lower output) = false).
  { intros marker Hl Hin. apply not_marker_false; [exact Hl|].
    intros H. apply Hn. now apply (occurs_nocase_weaken "esp32" marker). }
  rewrite (Hno "esp32-c5"), (Hno "esp32c5"), (Hno "esp32-c"), (Hno "esp32c"),
    (Hno "esp32-d"), (Hno "esp32"); try reflexivity.
  - now exists "", "".
  - now exists "", "-d".
  - now exists "", "c".
  - now exists "", "-c".
  - now exists "", "c5".
  - now exists "", "-c5".
Qed.

(** C2, as the program has it.  When the identification run completes,
    its output (stdout followed by stderr) decides: a C5 mark,
    "esp32-c5" or "esp32c5" in any letter case, gives "c5"; "esp32-c3",
    or any other mark of the C family, gives [None] provided no C5 mark
    occurs as well; "esp32" with no mark of the C family gives "wroom";
    and an output without "esp32" gives [None].  When the run raises a
    timeout or any other [Exception], the answer is [None]. *)
Theorem detect_chip_type_cases (w : World) (port : string) (st : Session) :
  (forall rc out err,
      chip_id_at w (chip_calls st) = Completed rc out err ->
      (occurs_nocase "esp32-c5" (out ++ err) \/
       occurs_nocase "esp32c5" (out ++ err) ->
       fst (detect_chip_type w port st) = Ok (Some C5)) /\
      (occurs_nocase "esp32-c3" (out ++ err) \/ c_family_marker (out ++ err) ->
       ~ c5_marker (out ++ err) ->
       fst (detect_chip_type w port st) = Ok None) /\
      (occurs_nocase "esp32" (out ++ err) ->
       ~ c_family_marker (out ++ err) ->
       fst (detect_chip_type w port st) = Ok (Some Wroom)) /\
      (~ occurs_nocase "esp32" (out ++ err) ->
       fst (detect_chip_type w port st) = Ok None)) /\
  (forall e,
      chip_id_at w (chip_calls st) = RunRaised e ->
      is_Exception e = true ->
      fst (detect_chip_type w port st) = Ok None).
Proof.
  split.
  - intros rc out err Hrun.
    unfold detect_chip_type, bind, next_chip; cbn [fst snd]; rewrite Hrun.
    cbn [ret fst]. split; [|split; [|split]].
    + intros H. f_equal. apply chip_of_output_c5. exact H.
    + intros H Hn. f_equal. apply chip_of_output_other_c; [|exact Hn].
      destruct H as [H | H]; [now apply c3_is_c_family | exact H].
    + intros H Hn. f_equal. now apply chip_of_output_wroom.
    + intros Hn. f_equal. now apply chip_of_output_none.
  - intros e Hrun He.
    unfold detect_chip_type, bind, next_chip; cbn [fst snd]; rewrite Hrun, He.
    reflexivity.
Qed.

Lemma occurs_nocase_dec (needle hay : string) :
  PyStr.lower needle = needle ->
  PyStr.contains needle (PyStr.lower hay) = false -> ~ occurs_nocase needle hay.
Proof.
  intros Hn Hf H. apply contains_lower_iff in H; [congruence | exact Hn].
Qed.

(** The cases of [detect_chip_type_cases] on outputs esptool prints, the
    C5 under both of its marks. *)
Lemma detect_chip_type_cases_witness :
  let st := initial_session [] in
  fst (detect_chip_type (chip_world "Chip is ESP32-C5 (revision v1.0)")
         "COM5" st) = Ok (Some C5) /\
  fst (detect_chip_type (chip_world "Detecting chip type... esp32c5")
         "COM5" st) = Ok (Some C5) /\
  fst (detect_chip_type (chip_world "Chip is ESP32-C3 (QFN32)") "COM5" st)
    = Ok None /\
  fst (detect_chip_type (chip_world "Chip is ESP32-D0WD-V3") "COM5" st)
    = Ok (Some Wroom) /\
  fst (detect_chip_type (chip_world "A fatal error occurred: no serial data")
         "COM5" st) = Ok None /\
  fst (detect_chip_type
         (workstation (fun _ => Comports [])
            (fun _ => RunRaised (mkExn TimeoutExpired "timed out"))
            (fun _ => tool_missing) (fun _ => Exited [] 0)) "COM5" st)
    = Ok None.
Proof.
  cbv zeta.
  pose proof (fun text =>
                proj1 (detect_chip_type_cases (chip_world text) "COM5"
                         (initial_session []))
                  0 text "" eq_refl) as H.
  split; [|split; [|split; [|split; [|split]]]].
  - destruct (H "Chip is ESP32-C5 (revision v1.0)") as (H1 & _).
    apply H1. left.
    exists "Chip is ", "ESP32-C5", " (revision v1.0)". split; reflexivity.
  - destruct (H "Detecting chip type... esp32c5") as (H1 & _).
    apply H1. right.
    exists "Detecting chip type... ", "esp32c5", "". split; reflexivity.
  - destruct (H "Chip is ESP32-C3 (QFN32)") as (_ & H2 & _).
    apply H2.
    + left. exists "Chip is ", "ESP32-C3", " (QFN32)". split; reflexivity.
    + intros [H0 | H0]; revert H0; apply occurs_nocase_dec; reflexivity.
  - destruct (H "Chip is ESP32-D0WD-V3") as (_ & _ & H3 & _).
    apply H3.
    + exists "Chip is ", "ESP32", "-D0WD-V3". split; reflexivity.
    + intros [H0 | H0]; revert H0; apply occurs_nocase_dec; reflexivity.
  - destruct (H "A fatal error occurred: no serial data") as (_ & _ & _ & H4).
    apply H4. apply occurs_nocase_dec; reflexivity.
  - apply (proj2 (detect_chip_type_cases _ "COM5" _)
             (mkExn TimeoutExpired "timed out")); reflexivity.
Defined.

(** C2 as stated fails: this output contains "esp32-c3" and, in no
    letter case, "esp32-c5", so that the claim gives it [None] and
    nothing else; it is classified "c5", on the mark "esp32c5" the claim
    does not name. *)
Lemma detect_chip_type_c3_counterexample :
  let output := "Chip is ESP32-C3, image built for esp32c5" in
  let w := chip_world output in
  occurs_nocase "esp32-c3" output /\
  ~ occurs_nocase "esp32-c5" output /\
  fst (detect_chip_type w "COM5" (initial_session [])) = Ok (Some C5) /\
  fst (detect_chip_type w "COM5" (initial_session [])) <> Ok None.
Proof.
  cbv zeta. split; [|split; [|split]].
  - exists "Chip is ", "ESP32-C3", ", image built for esp32c5".
    split; reflexivity.
  - apply occurs_nocase_dec; reflexivity.
  - reflexivity.
  - discriminate.
Qed.

(* ================================================================== *)
(** * The operator prompts *)
(* ================================================================== *)

(** The second half of the test at line 323 never decides: the test is
    [choice == ""]. *)
Lemma retry_condition_redundant (choice : string) :
  ((choice =? "")%string
   || ((choice =? "r")%string && Nat.eqb (String.length choice) 0))%bool
  = (choice =? "")%string.
Proof.
  destruct choice as [|c r]; [reflexivity|].
  cbn [String.length Nat.eqb]. now rewrite andb_false_r, orb_false_r.
Qed.

(** C9.  An answer that is empty once stripped is the default of each
    prompt: "retry" at the retry prompt, whose test is just
    [choice == ""], and "rescan" at the two others. *)
Theorem prompts_default_on_empty (s : string) (rest : list InputEvent)
  (st : Session) :
  PyStr.strip s = "" ->
  stdin st = Line s :: rest ->
  fst (prompt_retry st) = Ok Retry /\
  fst (prompt_no_devices st) = Ok Rescan /\
  fst (prompt_disconnect st) = Ok Rescan /\
  (forall choice : string,
      ((choice =? "")%string
       || ((choice =? "r")%string
           && Nat.eqb (String.length choice) 0))%bool
      = (choice =? "")%string).
Proof.
  intros Hs Hin.
  unfold prompt_retry, prompt_no_devices, prompt_disconnect, prompt_with.
  rewrite Hin. cbn [prompt_retry_loop prompt_rescan_loop]. rewrite Hs.
  repeat split. apply retry_condition_redundant.
Qed.

Lemma prompts_default_on_empty_witness :
  let st := initial_session [Line ""; Line "q"] in
  fst (prompt_retry st) = Ok Retry /\
  fst (prompt_no_devices st) = Ok Rescan /\
  fst (prompt_disconnect st) = Ok Rescan.
Proof.
  cbv zeta.
  pose proof (prompts_default_on_empty "" [Line "q"]
                (initial_session [Line ""; Line "q"]) eq_refl eq_refl) as H.
  destruct H as [H1 [H2 [H3 _]]]. repeat split; assumption.
Defined.

(** At the retry prompt "r" is a rescan: the dead half of the test does
    not capture it. *)
Example prompt_retry_r :
  fst (prompt_retry (initial_session [Line " R "])) = Ok Rescan.
Proof. reflexivity. Qed.

Example prompt_retry_invalid_then_erase :
  fst (prompt_retry (initial_session [Line "x"; Line "E"])) = Ok Erase.
Proof. reflexivity. Qed.

Example prompt_at_end_of_input :
  fst (prompt_no_devices (initial_session [Line "what"])) = Ok Quit.
Proof. reflexivity. Qed.

(* ================================================================== *)
(** * The port enumerator *)
(* ================================================================== *)

(** When pyserial cannot be imported, the PowerShell fallback swallows
    every [Exception] and [list_com_ports] returns a list. *)
Lemma list_com_ports_fallback_total (w : World) (st : Session) (e : Exn) :
  pyserial_at w (enum_calls st) = SerialRaised e ->
  is_class ImportError e = true ->
  (forall e', powershell_at w (enum_calls st) = RunRaised e' ->
              is_Exception e' = true) ->
  exists ports, fst (list_com_ports w st) = Ok ports.
Proof.
  intros Hs Hi Hp. unfold list_com_ports, bind, next_enum. cbn [fst snd].
  rewrite Hs, Hi.
  destruct (powershell_at w (enum_calls st)) as [rc out err | e'] eqn:Hrun.
  - destruct ((rc =? 0) && PyStr.truthy (PyStr.strip out))%bool;
      [|eexists; reflexivity].
    destruct (json_loads w out) as [[p | items |]|]; try (eexists; reflexivity).
    destruct (port_infos items); eexists; reflexivity.
  - rewrite (Hp e' eq_refl). eexists; reflexivity.
Qed.

(** Any other exception of pyserial's enumeration leaves
    [list_com_ports]. *)
Lemma list_com_ports_propagates (w : World) (st : Session) (e : Exn) :
  pyserial_at w (enum_calls st) = SerialRaised e ->
  is_class ImportError e = false ->
  fst (list_com_ports w st) = Raise e.
Proof.
  intros Hs Hi. unfold list_com_ports, bind, next_enum. cbn [fst snd].
  now rewrite Hs, Hi.
Qed.

(** C8 fails on the code.  With pyserial installed and its [comports()]
    failing with an [OSError], [list_com_ports] raises, and so does the
    scan built on it. *)
Theorem list_com_ports_raises_on_enumeration_failure :
  let e := mkExn OtherError "[Errno 13] Permission denied: '/sys/class/tty'" in
  let w := workstation (fun _ => SerialRaised e) (fun _ => tool_missing)
             (fun _ => tool_missing) (fun _ => Exited [] 0) in
  fst (list_com_ports w (initial_session [])) = Raise e /\
  fst (scan_for_devices w (initial_session [])) = Raise e.
Proof. split; reflexivity. Qed.

(* ================================================================== *)
(** * What the leaf functions do to the session *)
(* ================================================================== *)

Lemma list_com_ports_session (w : World) (st : Session) :
  snd (list_com_ports w st) = snd (next_enum st).
Proof.
  unfold list_com_ports, bind. cbn [next_enum fst snd].
  destruct (pyserial_at w (enum_calls st)) as [ports | e]; [reflexivity|].
  destruct (is_class ImportError e); [|reflexivity].
  destruct (powershell_at w (enum_calls st)) as [rc out err | e'].
  - destruct ((rc =? 0) && PyStr.truthy (PyStr.strip out))%bool;
      [|reflexivity].
    destruct (json_loads w out) as [[p | items |]|]; try reflexivity.
    destruct (port_infos items); reflexivity.
  - destruct (is_Exception e'); reflexivity.
Qed.

Lemma list_com_ports_answer (w : World) (st1 st2 : Session) :
  enum_calls st1 = enum_calls st2 ->
  fst (list_com_ports w st1) = fst (list_com_ports w st2).
Proof.
  intros E. unfold list_com_ports, bind. cbn [next_enum fst snd]. rewrite E.
  destruct (pyserial_at w (enum_calls st2)) as [ports | e]; [reflexivity|].
  destruct (is_class ImportError e); [|reflexivity].
  destruct (powershell_at w (enum_calls st2)) as [rc out err | e'].
  - destruct ((rc =? 0) && PyStr.truthy (PyStr.strip out))%bool;
      [|reflexivity].
    destruct (json_loads w out) as [[p | items |]|]; try reflexivity.
    destruct (port_infos items); reflexivity.
  - destruct (is_Exception e'); reflexivity.
Qed.

Lemma list_com_ports_eq (w : World) (st : Session) :
  list_com_ports w st = (fst (list_com_ports w st), snd (next_enum st)).
Proof.
  rewrite <- (list_com_ports_session w st). now destruct (list_com_ports w st).
Qed.

Lemma port_exists_eq (w : World) (port : string) (st : Session) :
  port_exists w port st =
  (match fst (list_com_ports w st) with
   | Ok ports => Ok (existsb (fun p => (device p =? port)%string) ports)
   | Raise e => Raise e
   | OutOfFuel => OutOfFuel
   end, snd (next_enum st)).
Proof.
  unfold port_exists, bind. rewrite list_com_ports_eq. cbn [fst snd].
  destruct (fst (list_com_ports w st)); reflexivity.
Qed.

Lemma existsb_device (port : string) (ports : list PortInfo) :
  existsb (fun p => (device p =? port)%string) ports = false
  <-> ~ In port (map device ports).
Proof.
  induction ports as [|p ports IH]; cbn [existsb map In].
  - tauto.
  - rewrite orb_false_iff, IH, String.eqb_neq. tauto.
Qed.

Lemma detect_chip_type_session (w : World) (port : string) (st : Session) :
  snd (detect_chip_type w port st) = snd (next_chip st).
Proof.
  unfold detect_chip_type, bind. cbn [next_chip fst snd].
  destruct (chip_id_at w (chip_calls st)) as [rc out err | e]; [reflexivity|].
  destruct (is_Exception e); reflexivity.
Qed.

(* ================================================================== *)
(** * The flash executor *)
(* ================================================================== *)

Lemma write_result_not_disconnected (lines : list string) (rc : Z) :
  write_result lines rc <> disconnected.
Proof.
  unfold write_result, disconnected.
  destruct (rc =? 0); [discriminate|].
  destruct (PyStr.contains "Failed to connect" _); [discriminate|].
  destruct (PyStr.contains "Timed out" _); [discriminate|].
  destruct (PyStr.contains "Permission" _); discriminate.
Qed.

Ltac simp_in H :=
  cbn -[list_com_ports port_exists write_result is_class is_Exception] in H.

Lemma write_block_session (w : World) (st s0 : Session) :
  snd (match write_at w (write_calls st) with
       | Exited lines returncode =>
           ret (write_result (map PyStr.rstrip lines) returncode)
       | WriteRaised e =>
           if is_class TimeoutExpired e
           then ret (false, Some "Flash operation timed out")
           else if is_Exception e
                then ret (false, Some (exn_text e))
                else raise e
       end s0) = s0.
Proof.
  destruct (write_at w (write_calls st)) as [lines rc | e]; [reflexivity|].
  destruct (is_class TimeoutExpired e); [reflexivity|].
  destruct (is_Exception e); reflexivity.
Qed.

Lemma write_block_disconnected (w : World) (st s0 : Session) :
  fst (match write_at w (write_calls st) with
       | Exited lines returncode =>
           ret (write_result (map PyStr.rstrip lines) returncode)
       | WriteRaised e =>
           if is_class TimeoutExpired e
           then ret (false, Some "Flash operation timed out")
           else if is_Exception e
                then ret (false, Some (exn_text e))
                else raise e
       end s0) = Ok disconnected ->
  exists e, write_at w (write_calls st) = WriteRaised e /\
            is_class TimeoutExpired e = false /\
            is_Exception e = true /\
            exn_text e = "Device disconnected".
Proof.
  destruct (write_at w (write_calls st)) as [lines rc | e].
  - cbn [ret fst]. intros H. inversion H as [H'].
    now apply write_result_not_disconnected in H'.
  - destruct (is_class TimeoutExpired e) eqn:Et; [discriminate|].
    destruct (is_Exception e) eqn:Ee; [|discriminate].
    cbn [ret fst]. intros H. inversion H as [H'].
    exists e. repeat split; assumption.
Qed.

(** C3, as the program has it.  The port is missing from the
    enumeration [flash_device] makes on entry exactly when the call
    answers "Device disconnected" without having started a write,
    whatever the tools print; and then no erase is started either: the
    two call counters stand still and the log gains the attempt alone.
    With the port present the same answer comes back in one case only:
    the write step raised an [Exception], not a timeout, whose text is
    that very message, returned as it is by [str(e)]. *)
Theorem flash_device_disconnected_iff (w : World) (t : DeviceType)
  (port firmware : string) (erase_first : bool) (st : Session) :
  let res := flash_device w t port firmware erase_first st in
  (port_absent w st port <->
   fst res = Ok disconnected /\ write_calls (snd res) = write_calls st) /\
  (port_absent w st port ->
   erase_calls (snd res) = erase_calls st /\
   write_calls (snd res) = write_calls st /\
   log (snd res) = (EvAttempt t port erase_first, flash_results st) :: log st)
  /\
  (fst res = Ok disconnected -> ~ port_absent w st port ->
   exists e, write_at w (write_calls st) = WriteRaised e /\
             is_class TimeoutExpired e = false /\
             is_Exception e = true /\
             exn_text e = "Device disconnected").
Proof.
  cbv zeta. unfold port_absent.
  remember (flash_device w t port firmware erase_first st) as res eqn:Hres.
  unfold flash_device, bind in Hres. simp_in Hres.
  rewrite port_exists_eq in Hres. simp_in Hres.
  match type of Hres with
  | context [list_com_ports w ?s] =>
      rewrite (list_com_ports_answer w s st) in Hres by reflexivity
  end.
  destruct (fst (list_com_ports w st)) as [ports | e |] eqn:Hports.
  2,3: subst res; split;
    [split; [intros [ps [H _]]; discriminate H | intros [H _]; discriminate H]
    | split; [intros [ps [H _]]; discriminate H | intros H; discriminate H]].
  destruct (existsb _ ports) eqn:Hex; simp_in Hres.
  2:{ apply existsb_device in Hex. subst res. cbn [ret fst snd].
      split; [|split].
      - split; [intros _; split; reflexivity | intros _; now exists ports].
      - intros _. repeat split.
      - intros _ Hn. exfalso. apply Hn. now exists ports. }
  assert (Hpresent :
           ~ (exists ps, Ok ports = Ok ps /\ ~ In port (map device ps))).
  { intros [ps [E Hn]]. inversion E; subst ps.
    apply existsb_device in Hn. congruence. }
  split; [|split; [intros H; contradiction|]].
  - split; [intros H; contradiction|]. intros [Hd Hw]. exfalso.
    destruct erase_first; simp_in Hres.
    + destruct (erase_at w (erase_calls st)) as [rc out err | e];
        simp_in Hres.
      * destruct (rc =? 0); simp_in Hres; [|subst res; discriminate Hd].
        subst res. rewrite write_block_session in Hw. cbn in Hw. lia.
      * destruct (is_class TimeoutExpired e); subst res; discriminate Hd.
    + subst res. rewrite write_block_session in Hw. cbn in Hw. lia.
  - intros Hd _.
    destruct erase_first; simp_in Hres.
    + destruct (erase_at w (erase_calls st)) as [rc out err | e];
        simp_in Hres.
      * destruct (rc =? 0); simp_in Hres; [|subst res; discriminate Hd].
        subst res. exact (write_block_disconnected w st _ Hd).
      * destruct (is_class TimeoutExpired e); subst res; discriminate Hd.
    + subst res. exact (write_block_disconnected w st _ Hd).
Qed.

(** COM5 is not listed: the answer is "Device disconnected", and
    neither the erase that was asked for nor the write is started. *)
Lemma flash_device_disconnected_iff_witness :
  let absent := workstation (fun _ => Comports [com "3"])
                  (fun _ => tool_missing) (fun _ => tool_missing)
                  (fun _ => Exited ["Failed to connect"] 2) in
  let res := flash_device absent C5 "COM5" "c5_merged.bin" true
               (initial_session []) in
  fst res = Ok disconnected /\
  erase_calls (snd res) = 0%nat /\
  write_calls (snd res) = 0%nat.
Proof.
  cbv zeta.
  pose proof (flash_device_disconnected_iff
                (workstation (fun _ => Comports [com "3"])
                   (fun _ => tool_missing) (fun _ => tool_missing)
                   (fun _ => Exited ["Failed to connect"] 2))
                C5 "COM5" "c5_merged.bin" true (initial_session [])) as H.
  cbv zeta in H. destruct H as (Hiff & Hquiet & _).
  assert (Habs : port_absent
                   (workstation (fun _ => Comports [com "3"])
                      (fun _ => tool_missing) (fun _ => tool_missing)
                      (fun _ => Exited ["Failed to connect"] 2))
                   (initial_session []) "COM5").
  { exists [com "3"]. split; [reflexivity|].
    intros [H | []]. discriminate H. }
  split; [exact (proj1 (proj1 Hiff Habs))|].
  destruct (Hquiet Habs) as [He [Hw _]]. split; assumption.
Defined.

(** C3 as stated fails: COM5 is listed, the write step raises an
    exception whose text is "Device disconnected", and [flash_device]
    answers with the failure of a missing port, after having started the
    write. *)
Lemma flash_device_disconnected_counterexample :
  let w := one_port_world "COM5"
             (WriteRaised (mkExn OtherError "Device disconnected")) in
  let res := flash_device w C5 "COM5" "c5_merged.bin" false
               (initial_session []) in
  port_present w (initial_session []) "COM5" /\
  ~ port_absent w (initial_session []) "COM5" /\
  fst res = Ok disconnected /\
  write_calls (snd res) = 1%nat.
Proof.
  cbv zeta. split; [|split; [|split]].
  - exists [mkPortInfo "COM5" "USB Serial Device"].
    split; [reflexivity | left; reflexivity].
  - intros [ports [E Hn]]. inversion E; subst ports.
    apply Hn. left. reflexivity.
  - reflexivity.
  - reflexivity.
Qed.

Lemma lower_char_not_P (c : ascii) : PyStr.lower_char c <> "P"%char.
Proof.
  destruct c as [[] [] [] [] [] [] [] []]; vm_compute; discriminate.
Qed.

Lemma lower_has_no_P (s pre post : string) :
  PyStr.lower s <> pre ++ String "P" post.
Proof.
  revert pre; induction s as [|c s IH]; intros pre H.
  - destruct pre; discriminate.
  - destruct pre as [|d pre]; simpl in H; inversion H.
    + now apply (lower_char_not_P c).
    + now apply (IH pre).
Qed.

(** The test at line 296 looks for a capital "P" in a string that has
    just been lower-cased: it never succeeds. *)
Lemma permission_test_never_succeeds (output : string) :
  PyStr.contains "Permission" (PyStr.lower output) = false.
Proof.
  destruct (PyStr.contains _ _) eqn:E; [|reflexivity].
  apply contains_spec in E. destruct E as [pre [post E]].
  exfalso. exact (lower_has_no_P output pre ("ermission" ++ post) E).
Qed.

(** What lines 287-299 do decide: exit status 0 is a success; otherwise
    "Failed to connect" in the output comes first, then "Timed out", and
    everything else is reported with the exit code. *)
Lemma write_result_cases (lines : list string) (rc : Z) :
  let output := PyStr.join newline lines in
  (rc = 0 -> write_result lines rc = (true, None)) /\
  (rc <> 0 -> occurs_in "Failed to connect" output ->
   write_result lines rc
   = (false, Some "Failed to connect (device not in download mode?)")) /\
  (rc <> 0 -> ~ occurs_in "Failed to connect" output ->
   occurs_in "Timed out" output ->
   write_result lines rc = (false, Some "Connection timed out")) /\
  (rc <> 0 -> ~ occurs_in "Failed to connect" output ->
   ~ occurs_in "Timed out" output ->
   write_result lines rc
   = (false, Some ("Flash failed (exit code " ++ PyStr.str_of_int rc ++ ")"))).
Proof.
  cbv zeta. unfold write_result. repeat split.
  - intros ->. reflexivity.
  - intros Hrc H. apply Z.eqb_neq in Hrc. rewrite Hrc.
    apply contains_spec in H. now rewrite H.
  - intros Hrc Hn H. apply Z.eqb_neq in Hrc. rewrite Hrc.
    destruct (PyStr.contains "Failed to connect" _) eqn:E.
    + apply contains_spec in E. contradiction.
    + apply contains_spec in H. now rewrite H.
  - intros Hrc Hn1 Hn2. apply Z.eqb_neq in Hrc. rewrite Hrc.
    destruct (PyStr.contains "Failed to connect" _) eqn:E1.
    { apply contains_spec in E1. contradiction. }
    destruct (PyStr.contains "Timed out" _) eqn:E2.
    { apply contains_spec in E2. contradiction. }
    now rewrite permission_test_never_succeeds.
Qed.

Lemma write_result_never_port_busy (lines : list string) (rc : Z) :
  write_result lines rc
  <> (false, Some "Permission denied (port in use by another program?)").
Proof.
  unfold write_result. rewrite permission_test_never_succeeds.
  destruct (rc =? 0); [discriminate|].
  destruct (PyStr.contains "Failed to connect" _); [discriminate|].
  destruct (PyStr.contains "Timed out" _); discriminate.
Qed.

(** C6 fails on the code.  The write step exits with status 2 and its
    output carries the permission mark and neither of the two marks that
    come before it; [flash_device] reports the bare exit code, not
    "Permission denied (port in use by another program?)". *)
Theorem flash_device_permission_marker_unclassified :
  let w := one_port_world "COM3" (Exited port_busy_lines 2) in
  let output := PyStr.join newline (map PyStr.rstrip port_busy_lines) in
  occurs_nocase "permission" output /\
  ~ occurs_in "Failed to connect" output /\
  ~ occurs_in "Timed out" output /\
  fst (flash_device w Wroom "COM3" "wroom_merged.bin" false (initial_session []))
  = Ok (false, Some "Flash failed (exit code 2)").
Proof.
  cbv zeta. split; [|split; [|split]].
  - apply contains_lower_iff; reflexivity.
  - intros H. apply contains_spec in H. discriminate H.
  - intros H. apply contains_spec in H. discriminate H.
  - reflexivity.
Qed.

(* ================================================================== *)
(** * The sort of the scanner *)
(* ================================================================== *)

Section Sorting.

Context {A : Type} (key : A -> Z).

Lemma insert_desc_perm (x : A) (l : list A) :
  Permutation (insert_desc key x l) (x :: l).
Proof.
  induction l as [|y r IH]; cbn [insert_desc]; [reflexivity|].
  destruct (key y <=? key x); [reflexivity|].
  rewrite IH. apply perm_swap.
Qed.

Lemma sorted_reverse_perm (l : list A) :
  Permutation (sorted_reverse key l) l.
Proof.
  induction l as [|x l IH]; cbn; [constructor|].
  rewrite insert_desc_perm. now constructor.
Qed.

Lemma insert_desc_sorted (x : A) (l : list A) :
  StronglySorted (key_desc key) l ->
  StronglySorted (key_desc key) (insert_desc key x l).
Proof.
  induction l as [|y r IH]; intros Hs; cbn [insert_desc].
  - repeat constructor.
  - inversion Hs as [|? ? Hr Hall]; subst.
    destruct (key y <=? key x) eqn:E.
    + apply Z.leb_le in E. constructor; [exact Hs|].
      constructor; [exact E|].
      eapply Forall_impl; [|exact Hall].
      unfold key_desc. intros z Hz. lia.
    + apply Z.leb_gt in E. constructor; [now apply IH|].
      eapply Permutation_Forall;
        [symmetry; apply insert_desc_perm|].
      constructor; [unfold key_desc; lia | exact Hall].
Qed.

Lemma sorted_reverse_sorted (l : list A) :
  StronglySorted (key_desc key) (sorted_reverse key l).
Proof.
  induction l as [|x l IH]; cbn; [constructor|].
  now apply insert_desc_sorted.
Qed.

Lemma insert_desc_stable (k : Z) (x : A) (l : list A) :
  filter (fun a => key a =? k) (insert_desc key x l)
  = filter (fun a => key a =? k) (x :: l).
Proof.
  induction l as [|y r IH]; cbn [insert_desc]; [reflexivity|].
  destruct (key y <=? key x) eqn:E; [reflexivity|].
  apply Z.leb_gt in E. cbn [filter] in *. rewrite IH.
  destruct (key x =? k) eqn:Ex, (key y =? k) eqn:Ey; try reflexivity.
  apply Z.eqb_eq in Ex, Ey. lia.
Qed.

(** Ports with the same key stay in the order of the enumeration. *)
Lemma sorted_reverse_stable (k : Z) (l : list A) :
  filter (fun a => key a =? k) (sorted_reverse key l)
  = filter (fun a => key a =? k) l.
Proof.
  induction l as [|x l IH]; cbn [sorted_reverse fold_right]; [reflexivity|].
  fold (sorted_reverse key l). rewrite insert_desc_stable.
  cbn [filter]. now rewrite IH.
Qed.

End Sorting.

(* ================================================================== *)
(** * The sort key *)
(* ================================================================== *)

Lemma filter_no_digit (s : string) :
  PyStr.filter PyStr.isdigit s = "" <->
  (forall pre c post, s = pre ++ String c post -> PyStr.isdigit c = false).
Proof.
  induction s as [|d s IH]; cbn [PyStr.filter].
  - split; [|reflexivity]. intros _ pre c post H. destruct pre; discriminate.
  - destruct (PyStr.isdigit d) eqn:E.
    + split; [discriminate|]. intros H.
      specialize (H "" d s eq_refl). congruence.
    + rewrite IH. split.
      * intros H pre c post Hs. destruct pre as [|e pre]; cbn in Hs.
        -- inversion Hs; subst. exact E.
        -- inversion Hs; subst. eapply H. reflexivity.
      * intros H pre c post Hs. apply (H (String d pre) c post).
        cbn. now rewrite Hs.
Qed.

(** An identifier without any digit has key 0. *)
Lemma get_port_num_no_digit (p : PortInfo) :
  (forall pre c post, device p = pre ++ String c post ->
                      PyStr.isdigit c = false) ->
  get_port_num p = 0.
Proof.
  intros H. unfold get_port_num. apply filter_no_digit in H. now rewrite H.
Qed.

Lemma filter_all_digits (s : string) :
  PyStr.filter (fun c => negb (PyStr.isdigit c)) s = "" ->
  PyStr.filter PyStr.isdigit s = s.
Proof.
  induction s as [|c s IH]; cbn [PyStr.filter]; [reflexivity|].
  destruct (PyStr.isdigit c); cbn [negb]; [|discriminate].
  intros H. now rewrite IH.
Qed.

Lemma filter_app (f : ascii -> bool) (a b : string) :
  PyStr.filter f (a ++ b) = PyStr.filter f a ++ PyStr.filter f b.
Proof.
  induction a as [|c a IH]; cbn; [reflexivity|].
  destruct (f c); cbn; now rewrite IH.
Qed.

Lemma suffix_digits_all (s : string) :
  PyStr.filter (fun c => negb (PyStr.isdigit c)) s = "" ->
  suffix_digits s = s.
Proof.
  induction s as [|c s IH]; cbn [PyStr.filter suffix_digits]; [reflexivity|].
  destruct (PyStr.isdigit c); cbn [negb andb]; [|discriminate].
  intros H. rewrite (IH H), Nat.eqb_refl. reflexivity.
Qed.

Lemma suffix_digits_app (pre digits : string) (c : ascii) :
  PyStr.filter PyStr.isdigit pre = "" ->
  PyStr.filter (fun c => negb (PyStr.isdigit c)) (String c digits) = "" ->
  suffix_digits (pre ++ String c digits) = String c digits.
Proof.
  intros Hpre Hd. induction pre as [|d pre IH].
  - now apply suffix_digits_all.
  - cbn [PyStr.filter] in Hpre. destruct (PyStr.isdigit d) eqn:E;
      [discriminate|].
    cbn [append suffix_digits]. rewrite E. cbn [andb]. now apply IH.
Qed.

(** When all the digits of the identifier stand at its end, the key is
    its numeric suffix. *)
Lemma get_port_num_suffix (p : PortInfo) (pre digits : string) :
  device p = pre ++ digits ->
  PyStr.filter PyStr.isdigit pre = "" ->
  PyStr.filter (fun c => negb (PyStr.isdigit c)) digits = "" ->
  get_port_num p = numeric_suffix (device p).
Proof.
  intros Hdev Hpre Hd. unfold get_port_num, numeric_suffix.
  rewrite Hdev, filter_app, Hpre. cbn [append].
  rewrite (filter_all_digits _ Hd).
  destruct digits as [|c digits].
  - assert (E : suffix_digits (pre ++ "") = "").
    { clear Hdev Hd. induction pre as [|d pre IH]; [reflexivity|].
      cbn [PyStr.filter] in Hpre. destruct (PyStr.isdigit d) eqn:E;
        [discriminate|].
      cbn [append suffix_digits]. rewrite E. cbn [andb]. now apply IH. }
    now rewrite E.
  - now rewrite suffix_digits_app.
Qed.

Example get_port_num_COM12 : get_port_num (com "12") = 12.
Proof. reflexivity. Qed.

Example get_port_num_ttyUSB0 :
  get_port_num (mkPortInfo "/dev/ttyUSB0" "") = 0.
Proof. reflexivity. Qed.

Example get_port_num_bluetooth :
  get_port_num (mkPortInfo "/dev/cu.Bluetooth-Incoming-Port" "") = 0.
Proof. reflexivity. Qed.

Example sorted_reverse_COM :
  map device (sorted_reverse get_port_num [com "3"; com "12"; com "5"])
  = ["COM12"; "COM5"; "COM3"].
Proof. reflexivity. Qed.

(* ================================================================== *)
(** * The device scanner *)
(* ================================================================== *)

Lemma detect_chip_type_eq (w : World) (port : string) (st : Session) :
  detect_chip_type w port st
  = (fst (detect_chip_type w port st), snd (next_chip st)).
Proof.
  rewrite <- (detect_chip_type_session w port st).
  now destruct (detect_chip_type w port st).
Qed.

(** The scan loop probes a front part of its list of ports, logs each
    probe, touches nothing else of the session but the probe counter,
    and returns what the probes, taken in order, write into [devices]. *)
Lemma scan_loop_spec (w : World) (ports : list PortInfo) :
  forall (devices : Devices) (st : Session),
  exists probes unprobed,
    map device ports = (map fst probes ++ unprobed)%list /\
    log (snd (scan_loop w ports devices st))
    = (rev (map (probe_entry (flash_results st)) probes) ++ log st)%list /\
    stdin (snd (scan_loop w ports devices st)) = stdin st /\
    flash_results (snd (scan_loop w ports devices st)) = flash_results st /\
    enum_calls (snd (scan_loop w ports devices st)) = enum_calls st /\
    (forall d, fst (scan_loop w ports devices st) = Ok d ->
               d = fold_left record_probe probes devices).
Proof.
  induction ports as [|port_info rest IH]; intros devices st.
  - exists [], []. cbn. repeat split. intros d H. now inversion H.
  - remember (scan_loop w (port_info :: rest) devices st) as res eqn:Hres.
    cbn [scan_loop] in Hres. unfold bind at 1 in Hres.
    rewrite detect_chip_type_eq in Hres.
    destruct (fst (detect_chip_type w (device port_info) st))
      as [chip_type | e |].
    2,3: exists [], (map device (port_info :: rest)); subst res; cbn;
      repeat split; try reflexivity; intros d H; discriminate H.
    unfold bind at 1 in Hres.
    cbn [emit next_chip fst snd stdin enum_calls chip_calls erase_calls
           write_calls flash_results log] in Hres.
    set (devices' := match chip_type with
                     | Some t => dev_set devices t (device port_info)
                     | None => devices
                     end) in *.
    set (st1 := {| stdin := stdin st; enum_calls := enum_calls st;
                   chip_calls := S (chip_calls st);
                   erase_calls := erase_calls st;
                   write_calls := write_calls st;
                   flash_results := flash_results st;
                   log := (EvProbe (device port_info) chip_type,
                           flash_results st) :: log st |}) in *.
    destruct (truthy_port (dev_c5 devices')
              && truthy_port (dev_wroom devices'))%bool.
    + exists [(device port_info, chip_type)], (map device rest).
      subst res. cbn. repeat split. intros d H. now inversion H.
    + destruct (IH devices' st1)
        as [probes [unprobed [Hp [Hl [Hi [Hr [He Hd]]]]]]].
      exists ((device port_info, chip_type) :: probes), unprobed.
      subst res. cbn [map fst app]. rewrite Hp, Hl, Hi, Hr, He.
      repeat split.
      * cbn [rev map]. now rewrite <- app_assoc.
      * intros d H. cbn [fold_left]. now apply Hd.
Qed.

Lemma probes_of_app (a b : list (Event * FlashResults)) :
  probes_of (a ++ b) = (probes_of b ++ probes_of a)%list.
Proof.
  induction a as [|[e r] a IH]; cbn [app probes_of].
  - now rewrite app_nil_r.
  - destruct e; try exact IH. now rewrite IH, app_assoc.
Qed.

Lemma probes_of_entries (r : FlashResults) (probes : list Probe) :
  probes_of (rev (map (probe_entry r) probes)) = probes.
Proof.
  induction probes as [|[port chip_type] probes IH]; [reflexivity|].
  cbn [map rev]. rewrite probes_of_app, IH. reflexivity.
Qed.

Lemma firstn_grown {X} (new old : list X) :
  firstn (length (new ++ old) - length old) (new ++ old) = new.
Proof.
  rewrite length_app, Nat.add_sub. rewrite firstn_app, Nat.sub_diag.
  rewrite firstn_all. cbn. apply app_nil_r.
Qed.

(** The same for the whole scan, with the ports as the enumeration gave
    them. *)
Lemma scan_for_devices_spec (w : World) (st : Session) :
  let st' := snd (scan_for_devices w st) in
  let probes := scan_probes st st' in
  log st' = (rev (map (probe_entry (flash_results st)) probes) ++ log st)%list /\
  stdin st' = stdin st /\
  flash_results st' = flash_results st /\
  (forall d, fst (scan_for_devices w st) = Ok d ->
             d = fold_left record_probe probes (mkDevices None None)) /\
  (forall ports, fst (list_com_ports w st) = Ok ports ->
     exists unprobed,
       map device (sorted_reverse get_port_num ports)
       = (map fst probes ++ unprobed)%list).
Proof.
  cbv zeta. unfold scan_probes.
  remember (scan_for_devices w st) as res eqn:Hres.
  unfold scan_for_devices, bind in Hres.
  rewrite list_com_ports_eq in Hres.
  destruct (fst (list_com_ports w st)) as [ports | e |] eqn:Hports.
  2,3: subst res; cbn; rewrite Nat.sub_diag; cbn; repeat split;
    intros; discriminate.
  destruct ports as [|p ports].
  - subst res. cbn. rewrite Nat.sub_diag. cbn. repeat split.
    + intros d H. now inversion H.
    + intros ps H. inversion H; subst. now exists [].
  - destruct (scan_loop_spec w (sorted_reverse get_port_num (p :: ports))
                (mkDevices None None) (snd (next_enum st)))
      as [probes [unprobed [Hp [Hl [Hi [Hr [He Hd]]]]]]].
    rewrite <- Hres in Hl, Hi, Hr, He, Hd.
    cbn [next_enum snd log stdin flash_results] in Hl, Hi, Hr.
    rewrite Hl, firstn_grown, probes_of_entries.
    repeat split; try assumption.
    intros ps H. inversion H; subst. now exists unprobed.
Qed.

Lemma dev_get_record (d : Devices) (pr : Probe) (t : DeviceType) :
  dev_get (record_probe d pr) t
  = match snd pr with
    | Some t' => if DeviceType_eqb t' t then Some (fst pr) else dev_get d t
    | None => dev_get d t
    end.
Proof.
  unfold record_probe. destruct (snd pr) as [[]|], t; reflexivity.
Qed.

Lemma fold_record_last_found (probes : list Probe) (t : DeviceType) :
  dev_get (fold_left record_probe probes (mkDevices None None)) t
  = last_found t probes.
Proof.
  unfold last_found.
  induction probes as [|[port chip_type] probes IH] using rev_ind.
  - now destruct t.
  - rewrite fold_left_app, rev_app_distr. cbn [fold_left rev app first_found].
    rewrite dev_get_record, IH. reflexivity.
Qed.

Lemma first_found_in (t : DeviceType) (probes : list Probe) (port : string) :
  first_found t probes = Some port -> In (port, Some t) probes.
Proof.
  induction probes as [|[p c] probes IH]; cbn [first_found]; [discriminate|].
  destruct c as [t'|]; [|intros H; right; now apply IH].
  destruct (DeviceType_eqb t' t) eqn:E.
  - intros H. inversion H; subst. left.
    destruct t', t; try discriminate; reflexivity.
  - intros H. right. now apply IH.
Qed.

Lemma nodup_fst_functional {X Y} (l : list (X * Y)) (x : X) (a b : Y) :
  NoDup (map fst l) -> In (x, a) l -> In (x, b) l -> a = b.
Proof.
  induction l as [|[x' y'] l IH]; cbn [map fst In]; [tauto|].
  intros Hnd [Ha | Ha] [Hb | Hb]; inversion Hnd as [|? ? Hnotin Hnd']; subst.
  - congruence.
  - inversion Ha; subst. exfalso. apply Hnotin.
    apply (in_map fst) in Hb. exact Hb.
  - inversion Hb; subst. exfalso. apply Hnotin.
    apply (in_map fst) in Ha. exact Ha.
  - now apply IH.
Qed.

(** C1, as the program has it.  Each device type gets the port of the
    last probe of the scan that answered with it: a later answer
    overwrites an earlier one.  When the probed ports are distinct, no
    port is recorded for both types. *)
Theorem scan_for_devices_snapshot (w : World) (st : Session)
  (devices : Devices) :
  fst (scan_for_devices w st) = Ok devices ->
  let probes := scan_probes st (snd (scan_for_devices w st)) in
  (forall t, dev_get devices t = last_found t probes) /\
  (NoDup (map fst probes) ->
   forall port,
     ~ (dev_c5 devices = Some port /\ dev_wroom devices = Some port)).
Proof.
  intros Hscan. cbv zeta.
  destruct (scan_for_devices_spec w st) as [_ [_ [_ [Hd _]]]].
  specialize (Hd devices Hscan).
  assert (Hlast : forall t,
             dev_get devices t
             = last_found t (scan_probes st (snd (scan_for_devices w st)))).
  { intros t. rewrite Hd at 1. apply fold_record_last_found. }
  split; [exact Hlast|].
  intros Hnd port [H5 Hw].
  pose proof (Hlast C5) as L5. pose proof (Hlast Wroom) as Lw.
  cbn [dev_get] in L5, Lw. rewrite H5 in L5. rewrite Hw in Lw.
  symmetry in L5, Lw. unfold last_found in L5, Lw.
  apply first_found_in, in_rev in L5. apply first_found_in, in_rev in Lw.
  pose proof (nodup_fst_functional _ _ _ _ Hnd L5 Lw) as E. discriminate E.
Qed.

Lemma scan_for_devices_snapshot_witness :
  let w := three_ports ["Chip is ESP32-C5"; "Chip is ESP32-C5";
                        "Chip is ESP32-D0WD-V3"] in
  let st := initial_session [] in
  fst (scan_for_devices w st) = Ok (mkDevices (Some "COM4") (Some "COM3")) /\
  last_found C5 (scan_probes st (snd (scan_for_devices w st))) = Some "COM4" /\
  last_found Wroom (scan_probes st (snd (scan_for_devices w st)))
  = Some "COM3".
Proof.
  cbv zeta.
  pose proof (scan_for_devices_snapshot
                (three_ports ["Chip is ESP32-C5"; "Chip is ESP32-C5";
                              "Chip is ESP32-D0WD-V3"])
                (initial_session [])
                (mkDevices (Some "COM4") (Some "COM3")) eq_refl) as [H _].
  split; [reflexivity|].
  split; [rewrite <- (H C5) | rewrite <- (H Wroom)]; reflexivity.
Defined.

(** C1 as stated fails: COM5 is the first port found to be a C5, and
    the snapshot records COM4, found after it. *)
Lemma scan_first_found_counterexample :
  let w := three_ports ["Chip is ESP32-C5"; "Chip is ESP32-C5";
                        "Chip is ESP32-D0WD-V3"] in
  let st := initial_session [] in
  scan_probes st (snd (scan_for_devices w st))
  = [("COM5", Some C5); ("COM4", Some C5); ("COM3", Some Wroom)] /\
  first_found C5 (scan_probes st (snd (scan_for_devices w st))) = Some "COM5" /\
  (exists devices,
      fst (scan_for_devices w st) = Ok devices /\
      dev_c5 devices = Some "COM4" /\
      dev_c5 devices
      <> first_found C5 (scan_probes st (snd (scan_for_devices w st)))).
Proof.
  cbv zeta. split; [reflexivity|]. split; [reflexivity|].
  exists (mkDevices (Some "COM4") (Some "COM3")).
  split; [reflexivity|]. split; [reflexivity|]. discriminate.
Qed.

(** Why the ports have to be distinct: an enumeration that lists one
    port twice, answered once as a C5 and once as a WROOM, puts that
    port under both types. *)
Example scan_same_port_twice :
  let w := workstation (fun _ => Comports [com "5"; com "5"])
             (script [chip_says "ESP32-C5"; chip_says "ESP32-D0WD"] tool_missing)
             (fun _ => Completed 0 "" "") (fun _ => Exited [] 0) in
  fst (scan_for_devices w (initial_session []))
  = Ok (mkDevices (Some "COM5") (Some "COM5")).
Proof. reflexivity. Qed.

(** The scan stops as soon as both types have a port: COM3 is not
    probed. *)
Example scan_stops_early :
  let w := three_ports ["Chip is ESP32-C5"; "Chip is ESP32-D0WD-V3";
                        "Chip is ESP32-C5"] in
  let st := initial_session [] in
  scan_probes st (snd (scan_for_devices w st))
  = [("COM5", Some C5); ("COM4", Some Wroom)].
Proof. reflexivity. Qed.

(** C7, as the program has it.  The ports are probed in the order of a
    stable descending sort whose key is the number written by all the
    decimal digits of the identifier, taken in order: the sorted list is
    a rearrangement of the enumeration, its keys never increase, ports
    with equal keys keep their order, and the ports probed are a front
    part of it.  An identifier without any digit has key 0, and the key
    is the numeric suffix when the identifier has no digit before the
    digits it ends with. *)
Theorem scan_probes_sorted_by_digits (w : World) (st : Session)
  (ports : list PortInfo) :
  fst (list_com_ports w st) = Ok ports ->
  let sorted := sorted_reverse get_port_num ports in
  Permutation sorted ports /\
  StronglySorted (key_desc get_port_num) sorted /\
  (forall k, filter (fun p => get_port_num p =? k) sorted
             = filter (fun p => get_port_num p =? k) ports) /\
  (exists unprobed,
      map device sorted
      = (map fst (scan_probes st (snd (scan_for_devices w st)))
           ++ unprobed)%list) /\
  (forall p,
      (forall pre c post, device p = pre ++ String c post ->
                          PyStr.isdigit c = false) ->
      get_port_num p = 0) /\
  (forall p pre digits,
      device p = pre ++ digits ->
      PyStr.filter PyStr.isdigit pre = "" ->
      PyStr.filter (fun c => negb (PyStr.isdigit c)) digits = "" ->
      get_port_num p = numeric_suffix (device p)).
Proof.
  intros Hports. cbv zeta.
  split; [apply sorted_reverse_perm|].
  split; [apply sorted_reverse_sorted|].
  split; [intros k; apply sorted_reverse_stable|].
  split.
  - destruct (scan_for_devices_spec w st) as [_ [_ [_ [_ H]]]].
    exact (H ports Hports).
  - split; [exact get_port_num_no_digit | exact get_port_num_suffix].
Qed.

Lemma scan_probes_sorted_by_digits_witness :
  let w := three_ports ["no chip"; "no chip"; "no chip"] in
  let st := initial_session [] in
  map device (sorted_reverse get_port_num [com "3"; com "4"; com "5"])
  = ["COM5"; "COM4"; "COM3"] /\
  exists unprobed,
    ["COM5"; "COM4"; "COM3"]
    = (map fst (scan_probes st (snd (scan_for_devices w st))) ++ unprobed)%list.
Proof.
  cbv zeta. split; [reflexivity|].
  destruct (scan_probes_sorted_by_digits
              (three_ports ["no chip"; "no chip"; "no chip"])
              (initial_session []) [com "3"; com "4"; com "5"] eq_refl)
    as [_ [_ [_ [H _]]]].
  exact H.
Defined.

(** C7 as stated fails.  "/dev/cu.usbserial-A50285BI" does not end with
    a digit, so its numeric suffix is 0; its key is 50285, and it is
    probed before "/dev/cu.usbmodem1101", whose numeric suffix is 1101. *)
Lemma scan_order_suffix_counterexample :
  let st := initial_session [] in
  map fst (scan_probes st (snd (scan_for_devices mac_ports st)))
  = ["/dev/cu.usbserial-A50285BI"; "/dev/cu.usbmodem1101"] /\
  numeric_suffix "/dev/cu.usbserial-A50285BI" = 0 /\
  numeric_suffix "/dev/cu.usbmodem1101" = 1101 /\
  get_port_num (mkPortInfo "/dev/cu.usbserial-A50285BI" "") = 50285.
Proof. cbv zeta. repeat split. Qed.

(* ================================================================== *)
(** * The session log stays in order *)
(* ================================================================== *)

Lemma res_le_refl (s : FlashResults) : res_le s s.
Proof. intros t b H. exact H. Qed.

Lemma res_le_trans (a b c : FlashResults) :
  res_le a b -> res_le b c -> res_le a c.
Proof. intros H1 H2 t v H. apply H2, H1, H. Qed.

Lemma res_le_set (s : FlashResults) (t : DeviceType) (b : bool) :
  res_get s t = None -> res_le s (res_set s t b).
Proof.
  intros Hn t' b' H. destruct t, t'; cbn in *; congruence.
Qed.

Lemma emit_ok (e : Event) (st : Session) :
  session_ok st -> open_session st ->
  (forall t port erase_first,
      e = EvAttempt t port erase_first ->
      res_get (flash_results st) t = None /\
      (erase_first = true <-> head_is_erase (log st) = true)) ->
  session_ok (snd (emit e st)).
Proof.
  intros [Hlog Hle] Hopen He. split; cbn.
  - split; [exact Hlog|]. split; [|exact He].
    intros e' s' Hin. split; [now apply (Hle e') | now apply (Hopen e' s')].
  - intros e' s' [H | H].
    + inversion H; subst. apply res_le_refl.
    + now apply (Hle e').
Qed.

Lemma emit_open (e : Event) (st : Session) :
  open_session st -> is_final e = false -> open_session (snd (emit e st)).
Proof.
  intros Hopen He e' s' [H | H].
  - now inversion H; subst.
  - now apply (Hopen e' s').
Qed.

Lemma set_result_ok (t : DeviceType) (b : bool) (st : Session) :
  session_ok st -> res_get (flash_results st) t = None ->
  session_ok (snd (set_result t b st)).
Proof.
  intros [Hlog Hle] Hn. split; cbn; [exact Hlog|].
  intros e s Hin. eapply res_le_trans; [now apply (Hle e)|].
  now apply res_le_set.
Qed.

(** Entries of the scanner and of the tools, written while the outcomes
    stand at [fr], keep a log in order and open. *)
Lemma quiet_entries_ok (fr : FlashResults) (q l : list (Event * FlashResults)) :
  Forall (fun x => is_quiet (fst x) = true /\ snd x = fr) q ->
  log_ok l ->
  (forall e s, In (e, s) l -> res_le s fr /\ is_final e = false) ->
  log_ok (q ++ l) /\
  (forall e s, In (e, s) (q ++ l) -> res_le s fr /\ is_final e = false).
Proof.
  intros Hq Hlog Hl. induction Hq as [|[e s] q [He Hs] Hq IH]; cbn [app].
  - split; assumption.
  - destruct IH as [IH1 IH2]. cbn [fst snd] in He, Hs. subst s. split.
    + cbn [log_ok]. split; [exact IH1|]. split; [exact IH2|].
      intros t port b E. subst e. discriminate He.
    + intros e' s' [H | H].
      * inversion H; subst. split; [apply res_le_refl|].
        destruct e'; try discriminate He; reflexivity.
      * now apply IH2.
Qed.

Lemma quiet_session_ok (st st' : Session) (q : list (Event * FlashResults)) :
  session_ok st -> open_session st ->
  log st' = (q ++ log st)%list ->
  flash_results st' = flash_results st ->
  Forall (fun x => is_quiet (fst x) = true /\ snd x = flash_results st) q ->
  session_ok st' /\ open_session st'.
Proof.
  intros [Hlog Hle] Hopen El Er Hq.
  destruct (quiet_entries_ok (flash_results st) q (log st) Hq Hlog) as [H1 H2].
  { intros e s Hin. split; [now apply (Hle e) | now apply (Hopen e s)]. }
  unfold session_ok, open_session. rewrite El, Er. repeat split.
  - exact H1.
  - intros e s Hin. now apply (H2 e s).
  - intros e s Hin. now apply (H2 e s).
Qed.

Lemma probe_entries_quiet (fr : FlashResults) (probes : list Probe) :
  Forall (fun x => is_quiet (fst x) = true /\ snd x = fr)
    (rev (map (probe_entry fr) probes)).
Proof.
  apply Forall_rev, Forall_map, Forall_forall. intros pr _. now split.
Qed.

Lemma scan_for_devices_ok (w : World) (st : Session) :
  session_ok st -> open_session st ->
  session_ok (snd (scan_for_devices w st)) /\
  open_session (snd (scan_for_devices w st)) /\
  flash_results (snd (scan_for_devices w st)) = flash_results st /\
  stdin (snd (scan_for_devices w st)) = stdin st.
Proof.
  intros Hok Hopen.
  destruct (scan_for_devices_spec w st) as [Hl [Hi [Hr _]]].
  destruct (quiet_session_ok st _ _ Hok Hopen Hl Hr (probe_entries_quiet _ _))
    as [H1 H2].
  split; [exact H1 | split; [exact H2 | split; assumption]].
Qed.

(** A prompt writes the choice it returns, and nothing else. *)
Lemma prompt_with_eq (site : Prompt)
  (loop : list InputEvent -> Action * list InputEvent) (st : Session) :
  prompt_with site loop st
  = (Ok (fst (loop (stdin st))),
     snd (emit (EvChoice site (fst (loop (stdin st))))
            (with_stdin st (snd (loop (stdin st)))))).
Proof.
  unfold prompt_with. destruct (loop (stdin st)) as [action rest].
  reflexivity.
Qed.

Lemma prompt_with_ok (site : Prompt)
  (loop : list InputEvent -> Action * list InputEvent) (st : Session) :
  session_ok st -> open_session st ->
  let st' := snd (prompt_with site loop st) in
  session_ok st' /\
  flash_results st' = flash_results st /\
  log st' = (EvChoice site (fst (loop (stdin st))), flash_results st) :: log st.
Proof.
  intros Hok Hopen. cbv zeta. rewrite prompt_with_eq. cbn [snd].
  split; [|split; reflexivity].
  apply emit_ok; [exact Hok | exact Hopen | discriminate].
Qed.

Ltac solve_shape :=
  first
    [ exists []; split; [reflexivity|];
      split; [constructor | split; reflexivity]
    | eexists [_]; split; [reflexivity|];
      split; [repeat constructor | split; reflexivity]
    | eexists [_; _]; split; [reflexivity|];
      split; [repeat constructor | split; reflexivity] ].

(** [flash_device] writes the attempt, then at most the erase and the
    write it starts; it leaves the outcomes and the keyboard input
    alone. *)
Lemma flash_device_shape (w : World) (t : DeviceType)
  (port firmware : string) (erase_first : bool) (st : Session) :
  let st' := snd (flash_device w t port firmware erase_first st) in
  exists q,
    log st'
    = (q ++ (EvAttempt t port erase_first, flash_results st) :: log st)%list /\
    Forall (fun x => is_quiet (fst x) = true /\ snd x = flash_results st) q /\
    flash_results st' = flash_results st /\
    stdin st' = stdin st.
Proof.
  cbv zeta.
  remember (flash_device w t port firmware erase_first st) as res eqn:Hres.
  unfold flash_device, bind in Hres. simp_in Hres.
  rewrite port_exists_eq in Hres. simp_in Hres.
  match type of Hres with
  | context [fst (list_com_ports w ?s)] =>
      destruct (fst (list_com_ports w s)) as [ports | e |]
  end.
  2,3: subst res; cbn; solve_shape.
  destruct (existsb _ ports); simp_in Hres.
  2: subst res; cbn; solve_shape.
  assert (Hwrite : forall s0 : Session,
             snd (match write_at w (write_calls st) with
                  | Exited lines returncode =>
                      ret (write_result (map PyStr.rstrip lines) returncode)
                  | WriteRaised e =>
                      if is_class TimeoutExpired e
                      then ret (false, Some "Flash operation timed out")
                      else if is_Exception e
                           then ret (false, Some (exn_text e))
                           else raise e
                  end s0) = s0).
  { intros s0. destruct (write_at w (write_calls st)) as [lines rc | e];
      [reflexivity|].
    destruct (is_class TimeoutExpired e); [reflexivity|].
    destruct (is_Exception e); reflexivity. }
  destruct erase_first; simp_in Hres.
  - destruct (erase_at w (erase_calls st)) as [rc out err | e]; simp_in Hres.
    + destruct (rc =? 0); simp_in Hres.
      * subst res. rewrite Hwrite. cbn. solve_shape.
      * subst res. cbn. solve_shape.
    + destruct (is_class TimeoutExpired e); subst res; cbn; solve_shape.
  - subst res. rewrite Hwrite. cbn. solve_shape.
Qed.

Lemma head_is_erase_quiet (fr : FlashResults)
  (q l : list (Event * FlashResults)) (t : DeviceType) (port : string)
  (b : bool) (s : FlashResults) :
  Forall (fun x => is_quiet (fst x) = true /\ snd x = fr) q ->
  head_is_erase (q ++ (EvAttempt t port b, s) :: l) = false.
Proof.
  intros Hq. destruct Hq as [|[e s'] q [He _] _]; [reflexivity|].
  cbn [fst] in He. destruct e; try discriminate He; reflexivity.
Qed.

Lemma flash_device_ok (w : World) (t : DeviceType)
  (port firmware : string) (erase_first : bool) (st : Session) :
  session_ok st -> open_session st ->
  res_get (flash_results st) t = None ->
  (erase_first = true <-> head_is_erase (log st) = true) ->
  let st' := snd (flash_device w t port firmware erase_first st) in
  session_ok st' /\ open_session st' /\
  flash_results st' = flash_results st /\
  head_is_erase (log st') = false.
Proof.
  intros Hok Hopen Hpending Herase. cbv zeta.
  destruct (flash_device_shape w t port firmware erase_first st)
    as [q [Hl [Hq [Hr _]]]].
  pose (st0 := snd (emit (EvAttempt t port erase_first) st)).
  assert (Hok0 : session_ok st0).
  { apply emit_ok; [exact Hok | exact Hopen|].
    intros t' p' b' E. inversion E; subst. now split. }
  assert (Hopen0 : open_session st0) by (now apply emit_open).
  destruct (quiet_session_ok st0 _ q Hok0 Hopen0 Hl Hr Hq) as [H1 H2].
  split; [exact H1|]. split; [exact H2|]. split; [exact Hr|].
  rewrite Hl. eapply head_is_erase_quiet. exact Hq.
Qed.

Lemma open_of_log (st st' : Session) :
  log st' = log st -> open_session st -> open_session st'.
Proof. intros E H e s Hin. rewrite E in Hin. now apply (H e s). Qed.

Lemma session_ok_of (st st' : Session) :
  log st' = log st -> flash_results st' = flash_results st ->
  session_ok st -> session_ok st'.
Proof. unfold session_ok. intros -> ->. tauto. Qed.

Lemma open_after_choice (st st' : Session) (site : Prompt) (a : Action)
  (s : FlashResults) :
  log st' = (EvChoice site a, s) :: log st ->
  open_session st -> a <> Quit -> open_session st'.
Proof.
  intros E Hopen Ha e s' Hin. rewrite E in Hin. destruct Hin as [H | H].
  - inversion H; subst. destruct a; try reflexivity. contradiction.
  - now apply (Hopen e s').
Qed.

Lemma loop_post_quit (st : Session) (site : Prompt) (s : FlashResults)
  (rest : list (Event * FlashResults)) :
  session_ok st -> log st = (EvChoice site Quit, s) :: rest ->
  loop_post (Ok (Return 1), st).
Proof.
  intros Hok E. split; [exact Hok|]. cbn. split; [reflexivity|].
  now exists site, s, rest.
Qed.

Lemma loop_post_open {r : Result LoopExit} (st : Session) :
  session_ok st -> open_session st ->
  (forall code, r <> Ok (Return code)) ->
  loop_post (r, st).
Proof.
  intros Hok Hopen Hr. split; [exact Hok|]. cbn.
  destruct r as [[|code] | e |]; try exact Hopen.
  now destruct (Hr code).
Qed.

(** The attempt loop keeps the log in order.  It is entered with the
    device type pending and with [erase_flash] set exactly when the
    newest entry is the choice "erase". *)
Lemma attempt_loop_ok (w : World) (t : DeviceType) (port firmware : string) :
  forall (fuel : nat) (erase_flash : bool) (st : Session),
    session_ok st -> open_session st ->
    res_get (flash_results st) t = None ->
    (erase_flash = true <-> head_is_erase (log st) = true) ->
    loop_post (attempt_loop w fuel t port firmware erase_flash st).
Proof.
  induction fuel as [|fuel IH]; intros erase_flash st Hok Hopen Hpend Herase.
  - apply loop_post_open; [assumption | assumption | discriminate].
  - cbn [attempt_loop]. unfold bind at 1.
    destruct (flash_device_ok w t port firmware erase_flash st
                Hok Hopen Hpend Herase) as [Hok1 [Hopen1 [Hres1 _]]].
    destruct (flash_device w t port firmware erase_flash st) as [r st1].
    cbn [snd] in Hok1, Hopen1, Hres1.
    assert (Hpend1 : res_get (flash_results st1) t = None) by congruence.
    destruct r as [[success error] | e |].
    2,3: apply loop_post_open; [assumption | assumption | discriminate].
    destruct success.
    { unfold bind. cbn [set_result ret].
      apply loop_post_open; [|eapply open_of_log; [|exact Hopen1]; reflexivity
                             |discriminate].
      now apply (set_result_ok t true st1). }
    unfold bind at 1. rewrite port_exists_eq.
    set (st2 := snd (next_enum st1)).
    assert (Hok2 : session_ok st2) by exact Hok1.
    assert (Hopen2 : open_session st2) by exact Hopen1.
    assert (Hpend2 : res_get (flash_results st2) t = None) by exact Hpend1.
    destruct (fst (list_com_ports w st1)) as [ports | e |].
    2,3: apply loop_post_open; [assumption | assumption | discriminate].
    destruct (existsb _ ports); cbn [negb].
    + (* the port is still there: the retry prompt *)
      unfold bind at 1, prompt_retry.
      destruct (prompt_with_ok PromptRetry prompt_retry_loop st2 Hok2 Hopen2)
        as [Hok3 [Hres3 Hlog3]].
      rewrite prompt_with_eq in *. cbn [snd] in Hok3, Hres3, Hlog3.
      set (action := fst (prompt_retry_loop (stdin st2))) in *.
      set (st3 := snd (emit (EvChoice PromptRetry action)
                         (with_stdin st2 (snd (prompt_retry_loop (stdin st2))))))
        in *.
      assert (Hpend3 : res_get (flash_results st3) t = None) by congruence.
      destruct action eqn:Ha.
      * apply IH; try assumption.
        -- eapply open_after_choice; [exact Hlog3 | exact Hopen2 | discriminate].
        -- rewrite Hlog3. cbn. split; discriminate.
      * apply IH; try assumption.
        -- eapply open_after_choice; [exact Hlog3 | exact Hopen2 | discriminate].
        -- rewrite Hlog3. cbn. split; reflexivity.
      * unfold bind. cbn [set_result ret].
        apply loop_post_open; [now apply (set_result_ok t false st3) | |discriminate].
        eapply open_of_log; [reflexivity|].
        eapply open_after_choice; [exact Hlog3 | exact Hopen2 | discriminate].
      * apply loop_post_open; [exact Hok3 | |discriminate].
        eapply open_after_choice; [exact Hlog3 | exact Hopen2 | discriminate].
      * eapply loop_post_quit; [exact Hok3 | exact Hlog3].
    + (* the port is gone: the disconnect prompt *)
      unfold bind at 1, prompt_disconnect.
      destruct (prompt_with_ok PromptDisconnect prompt_rescan_loop st2
                  Hok2 Hopen2) as [Hok3 [Hres3 Hlog3]].
      rewrite prompt_with_eq in *. cbn [snd] in Hok3, Hres3, Hlog3.
      set (action := fst (prompt_rescan_loop (stdin st2))) in *.
      destruct action eqn:Ha.
      1-4: apply loop_post_open; [exact Hok3 | |discriminate];
        eapply open_after_choice; [exact Hlog3 | exact Hopen2 | discriminate].
      eapply loop_post_quit; [exact Hok3 | exact Hlog3].
Qed.

Lemma flash_one_ok (w : World) (fuel : nat) (t : DeviceType)
  (devices : Devices) (firmware : string) (st : Session) :
  session_ok st -> open_session st ->
  loop_post (flash_one w fuel t devices firmware st).
Proof.
  intros Hok Hopen. unfold flash_one, bind at 1. cbn [get_results].
  destruct (dev_get devices t) as [port|];
    [|apply loop_post_open; [assumption | assumption | discriminate]].
  destruct (PyStr.truthy port); cbn [andb];
    [|apply loop_post_open; [assumption | assumption | discriminate]].
  destruct (res_get (flash_results st) t) as [b|] eqn:Hpend; cbn [is_pending];
    [apply loop_post_open; [assumption | assumption | discriminate]|].
  unfold bind at 1.
  assert (Hok1 : session_ok (snd (emit (EvBegin t port) st)))
    by (apply emit_ok; [assumption | assumption | discriminate]).
  assert (Hopen1 : open_session (snd (emit (EvBegin t port) st)))
    by (now apply emit_open).
  cbn [emit snd] in *.
  apply attempt_loop_ok; try assumption. cbn. split; discriminate.
Qed.

(** The answer at line 571 is read without a trace in the log. *)
Lemma read_choice_quiet (st : Session) :
  exists c st',
    read_choice st = (Ok c, st') /\
    log st' = log st /\ flash_results st' = flash_results st.
Proof.
  unfold read_choice, try_except, bind, input.
  destruct (stdin st) as [|[s|] rest]; cbn; eexists; eexists;
    (split; [reflexivity | split; reflexivity]).
Qed.

(** The main flash loop keeps the log in order. *)
Lemma main_loop_ok (w : World) (c5_firmware wroom_firmware : string) :
  forall (fuel : nat) (st : Session),
    session_ok st -> open_session st ->
    loop_post (main_loop w fuel c5_firmware wroom_firmware st).
Proof.
  induction fuel as [|fuel IH]; intros st Hok Hopen.
  - apply loop_post_open; [assumption | assumption | discriminate].
  - cbn [main_loop]. unfold bind at 1.
    destruct (scan_for_devices_ok w st Hok Hopen) as [Hok1 [Hopen1 _]].
    destruct (scan_for_devices w st) as [r st1]. cbn [snd] in Hok1, Hopen1.
    destruct r as [devices | e |].
    2,3: apply loop_post_open; [assumption | assumption | discriminate].
    destruct (truthy_port (dev_c5 devices) || truthy_port (dev_wroom devices))%bool;
      cbn [negb].
    + (* something was found *)
      unfold bind at 1.
      pose proof (flash_one_ok w fuel C5 devices c5_firmware st1 Hok1 Hopen1)
        as Hpost.
      destruct (flash_one w fuel C5 devices c5_firmware st1) as [r1 st2].
      destruct r1 as [[|code] | e |]; try exact Hpost.
      destruct Hpost as [Hok2 Hopen2]. cbn [fst snd] in Hok2, Hopen2.
      unfold bind at 1.
      pose proof (flash_one_ok w fuel Wroom devices wroom_firmware st2
                    Hok2 Hopen2) as Hpost.
      destruct (flash_one w fuel Wroom devices wroom_firmware st2)
        as [r2 st3].
      destruct r2 as [[|code] | e |]; try exact Hpost.
      destruct Hpost as [Hok3 Hopen3]. cbn [fst snd] in Hok3, Hopen3.
      unfold bind at 1. cbn [get_results].
      destruct (filter (fun k => is_pending (res_get (flash_results st3) k))
                  [C5; Wroom]);
        [apply loop_post_open; [assumption | assumption | discriminate]|].
      destruct (filter (fun k => negb (is_pending (res_get (flash_results st3) k)))
                  [C5; Wroom]);
        [now apply IH|].
      unfold bind at 1.
      destruct (read_choice_quiet st3) as [c [st4 [Hread [Hlog4 Hres4]]]].
      rewrite Hread.
      assert (Hok4 : session_ok st4) by (now apply (session_ok_of st3)).
      assert (Hopen4 : open_session st4) by (now apply (open_of_log st3)).
      destruct c as [c|];
        [|apply loop_post_open; [assumption | assumption | discriminate]].
      destruct (c =? "q")%string;
        [apply loop_post_open; [assumption | assumption | discriminate]|].
      now apply IH.
    + (* nothing was found: the no-devices prompt *)
      unfold bind at 1, prompt_no_devices.
      destruct (prompt_with_ok PromptNoDevices prompt_rescan_loop st1
                  Hok1 Hopen1) as [Hok2 [Hres2 Hlog2]].
      rewrite prompt_with_eq in *. cbn [snd] in Hok2, Hres2, Hlog2.
      set (action := fst (prompt_rescan_loop (stdin st1))) in *.
      destruct action eqn:Ha.
      1-4: apply IH; [exact Hok2|];
        eapply open_after_choice; [exact Hlog2 | exact Hopen1 | discriminate].
      eapply loop_post_quit; [exact Hok2 | exact Hlog2].
Qed.

Lemma initial_session_ok (keys : list InputEvent) :
  session_ok (initial_session keys) /\ open_session (initial_session keys).
Proof.
  split; [split; [exact I | intros e s []] | intros e s []].
Qed.

Lemma main_post_early {r : Result Z} (st : Session) :
  session_ok st -> open_session st -> r <> Ok 0 -> main_post (r, st).
Proof.
  intros Hok Hopen Hr. split; [exact Hok|]. right. right. now split.
Qed.

(** Every run of [main] stands in one of the three ways. *)
Lemma main_ok (w : World) (fuel : nat) (keys : list InputEvent) :
  main_post (main w fuel (initial_session keys)).
Proof.
  destruct (initial_session_ok keys) as [Hok Hopen].
  generalize dependent (initial_session keys). intros st Hok Hopen.
  unfold main. unfold bind at 1.
  destruct (check_esptool w) as [ok | e]; cbn [lift ret raise];
    [|apply main_post_early; [assumption | assumption | discriminate]].
  destruct ok; cbn [negb];
    [|apply main_post_early; [assumption | assumption | discriminate]].
  unfold bind at 1, try_except, bind at 1.
  destruct (download_manifest w) as [manifest | e]; cbn [lift ret raise].
  2:{ destruct (is_class URLError e || is_class HTTPError e)%bool;
        apply main_post_early; try assumption; discriminate. }
  unfold bind at 1.
  destruct (manifest_c5 manifest) as [c5|]; cbn [subscript ret raise];
    [|apply main_post_early; [assumption | assumption | discriminate]].
  unfold bind at 1.
  destruct (version c5) as [c5_version|]; cbn [subscript ret raise];
    [|apply main_post_early; [assumption | assumption | discriminate]].
  unfold bind at 1.
  destruct (manifest_wroom manifest) as [wroom|]; cbn [subscript ret raise];
    [|apply main_post_early; [assumption | assumption | discriminate]].
  unfold bind at 1.
  destruct (version wroom) as [wroom_version|]; cbn [subscript ret raise];
    [|apply main_post_early; [assumption | assumption | discriminate]].
  destruct (truthy_port (mergedFilename c5)); cbn [negb];
    [|apply main_post_early; [assumption | assumption | discriminate]].
  destruct (truthy_port (mergedFilename wroom)); cbn [negb];
    [|apply main_post_early; [assumption | assumption | discriminate]].
  destruct (mergedFilename c5) as [c5_name|];
    [|apply main_post_early; [assumption | assumption | discriminate]].
  destruct (mergedFilename wroom) as [wroom_name|];
    [|apply main_post_early; [assumption | assumption | discriminate]].
  unfold bind at 1.
  destruct (download_firmware w c5_name) as [c5_firmware | e];
    cbn [lift ret raise];
    [|apply main_post_early; [assumption | assumption | discriminate]].
  unfold bind at 1.
  destruct (download_firmware w wroom_name) as [wroom_firmware | e];
    cbn [lift ret raise];
    [|apply main_post_early; [assumption | assumption | discriminate]].
  destruct c5_firmware as [c5_path|];
    [|apply main_post_early; [assumption | assumption | discriminate]].
  destruct wroom_firmware as [wroom_path|];
    [|apply main_post_early; [assumption | assumption | discriminate]].
  unfold bind at 1.
  pose proof (main_loop_ok w c5_path wroom_path fuel st Hok Hopen) as Hpost.
  destruct (main_loop w fuel c5_path wroom_path st) as [r st1].
  destruct Hpost as [Hok1 Hend]. cbn [fst snd] in Hok1, Hend.
  destruct r as [[|code] | e |].
  - (* the loop was left by [break]: the summary *)
    unfold bind. cbn [emit get_results ret].
    split.
    + apply (emit_ok EvSummary st1); [assumption | assumption | discriminate].
    + left. cbn [fst snd log flash_results]. eexists. split; reflexivity.
  - destruct Hend as [-> Hquit]. split; [exact Hok1|].
    right. left. cbn [fst snd ret]. now split.
  - apply main_post_early; [assumption | assumption | discriminate].
  - apply main_post_early; [assumption | assumption | discriminate].
Qed.

(* ================================================================== *)
(** * The session: outcomes, the erase flag, the exit code *)
(* ================================================================== *)

Lemma log_ok_suffix (a l : list (Event * FlashResults)) :
  log_ok (a ++ l) -> log_ok l.
Proof.
  induction a as [|[e s] a IH]; cbn [app log_ok]; [tauto|].
  intros [H _]. now apply IH.
Qed.

Lemma head_is_erase_iff (l : list (Event * FlashResults)) :
  head_is_erase l = true
  <-> exists s rest, l = (EvChoice PromptRetry Erase, s) :: rest.
Proof.
  split.
  - destruct l as [|[e s] rest]; [discriminate|].
    destruct e as [| | | | |site a|]; try discriminate.
    destruct site, a; try discriminate. intros _. now exists s, rest.
  - intros [s [rest ->]]. reflexivity.
Qed.

(** C4.  In the log of any run of [main], every entry carries the
    outcomes of its moment.  A call of [flash_device] finds the outcome
    of its device type pending: no call is made for a type whose outcome
    has left pending, however many rescans come between.  And take two
    entries, the second written after the first: an outcome that has
    left pending when the first is written is the same when the second
    is written, the second is not an attempt on that device type, and
    the outcome is the same at the end of the run. *)
Theorem settled_outcome_is_final (w : World) (fuel : nat)
  (keys : list InputEvent) :
  let st' := snd (main w fuel (initial_session keys)) in
  (forall t port erase_first s,
      In (EvAttempt t port erase_first, s) (log st') ->
      res_get s t = None) /\
  (forall e s t b,
      In (e, s) (log st') -> res_get s t = Some b ->
      res_get (flash_results st') t = Some b /\
      forall port erase_first, e <> EvAttempt t port erase_first) /\
  (forall newer e2 s2 between e1 s1 older t b,
      log st' = (newer ++ (e2, s2) :: between ++ (e1, s1) :: older)%list ->
      res_get s1 t = Some b ->
      res_get s2 t = Some b /\
      (forall port erase_first, e2 <> EvAttempt t port erase_first) /\
      res_get (flash_results st') t = Some b).
Proof.
  cbv zeta.
  destruct (main_ok w fuel keys) as [[Hok Hle] _].
  assert (Hattempt : forall t port erase_first s,
             In (EvAttempt t port erase_first, s)
                (log (snd (main w fuel (initial_session keys)))) ->
             res_get s t = None).
  { intros t port erase_first s Hin.
    destruct (in_split _ _ Hin) as [newer [older Hlog]].
    rewrite Hlog in Hok. apply log_ok_suffix in Hok. cbn [log_ok] in Hok.
    destruct Hok as [_ [_ Hthis]].
    now destruct (Hthis t port erase_first eq_refl). }
  split; [exact Hattempt|]. split.
  - intros e s t b Hin Hs. split; [now apply (Hle e s)|].
    intros port erase_first E. subst e.
    rewrite (Hattempt _ _ _ _ Hin) in Hs. discriminate Hs.
  - intros newer e2 s2 between e1 s1 older t b Hlog Hs1.
    assert (Hin2 : In (e2, s2)
                      (log (snd (main w fuel (initial_session keys))))).
    { rewrite Hlog. apply in_or_app. right. now left. }
    rewrite Hlog in Hok. apply log_ok_suffix in Hok. cbn [log_ok] in Hok.
    destruct Hok as [_ [Hbefore _]].
    assert (H2 : res_get s2 t = Some b).
    { destruct (Hbefore e1 s1) as [H _]; [|now apply H].
      apply in_or_app. right. now left. }
    split; [exact H2|]. split.
    + intros port erase_first E. subst e2.
      rewrite (Hattempt _ _ _ _ Hin2) in H2. discriminate H2.
    + now apply (Hle e2 s2).
Qed.

(** The C5 is flashed; the operator presses Enter and the rescan finds
    it again: the one call of [flash_device] in the whole run is the
    one made with the C5 pending, and the outcome stands to the end. *)
Lemma settled_outcome_is_final_witness :
  let st' := snd (main (one_c5_world []) 5
                    (initial_session [Line ""; Line "q"])) in
  In (EvAttempt C5 "COM5" false, mkResults None None) (log st') /\
  In (EvProbe "COM5" (Some C5), mkResults (Some true) None) (log st') /\
  res_get (flash_results st') C5 = Some true /\
  (forall port erase_first,
      EvProbe "COM5" (Some C5) <> EvAttempt C5 port erase_first).
Proof.
  cbv zeta.
  pose proof (settled_outcome_is_final (one_c5_world []) 5
                [Line ""; Line "q"]) as H.
  cbv zeta in H. destruct H as (_ & Hsettled & _).
  assert (Hrescan :
           In (EvProbe "COM5" (Some C5), mkResults (Some true) None)
              (log (snd (main (one_c5_world []) 5
                           (initial_session [Line ""; Line "q"]))))).
  { vm_compute. right. left. reflexivity. }
  split; [|split; [exact Hrescan|]].
  - vm_compute. do 3 right. left. reflexivity.
  - exact (Hsettled _ _ C5 true Hrescan eq_refl).
Defined.

(** C5.  In the log of any run of [main], an attempt erases first
    exactly when the entry written just before it is the operator's
    choice "erase" at the retry prompt.  So the first attempt of a
    sequence, written just after the line that opens the sequence, does
    not erase, and neither does an attempt that follows the choice
    "retry". *)
Theorem erase_first_only_after_erase_choice (w : World) (fuel : nat)
  (keys : list InputEvent) :
  let st' := snd (main w fuel (initial_session keys)) in
  forall newer t port erase_first s older,
    log st' = (newer ++ (EvAttempt t port erase_first, s) :: older)%list ->
    (erase_first = true
     <-> exists s' older', older = (EvChoice PromptRetry Erase, s') :: older') /\
    (forall t' port' s' older',
        older = (EvBegin t' port', s') :: older' -> erase_first = false) /\
    (forall s' older',
        older = (EvChoice PromptRetry Retry, s') :: older' ->
        erase_first = false).
Proof.
  cbv zeta. intros newer t port erase_first s older Hlog.
  destruct (main_ok w fuel keys) as [[Hok _] _].
  rewrite Hlog in Hok. apply log_ok_suffix in Hok. cbn [log_ok] in Hok.
  destruct Hok as [_ [_ Hattempt]].
  destruct (Hattempt t port erase_first eq_refl) as [_ Hiff].
  rewrite head_is_erase_iff in Hiff.
  split; [exact Hiff|]. split.
  - intros t' port' s' older' E. destruct erase_first; [|reflexivity].
    destruct (proj1 Hiff eq_refl) as [s'' [older'' E']]. congruence.
  - intros s' older' E. destruct erase_first; [|reflexivity].
    destruct (proj1 Hiff eq_refl) as [s'' [older'' E']]. congruence.
Qed.

(** The first write fails to connect, the operator chooses "erase", the
    second attempt erases and succeeds. *)
Lemma erase_first_only_after_erase_choice_witness :
  let st' := snd (main (one_c5_world [connect_failure]) 5
                    (initial_session [Line "e"])) in
  map fst (skipn 3 (log st'))
  = [EvAttempt C5 "COM5" true;
     EvChoice PromptRetry Erase;
     EvWrite ["python"; "-m"; "esptool"; "--chip"; "esp32c5"; "--port"; "COM5";
              "--baud"; "460800"; "--before"; "default_reset";
              "--after"; "hard_reset"; "write_flash"; "--flash_mode"; "dio";
              "--flash_freq"; "80m"; "--flash_size"; "detect"; "0x0";
              "c5_merged.bin"];
     EvAttempt C5 "COM5" false;
     EvBegin C5 "COM5";
     EvProbe "COM5" (Some C5)] /\
  (true = true
   <-> exists s' older',
      skipn 4 (log st') = (EvChoice PromptRetry Erase, s') :: older').
Proof.
  cbv zeta. split; [vm_compute; reflexivity|].
  pose proof (erase_first_only_after_erase_choice
                (one_c5_world [connect_failure]) 5 [Line "e"]
                (firstn 3 (log (snd (main (one_c5_world [connect_failure]) 5
                                       (initial_session [Line "e"])))))
                C5 "COM5" true (mkResults None None)
                (skipn 4 (log (snd (main (one_c5_world [connect_failure]) 5
                                      (initial_session [Line "e"])))))) as H.
  cbv zeta in H.
  destruct H as [H _]; [vm_compute; reflexivity|].
  exact H.
Defined.

Lemma final_entry_is_newest (l : list (Event * FlashResults))
  (e' : Event) (s' : FlashResults) :
  log_ok l -> In (e', s') l -> is_final e' = true ->
  exists rest, l = (e', s') :: rest.
Proof.
  intros Hok Hin Hfin. destruct l as [|[e0 s0] rest]; [destruct Hin|].
  destruct Hin as [H | H].
  - inversion H; subst. now exists rest.
  - cbn [log_ok] in Hok. destruct Hok as [_ [Hbefore _]].
    destruct (Hbefore e' s' H) as [_ Hf]. congruence.
Qed.


(* ================================================================== *)
(** * Every session on a finite keyboard input ends *)
(* ================================================================== *)
















(* ================================================================== *)
(** * The exit status *)
(* ================================================================== *)



(* ================================================================== *)
(** * Sessions from beginning to end *)
(* ================================================================== *)

(** Both devices are flashed at the first try. *)
Example session_both_flashed :
  let run := main (two_device_world []) 5 (initial_session []) in
  fst run = Ok 0 /\
  flash_results (snd run) = mkResults (Some true) (Some true).
Proof. vm_compute. split; reflexivity. Qed.

(** The C5 fails to connect, the operator chooses "erase", the second
    attempt succeeds: one erase was run. *)
Example session_erase_and_retry :
  let run := main (one_c5_world [connect_failure]) 5
               (initial_session [Line "e"]) in
  fst run = Ok 0 /\
  res_c5 (flash_results (snd run)) = Some true /\
  erase_calls (snd run) = 1%nat.
Proof. vm_compute. repeat split; reflexivity. Qed.

(** Nothing is plugged in at the first scan; the operator presses Enter
    and the second scan finds both devices. *)
Example session_rescan_finds_devices :
  let w := workstation (script [Comports []] (Comports [com "3"; com "5"]))
             (script [chip_says "Chip is ESP32-C5 (revision v1.0)"]
                (chip_says "Chip is ESP32-D0WD-V3 (revision v3.1)"))
             (fun _ => Completed 0 "" "") (fun _ => Exited [] 0) in
  let run := main w 5 (initial_session [Line ""]) in
  fst run = Ok 0 /\
  flash_results (snd run) = mkResults (Some true) (Some true).
Proof. vm_compute. split; reflexivity. Qed.

(** The port disappears during the write: the tool reports an error of
    its own, the port is found missing, the operator is asked to
    reconnect and quits; the outcome stays pending. *)
Example session_disconnect_then_quit :
  let w := workstation (script [Comports [com "5"]; Comports [com "5"]]
                          (Comports []))
             (fun _ => chip_says "Chip is ESP32-C5 (revision v1.0)")
             (fun _ => Completed 0 "" "")
             (fun _ => Exited ["A fatal error occurred: Serial data stream stopped"] 2) in
  let run := main w 5 (initial_session [Line "q"]) in
  fst run = Ok 1 /\
  flash_results (snd run) = mkResults None None /\
  map fst (firstn 1 (log (snd run))) = [EvChoice PromptDisconnect Quit].
Proof. vm_compute. repeat split; reflexivity. Qed.

(** Only skipped devices: the summary is printed and the status is 1. *)
Example session_all_skipped :
  let run := main (two_device_world [connect_failure; connect_failure]) 5
               (initial_session [Line "s"; Line "s"]) in
  fst run = Ok 1 /\
  flash_results (snd run) = mkResults (Some false) (Some false) /\
  map fst (firstn 1 (log (snd run))) = [EvSummary].
Proof. vm_compute. repeat split; reflexivity. Qed.

(* ================================================================== *)
(** * More on the port enumerator and the chip classifier *)
(* ================================================================== *)

(** X1.  [list_com_ports] raises in two cases only: pyserial's
    enumeration raises something that is not an [ImportError], which is
    passed on as it is; or pyserial is missing and the PowerShell run is
    interrupted by something that is not an [Exception]. *)
Theorem list_com_ports_raises_iff (w : World) (st : Session) (e : Exn) :
  fst (list_com_ports w st) = Raise e <->
  (pyserial_at w (enum_calls st) = SerialRaised e /\
   is_class ImportError e = false) \/
  (exists e0,
      pyserial_at w (enum_calls st) = SerialRaised e0 /\
      is_class ImportError e0 = true /\
      powershell_at w (enum_calls st) = RunRaised e /\
      is_Exception e = false).
Proof.
  unfold list_com_ports, bind. cbn [next_enum fst snd].
  destruct (pyserial_at w (enum_calls st)) as [ports | e0].
  { cbn [fst ret raise]. split; [discriminate|].
    intros [[H _] | [e1 [H _]]]; discriminate H. }
  destruct (is_class ImportError e0) eqn:Hi.
  - destruct (powershell_at w (enum_calls st)) as [rc out err | e'].
    + assert (Hok : forall r : Result (list PortInfo) * Session,
                 (exists ports s, r = (Ok ports, s)) -> fst r <> Raise e).
      { intros r [ports [s ->]]. discriminate. }
      split.
      * intros H. exfalso. revert H. apply Hok.
        destruct ((rc =? 0) && PyStr.truthy (PyStr.strip out))%bool;
          [|eexists; eexists; reflexivity].
        destruct (json_loads w out) as [[p | items |]|];
          try (eexists; eexists; reflexivity).
        destruct (port_infos items); eexists; eexists; reflexivity.
      * intros [[H1 H2] | [e1 [_ [_ [H _]]]]]; [|discriminate H].
        inversion H1; subst. congruence.
    + destruct (is_Exception e') eqn:He.
      * cbn [fst ret raise]. split; [discriminate|].
        intros [[H1 H2] | [e1 [_ [_ [H3 H4]]]]].
        -- inversion H1; subst. congruence.
        -- inversion H3; subst. congruence.
      * cbn [fst ret raise]. split.
        -- intros H. inversion H; subst. right. exists e0. auto.
        -- intros [[H1 H2] | [e1 [_ [_ [H3 _]]]]].
           ++ inversion H1; subst. congruence.
           ++ now inversion H3.
  - cbn [fst ret raise]. split.
    + intros H. inversion H; subst. left. auto.
    + intros [[H1 _] | [e1 [H1 [H2 _]]]].
      * now inversion H1.
      * inversion H1; subst. congruence.
Qed.

Lemma port_infos_none_iff (items : list JsonItem) :
  port_infos items = None <-> In ItemOther items.
Proof.
  induction items as [|[p|] items IH]; cbn [port_infos In].
  - split; [discriminate | tauto].
  - destruct (port_infos items).
    + split; [discriminate|]. intros [H | H]; [discriminate H|].
      apply IH in H. discriminate H.
    + split; [|reflexivity]. intros _. right. now apply IH.
  - split; [intros _; now left | reflexivity].
Qed.

Lemma port_infos_length (items : list JsonItem) (infos : list PortInfo) :
  port_infos items = Some infos -> length infos = length items.
Proof.
  revert infos. induction items as [|[p|] items IH]; intros infos;
    cbn [port_infos].
  - intros H. now inversion H.
  - destruct (port_infos items) as [rest|]; [|discriminate].
    intros H. inversion H; subst. cbn. now rewrite (IH rest).
  - discriminate.
Qed.

(** X2.  In the PowerShell fallback one entry that is not a JSON object
    loses the whole answer: the list comes back empty, however many good
    entries there are.  When every entry is an object, each gives one
    port, and an object without "DeviceID" gives a port named [""]. *)
Theorem list_com_ports_fallback_all_or_nothing (w : World) (st : Session)
  (e : Exn) (out err : string) (items : list JsonItem) :
  pyserial_at w (enum_calls st) = SerialRaised e ->
  is_class ImportError e = true ->
  powershell_at w (enum_calls st) = Completed 0 out err ->
  PyStr.strip out <> "" ->
  json_loads w out = Some (DataList items) ->
  (In ItemOther items -> fst (list_com_ports w st) = Ok []) /\
  (~ In ItemOther items ->
   exists ports,
     fst (list_com_ports w st) = Ok ports /\
     length ports = length items /\
     (forall k members,
         nth_error items k = Some (ItemDict members) ->
         (forall v, ~ In ("DeviceID", v) members) ->
         option_map device (nth_error ports k) = Some "")).
Proof.
  intros Hs Hi Hp Hout Hj.
  unfold list_com_ports, bind. cbn [next_enum fst snd].
  rewrite Hs, Hi, Hp, Hj. cbn [Z.eqb andb].
  destruct (PyStr.strip out) eqn:Es; [contradiction|]. cbn [PyStr.truthy].
  split.
  - intros H. apply port_infos_none_iff in H. now rewrite H.
  - intros H. destruct (port_infos items) as [infos|] eqn:Ei.
    2:{ apply port_infos_none_iff in Ei. contradiction. }
    exists infos. split; [reflexivity|].
    split; [now apply port_infos_length|].
    clear - Ei. revert infos Ei.
    induction items as [|[p|] items IH]; intros infos Ei k members Hk Hno.
    + destruct k; discriminate Hk.
    + cbn [port_infos] in Ei.
      destruct (port_infos items) as [rest|] eqn:Er; [|discriminate].
      inversion Ei; subst. destruct k as [|k]; cbn in Hk |- *.
      * inversion Hk; subst. f_equal. clear - Hno.
        induction members as [|[key v] members IHm]; [reflexivity|].
        cbn [dict_get]. destruct (key =? "DeviceID")%string eqn:Ek.
        -- apply String.eqb_eq in Ek. subst. exfalso.
           apply (Hno v). now left.
        -- apply IHm. intros v' Hin. apply (Hno v'). now right.
      * now apply (IH rest eq_refl k members).
    + discriminate Ei.
Qed.

Lemma list_com_ports_fallback_all_or_nothing_witness :
  let w := powershell_world "[...]"
             (Some (DataList [ItemDict [("DeviceID", "COM3")]; ItemOther])) in
  fst (list_com_ports w (initial_session [])) = Ok [].
Proof.
  cbv zeta.
  refine (proj1 (list_com_ports_fallback_all_or_nothing
                   (powershell_world "[...]"
                      (Some (DataList [ItemDict [("DeviceID", "COM3")];
                                       ItemOther])))
                   (initial_session [])
                   (mkExn ImportError "No module named 'serial'") "[...]" ""
                   [ItemDict [("DeviceID", "COM3")]; ItemOther]
                   eq_refl eq_refl eq_refl _ eq_refl) _).
  - discriminate.
  - right. left. reflexivity.
Defined.

(** X3.  [detect_chip_type] lets no [Exception] out: when it raises, the
    identification run raised that very exception and it is not an
    [Exception] (a keyboard interrupt); and it adds one to the count of
    identification runs, whatever happens. *)
Theorem detect_chip_type_raises_only_interrupts (w : World) (port : string)
  (st : Session) :
  (forall e,
      fst (detect_chip_type w port st) = Raise e <->
      chip_id_at w (chip_calls st) = RunRaised e /\ is_Exception e = false) /\
  chip_calls (snd (detect_chip_type w port st)) = S (chip_calls st).
Proof.
  split; [|now rewrite detect_chip_type_session].
  intros e. unfold detect_chip_type, bind. cbn [next_chip fst snd].
  destruct (chip_id_at w (chip_calls st)) as [rc out err | e0].
  - cbn [fst ret raise]. split; [discriminate | intros [H _]; discriminate H].
  - destruct (is_Exception e0) eqn:He; cbn [fst ret raise].
    + split; [discriminate|]. intros [H1 H2]. inversion H1; subst. congruence.
    + split.
      * intros H. inversion H; subst. now split.
      * intros [H _]. now inversion H.
Qed.

(* ================================================================== *)
(** * More on the device scanner *)
(* ================================================================== *)

Lemma both_found_fold (probes : list Probe) :
  both_found (fold_left record_probe probes (mkDevices None None))
  = (truthy_port (last_found C5 probes)
     && truthy_port (last_found Wroom probes))%bool.
Proof.
  unfold both_found.
  now rewrite <- (fold_record_last_found probes C5),
              <- (fold_record_last_found probes Wroom).
Qed.

(** The scan loop makes a probe only while a device type is still
    without a port; it counts one identification run per probe; and when
    it returns with a type still missing, it has probed every port of
    its list. *)
Lemma scan_loop_stop (w : World) (ports : list PortInfo) :
  forall (devices : Devices) (st : Session),
    both_found devices = false ->
    exists probes,
      log (snd (scan_loop w ports devices st))
      = (rev (map (probe_entry (flash_results st)) probes) ++ log st)%list /\
      (forall pre post,
          probes = (pre ++ post)%list -> post <> [] ->
          both_found (fold_left record_probe pre devices) = false) /\
      (forall d,
          fst (scan_loop w ports devices st) = Ok d ->
          chip_calls (snd (scan_loop w ports devices st))
          = (chip_calls st + length probes)%nat /\
          (both_found d = false -> map fst probes = map device ports)).
Proof.
  induction ports as [|port_info rest IH]; intros devices st Hnot.
  - exists []. cbn. split; [reflexivity|]. split.
    + intros pre post H Hpost. destruct pre, post; try discriminate.
      now destruct Hpost.
    + intros d _. split; [lia | reflexivity].
  - remember (scan_loop w (port_info :: rest) devices st) as res eqn:Hres.
    cbn [scan_loop] in Hres. unfold bind at 1 in Hres.
    rewrite detect_chip_type_eq in Hres.
    destruct (fst (detect_chip_type w (device port_info) st))
      as [chip_type | e |].
    2,3: exists []; subst res; cbn; split; [reflexivity|]; split;
      [intros pre post H Hpost; destruct pre, post; try discriminate;
       now destruct Hpost
      |intros d H; discriminate H].
    unfold bind at 1 in Hres.
    cbn [emit next_chip fst snd stdin enum_calls chip_calls erase_calls
           write_calls flash_results log] in Hres.
    set (devices' := match chip_type with
                     | Some t => dev_set devices t (device port_info)
                     | None => devices
                     end) in *.
    set (st1 := {| stdin := stdin st; enum_calls := enum_calls st;
                   chip_calls := S (chip_calls st);
                   erase_calls := erase_calls st;
                   write_calls := write_calls st;
                   flash_results := flash_results st;
                   log := (EvProbe (device port_info) chip_type,
                           flash_results st) :: log st |}) in *.
    assert (Hrec : forall pre,
               fold_left record_probe ((device port_info, chip_type) :: pre)
                 devices
               = fold_left record_probe pre devices') by reflexivity.
    fold (both_found devices') in Hres.
    destruct (both_found devices') eqn:Hboth.
    + exists [(device port_info, chip_type)]. subst res. cbn [ret fst snd].
      split; [reflexivity|]. split.
      * intros pre post H Hpost. destruct pre as [|x pre]; [exact Hnot|].
        destruct pre, post; try discriminate. now destruct Hpost.
      * intros d H. inversion H; subst d. split; [cbn; lia|].
        intros Hd. congruence.
    + destruct (IH devices' st1 Hboth) as [probes [Hl [Hsplit Hok]]].
      exists ((device port_info, chip_type) :: probes). subst res.
      rewrite Hl. split; [cbn [rev map]; now rewrite <- app_assoc|]. split.
      * intros pre post H Hpost. destruct pre as [|x pre]; [exact Hnot|].
        cbn [app] in H. inversion H; subst. rewrite Hrec.
        now apply (Hsplit pre post).
      * intros d H. destruct (Hok d H) as [Hc Hall]. split.
        -- rewrite Hc. cbn. lia.
        -- intros Hd. cbn [map fst]. now rewrite (Hall Hd).
Qed.

(** X4.  The scan stops at the probe that gives the second device type
    its port and makes none after it; it runs the identification once
    per probe; and when it returns with a device type still missing, it
    has probed every enumerated port, once. *)
Theorem scan_stops_when_both_found (w : World) (st : Session)
  (devices : Devices) :
  fst (scan_for_devices w st) = Ok devices ->
  let st' := snd (scan_for_devices w st) in
  let probes := scan_probes st st' in
  (forall pre post,
      probes = (pre ++ post)%list -> post <> [] ->
      (truthy_port (last_found C5 pre)
       && truthy_port (last_found Wroom pre))%bool = false) /\
  chip_calls st' = (chip_calls st + length probes)%nat /\
  (both_found devices = false ->
   forall ports,
     fst (list_com_ports w st) = Ok ports ->
     Permutation (map fst probes) (map device ports)).
Proof.
  intros Hscan. cbv zeta. unfold scan_probes.
  remember (scan_for_devices w st) as res eqn:Hres.
  unfold scan_for_devices, bind in Hres.
  rewrite list_com_ports_eq in Hres.
  destruct (fst (list_com_ports w st)) as [ports | e |] eqn:Hports.
  2,3: subst res; discriminate Hscan.
  destruct ports as [|p ports].
  - subst res. cbn. rewrite Nat.sub_diag. cbn. split.
    + intros pre post H Hpost. destruct pre, post; try discriminate.
      now destruct Hpost.
    + split; [lia|]. intros _ ps H. inversion H. constructor.
  - destruct (scan_loop_stop w (sorted_reverse get_port_num (p :: ports))
                (mkDevices None None) (snd (next_enum st)) eq_refl)
      as [probes [Hl [Hsplit Hok]]].
    rewrite <- Hres in Hl, Hok. destruct (Hok devices Hscan) as [Hc Hall].
    cbn [next_enum snd log flash_results chip_calls] in Hl, Hc.
    rewrite Hl, firstn_grown, probes_of_entries.
    split; [|split; [exact Hc|]].
    + intros pre post H Hpost. rewrite <- both_found_fold.
      now apply (Hsplit pre post).
    + intros Hd ps H. inversion H; subst ps. rewrite (Hall Hd).
      apply Permutation_map, sorted_reverse_perm.
Qed.

Lemma scan_stops_when_both_found_witness :
  let w := three_ports ["Chip is ESP32-C5"; "Chip is ESP32-D0WD-V3";
                        "Chip is ESP32-C5"] in
  let st := initial_session [] in
  chip_calls (snd (scan_for_devices w st)) = 2%nat.
Proof.
  cbv zeta.
  pose proof (scan_stops_when_both_found
                (three_ports ["Chip is ESP32-C5"; "Chip is ESP32-D0WD-V3";
                              "Chip is ESP32-C5"])
                (initial_session [])
                (mkDevices (Some "COM5") (Some "COM4"))) as H.
  cbv zeta in H. destruct H as [_ [H _]]; [vm_compute; reflexivity|].
  rewrite H. vm_compute. reflexivity.
Defined.

(** X5.  A port in the snapshot is a port of the enumeration the scan
    made: the scanner invents no port. *)
Theorem scan_ports_are_enumerated (w : World) (st : Session)
  (devices : Devices) (ports : list PortInfo) :
  fst (scan_for_devices w st) = Ok devices ->
  fst (list_com_ports w st) = Ok ports ->
  forall t port, dev_get devices t = Some port -> In port (map device ports).
Proof.
  intros Hscan Hports t port Hdev.
  destruct (scan_for_devices_spec w st) as [_ [_ [_ [Hd Hprefix]]]].
  destruct (Hprefix ports Hports) as [unprobed Hsorted].
  rewrite (Hd devices Hscan), fold_record_last_found in Hdev.
  unfold last_found in Hdev. apply first_found_in, in_rev in Hdev.
  apply (in_map fst) in Hdev. cbn [fst] in Hdev.
  assert (Hin : In port (map device (sorted_reverse get_port_num ports))).
  { rewrite Hsorted. apply in_or_app. now left. }
  eapply Permutation_in; [|exact Hin].
  apply Permutation_map, sorted_reverse_perm.
Qed.

Lemma scan_ports_are_enumerated_witness :
  In "COM4" (map device [com "3"; com "4"; com "5"]).
Proof.
  apply (scan_ports_are_enumerated
           (three_ports ["Chip is ESP32-C5"; "Chip is ESP32-C5";
                         "Chip is ESP32-D0WD-V3"])
           (initial_session [])
           (mkDevices (Some "COM4") (Some "COM3"))
           [com "3"; com "4"; com "5"]) with (t := C5).
  - vm_compute. reflexivity.
  - vm_compute. reflexivity.
  - reflexivity.
Defined.

(* ================================================================== *)
(** * More on the flash executor *)
(* ================================================================== *)

Ltac open_flash w st Hres :=
  unfold flash_device, bind in Hres; simp_in Hres;
  rewrite port_exists_eq in Hres; simp_in Hres;
  match type of Hres with
  | context [list_com_ports w ?s] =>
      rewrite (list_com_ports_answer w s st) in Hres by reflexivity
  end.

Lemma existsb_device_true (port : string) (ports : list PortInfo) :
  existsb (fun p => (device p =? port)%string) ports = true
  <-> In port (map device ports).
Proof.
  destruct (existsb _ ports) eqn:E.
  - split; [|reflexivity]. intros _.
    destruct (in_dec string_dec port (map device ports)) as [H | H];
      [exact H|]. apply existsb_device in H. congruence.
  - split; [discriminate|]. intros H. apply existsb_device in E. contradiction.
Qed.

Lemma port_present_existsb (w : World) (st : Session) (port : string) :
  port_present w st port <->
  exists ports,
    fst (list_com_ports w st) = Ok ports /\
    existsb (fun p => (device p =? port)%string) ports = true.
Proof.
  unfold port_present.
  split; intros [ports [H1 H2]]; exists ports; split; try exact H1;
    now apply existsb_device_true.
Qed.

(** X6.  With the port present and an erase asked for, the erase decides
    before anything is written: an erase that exits with a nonzero
    status gives "Erase failed", one that times out gives "Erase timed
    out", and any other exception of the erase run leaves
    [flash_device]; in all three cases no write is started. *)
Theorem flash_device_erase_failure_stops (w : World) (t : DeviceType)
  (port firmware : string) (st : Session) :
  port_present w st port ->
  let res := flash_device w t port firmware true st in
  (forall rc out err,
      erase_at w (erase_calls st) = Completed rc out err -> rc <> 0 ->
      fst res = Ok (false, Some "Erase failed")) /\
  (forall e,
      erase_at w (erase_calls st) = RunRaised e ->
      (if is_class TimeoutExpired e
       then fst res = Ok (false, Some "Erase timed out")
       else fst res = Raise e)) /\
  ((forall out err, erase_at w (erase_calls st) <> Completed 0 out err) ->
   write_calls (snd res) = write_calls st /\
   exists new,
     log (snd res) = (new ++ log st)%list /\
     forall cmd s, ~ In (EvWrite cmd, s) new).
Proof.
  intros Hpresent. cbv zeta.
  apply port_present_existsb in Hpresent.
  destruct Hpresent as [ports [Hports Hex]].
  remember (flash_device w t port firmware true st) as res eqn:Hres.
  open_flash w st Hres. rewrite Hports in Hres. simp_in Hres.
  rewrite Hex in Hres. simp_in Hres.
  destruct (erase_at w (erase_calls st)) as [rc out err | e] eqn:He;
    simp_in Hres.
  - destruct (rc =? 0) eqn:Hrc; simp_in Hres.
    + apply Z.eqb_eq in Hrc. subst rc.
      split; [intros rc' o' e' H Hn; inversion H; subst; now destruct Hn|].
      split; [intros e H; discriminate H|].
      intros Hno. now destruct (Hno out err).
    + subst res. cbn [fst snd]. split; [reflexivity|].
      split; [intros e H; discriminate H|].
      intros _. split; [reflexivity|]. cbn [log].
      eexists [_; _]. split; [reflexivity|].
      intros cmd s [H1 | [H1 | []]]; discriminate H1.
  - split; [intros rc o e' H; discriminate H|].
    split.
    + intros e' H. inversion H; subst e'.
      destruct (is_class TimeoutExpired e); subst res; reflexivity.
    + intros _.
      destruct (is_class TimeoutExpired e); subst res;
        (split; [reflexivity|]); cbn [snd log ret raise];
        eexists [_; _]; (split; [reflexivity|]);
        intros cmd s [H1 | [H1 | []]]; discriminate H1.
Qed.

Lemma flash_device_erase_failure_stops_witness :
  let res := flash_device (erase_world (Completed 2 "" "")) C5 "COM5"
               "c5_merged.bin" true (initial_session []) in
  fst res = Ok (false, Some "Erase failed") /\
  write_calls (snd res) = 0%nat.
Proof.
  cbv zeta.
  assert (Hp : port_present (erase_world (Completed 2 "" ""))
                 (initial_session []) "COM5").
  { exists [com "5"]. split; [reflexivity | left; reflexivity]. }
  pose proof (flash_device_erase_failure_stops
                (erase_world (Completed 2 "" "")) C5 "COM5" "c5_merged.bin"
                (initial_session []) Hp) as H.
  cbv zeta in H. destruct H as [H1 [_ H3]]. split.
  - apply (H1 2 "" ""); [reflexivity | discriminate].
  - apply H3. intros out err H. discriminate H.
Defined.

Lemma flash_device_counters (w : World) (t : DeviceType)
  (port firmware : string) (erase_first : bool) (st : Session) :
  let st' := snd (flash_device w t port firmware erase_first st) in
  enum_calls st' = S (enum_calls st) /\
  (erase_calls st <= erase_calls st' <= S (erase_calls st))%nat /\
  (write_calls st <= write_calls st' <= S (write_calls st))%nat /\
  (erase_first = false -> erase_calls st' = erase_calls st) /\
  (write_calls st' = S (write_calls st) ->
   erase_first = true -> erase_calls st' = S (erase_calls st)) /\
  chip_calls st' = chip_calls st /\
  stdin st' = stdin st /\
  flash_results st' = flash_results st.
Proof.
  cbv zeta.
  remember (flash_device w t port firmware erase_first st) as res eqn:Hres.
  open_flash w st Hres.
  destruct (fst (list_com_ports w st)) as [ports | e |].
  2,3: subst res; cbn; repeat split; try lia; intros; lia.
  destruct (existsb _ ports); simp_in Hres.
  2: subst res; cbn; repeat split; try lia; intros; lia.
  destruct erase_first; simp_in Hres.
  - destruct (erase_at w (erase_calls st)) as [rc out err | e]; simp_in Hres.
    + destruct (rc =? 0); simp_in Hres.
      * subst res. rewrite write_block_session. cbn.
        repeat split; try lia; intros; try lia; discriminate.
      * subst res. cbn. repeat split; try lia; intros; try lia; discriminate.
    + destruct (is_class TimeoutExpired e); subst res; cbn;
        repeat split; try lia; intros; try lia; discriminate.
  - subst res. rewrite write_block_session. cbn.
    repeat split; try lia; intros; try lia; discriminate.
Qed.

(** X7.  One call of [flash_device] enumerates the ports once, starts at
    most one erase and at most one write, starts no erase when none is
    asked for, and touches neither the identification count, nor the
    keyboard input, nor the outcomes. *)
Theorem flash_device_call_budget (w : World) (t : DeviceType)
  (port firmware : string) (erase_first : bool) (st : Session) :
  let st' := snd (flash_device w t port firmware erase_first st) in
  enum_calls st' = S (enum_calls st) /\
  (erase_calls st <= erase_calls st' <= S (erase_calls st))%nat /\
  (write_calls st <= write_calls st' <= S (write_calls st))%nat /\
  (erase_first = false -> erase_calls st' = erase_calls st) /\
  (write_calls st' = S (write_calls st) ->
   erase_first = true -> erase_calls st' = S (erase_calls st)) /\
  chip_calls st' = chip_calls st /\
  stdin st' = stdin st /\
  flash_results st' = flash_results st.
Proof. exact (flash_device_counters w t port firmware erase_first st). Qed.

Lemma write_result_true (lines : list string) (rc : Z) (o : option string) :
  write_result lines rc = (true, o) -> rc = 0 /\ o = None.
Proof.
  unfold write_result. destruct (rc =? 0) eqn:E.
  - intros H. inversion H. apply Z.eqb_eq in E. now split.
  - destruct (PyStr.contains "Failed to connect" _); [discriminate|].
    destruct (PyStr.contains "Timed out" _); [discriminate|].
    destruct (PyStr.contains "Permission" _); discriminate.
Qed.

(** X8.  [flash_device] reports success exactly when the port is
    present at the check it makes on entry, the erase, if one is asked
    for, exits with status 0, and the write exits with status 0,
    whatever the tools print. *)
Theorem flash_device_success_iff (w : World) (t : DeviceType)
  (port firmware : string) (erase_first : bool) (st : Session) :
  fst (flash_device w t port firmware erase_first st) = Ok (true, None) <->
  port_present w st port /\
  (erase_first = true ->
   exists out err, erase_at w (erase_calls st) = Completed 0 out err) /\
  (exists lines, write_at w (write_calls st) = Exited lines 0).
Proof.
  rewrite port_present_existsb.
  remember (flash_device w t port firmware erase_first st) as res eqn:Hres.
  open_flash w st Hres.
  destruct (fst (list_com_ports w st)) as [ports | e |].
  2,3: subst res; split; [discriminate | intros [[ps [H _]] _]; discriminate H].
  destruct (existsb _ ports) eqn:Hex; simp_in Hres.
  2:{ subst res. split; [discriminate|].
      intros [[ps [H1 H2]] _]. inversion H1; subst. congruence. }
  assert (Hwrite : forall s0 : Session,
             fst (match write_at w (write_calls st) with
                  | Exited lines returncode =>
                      ret (write_result (map PyStr.rstrip lines) returncode)
                  | WriteRaised e =>
                      if is_class TimeoutExpired e
                      then ret (false, Some "Flash operation timed out")
                      else if is_Exception e
                           then ret (false, Some (exn_text e))
                           else raise e
                  end s0) = Ok (true, None)
             <-> exists lines, write_at w (write_calls st) = Exited lines 0).
  { intros s0. destruct (write_at w (write_calls st)) as [lines rc | e].
    - cbn [ret fst]. split.
      + intros H. inversion H as [H'].
        destruct (write_result_true _ _ _ H') as [-> _]. now exists lines.
      + intros [l H]. inversion H; subst. reflexivity.
    - split; [|intros [l H]; discriminate H].
      destruct (is_class TimeoutExpired e); [discriminate|].
      destruct (is_Exception e); discriminate. }
  destruct erase_first; simp_in Hres.
  - destruct (erase_at w (erase_calls st)) as [rc out err | e] eqn:He;
      simp_in Hres.
    + destruct (rc =? 0) eqn:Hrc; simp_in Hres.
      * apply Z.eqb_eq in Hrc. subst rc res. rewrite Hwrite. split.
        -- intros H. split; [now exists ports|]. split; [|exact H].
           intros _. now exists out, err.
        -- tauto.
      * subst res. split; [discriminate|].
        intros [_ [H _]]. destruct (H eq_refl) as [o [e' H']].
        inversion H'; subst. discriminate Hrc.
    + split.
      * destruct (is_class TimeoutExpired e); subst res; discriminate.
      * intros [_ [H _]]. destruct (H eq_refl) as [o [e' H']]. discriminate H'.
  - subst res. rewrite Hwrite. split.
    + intros H. split; [now exists ports|]. split; [discriminate | exact H].
    + tauto.
Qed.

(* ================================================================== *)
(** * More on the prompts *)
(* ================================================================== *)

Lemma prompt_retry_loop_line (s : string) (rest : list InputEvent) :
  prompt_retry_loop (Line s :: rest)
  = match retry_answer s with
    | Some a => (a, rest)
    | None => prompt_retry_loop rest
    end.
Proof.
  cbn [prompt_retry_loop]. unfold retry_answer.
  rewrite retry_condition_redundant.
  repeat match goal with
         | |- context [if ?c then _ else _] => destruct c
         end; reflexivity.
Qed.

Lemma prompt_rescan_loop_line (s : string) (rest : list InputEvent) :
  prompt_rescan_loop (Line s :: rest)
  = match rescan_answer s with
    | Some a => (a, rest)
    | None => prompt_rescan_loop rest
    end.
Proof.
  cbn [prompt_rescan_loop]. unfold rescan_answer.
  repeat match goal with
         | |- context [if ?c then _ else _] => destruct c
         end; reflexivity.
Qed.

(** X9.  The retry prompt asks again until it gets an answer: lines that
    are none of Enter, e, s, r, q (in any letter case, blanks around
    them ignored) are passed over, and the first line that is one of
    them decides and is the last one read.  Ctrl-C, and the end of the
    input, give "quit". *)
Theorem prompt_retry_skips_invalid (bad : list string) (s : string)
  (a : Action) (rest : list InputEvent) (st : Session) :
  Forall (fun b => retry_answer b = None) bad ->
  retry_answer s = Some a ->
  (stdin st = (map Line bad ++ Line s :: rest)%list ->
   fst (prompt_retry st) = Ok a /\ stdin (snd (prompt_retry st)) = rest) /\
  (stdin st = (map Line bad ++ CtrlC :: rest)%list ->
   fst (prompt_retry st) = Ok Quit /\ stdin (snd (prompt_retry st)) = rest) /\
  (stdin st = map Line bad ->
   fst (prompt_retry st) = Ok Quit /\ stdin (snd (prompt_retry st)) = []).
Proof.
  intros Hbad Hs.
  assert (Hskip : forall tail,
             prompt_retry_loop (map Line bad ++ tail)%list
             = prompt_retry_loop tail).
  { intros tail. induction Hbad as [|b bad Hb _ IH]; [reflexivity|].
    cbn [map app]. now rewrite prompt_retry_loop_line, Hb. }
  unfold prompt_retry. rewrite prompt_with_eq. cbn [fst snd emit with_stdin stdin].
  split; [|split]; intros Hin; rewrite Hin.
  - now rewrite Hskip, prompt_retry_loop_line, Hs.
  - now rewrite Hskip.
  - rewrite <- (app_nil_r (map Line bad)). now rewrite Hskip.
Qed.

Lemma prompt_retry_skips_invalid_witness :
  let st := initial_session [Line "x"; Line "retry"; Line " E "; Line "q"] in
  fst (prompt_retry st) = Ok Erase /\
  stdin (snd (prompt_retry st)) = [Line "q"].
Proof.
  cbv zeta.
  refine (proj1 (prompt_retry_skips_invalid ["x"; "retry"] " E " Erase
                   [Line "q"]
                   (initial_session [Line "x"; Line "retry"; Line " E ";
                                     Line "q"]) _ _) _).
  - repeat constructor.
  - reflexivity.
  - reflexivity.
Defined.

Lemma prompt_rescan_loop_actions (keys : list InputEvent) :
  fst (prompt_rescan_loop keys) = Rescan \/
  fst (prompt_rescan_loop keys) = Quit.
Proof.
  induction keys as [|[s|] keys IH]; [now right| |now right].
  rewrite prompt_rescan_loop_line. unfold rescan_answer.
  repeat match goal with
         | |- context [if ?c then _ else _] => destruct c
         end; cbn [fst]; auto.
Qed.

(** X10.  The no-devices and the disconnect prompts answer "rescan" or
    "quit" and nothing else, whatever is typed: a line that is neither
    Enter, r nor q is passed over, and the first one that is decides. *)
Theorem rescan_prompts_answers (st : Session) :
  (fst (prompt_no_devices st) = Ok Rescan \/
   fst (prompt_no_devices st) = Ok Quit) /\
  (fst (prompt_disconnect st) = Ok Rescan \/
   fst (prompt_disconnect st) = Ok Quit) /\
  (forall bad s a rest,
      Forall (fun b => rescan_answer b = None) bad ->
      rescan_answer s = Some a ->
      stdin st = (map Line bad ++ Line s :: rest)%list ->
      fst (prompt_no_devices st) = Ok a /\
      fst (prompt_disconnect st) = Ok a /\
      stdin (snd (prompt_no_devices st)) = rest /\
      stdin (snd (prompt_disconnect st)) = rest).
Proof.
  unfold prompt_no_devices, prompt_disconnect. rewrite !prompt_with_eq.
  cbn [fst snd emit with_stdin stdin].
  split; [|split].
  - destruct (prompt_rescan_loop_actions (stdin st)) as [H | H]; rewrite H; auto.
  - destruct (prompt_rescan_loop_actions (stdin st)) as [H | H]; rewrite H; auto.
  - intros bad s a rest Hbad Hs.
    assert (Hskip : forall tail,
               prompt_rescan_loop (map Line bad ++ tail)%list
               = prompt_rescan_loop tail).
    { intros tail. induction Hbad as [|b bad Hb _ IH]; [reflexivity|].
      cbn [map app]. now rewrite prompt_rescan_loop_line, Hb. }
    intros Hin. rewrite Hin, Hskip, prompt_rescan_loop_line, Hs.
    repeat split.
Qed.

(* ================================================================== *)
(** * More on [main] *)
(* ================================================================== *)

(** X11.  Whatever happens, the process ends with status 0 or 1. *)
Theorem main_exit_status_is_0_or_1 (w : World) (fuel : nat)
  (keys : list InputEvent) (code : Z) :
  process_exit_code (fst (main w fuel (initial_session keys))) = Some code ->
  code = 0 \/ code = 1.
Proof.
  assert (Hearly : forall (r : Result Z),
             (r = Ok 1 \/ (forall c, r <> Ok c)) ->
             process_exit_code r = Some code -> code = 0 \/ code = 1).
  { intros r [-> | Hr] H.
    - inversion H. now right.
    - destruct r as [c | e |]; cbn in H.
      + now destruct (Hr c).
      + inversion H. now right.
      + discriminate H. }
  destruct (initial_session_ok keys) as [Hok Hopen].
  generalize dependent (initial_session keys). intros st Hok Hopen.
  unfold main. unfold bind at 1.
  destruct (check_esptool w) as [ok | e]; cbn [lift ret raise];
    [|apply Hearly; right; discriminate].
  destruct ok; cbn [negb]; [|apply Hearly; now left].
  unfold bind at 1, try_except, bind at 1.
  destruct (download_manifest w) as [manifest | e]; cbn [lift ret raise].
  2:{ destruct (is_class URLError e || is_class HTTPError e)%bool;
        apply Hearly; [now left | right; discriminate]. }
  unfold bind at 1.
  destruct (manifest_c5 manifest) as [c5|]; cbn [subscript ret raise];
    [|apply Hearly; right; discriminate].
  unfold bind at 1.
  destruct (version c5) as [c5_version|]; cbn [subscript ret raise];
    [|apply Hearly; right; discriminate].
  unfold bind at 1.
  destruct (manifest_wroom manifest) as [wroom|]; cbn [subscript ret raise];
    [|apply Hearly; right; discriminate].
  unfold bind at 1.
  destruct (version wroom) as [wroom_version|]; cbn [subscript ret raise];
    [|apply Hearly; right; discriminate].
  destruct (truthy_port (mergedFilename c5)); cbn [negb];
    [|apply Hearly; now left].
  destruct (truthy_port (mergedFilename wroom)); cbn [negb];
    [|apply Hearly; now left].
  destruct (mergedFilename c5) as [c5_name|]; [|apply Hearly; now left].
  destruct (mergedFilename wroom) as [wroom_name|]; [|apply Hearly; now left].
  unfold bind at 1.
  destruct (download_firmware w c5_name) as [c5_firmware | e];
    cbn [lift ret raise]; [|apply Hearly; right; discriminate].
  unfold bind at 1.
  destruct (download_firmware w wroom_name) as [wroom_firmware | e];
    cbn [lift ret raise]; [|apply Hearly; right; discriminate].
  destruct c5_firmware as [c5_path|]; [|apply Hearly; now left].
  destruct wroom_firmware as [wroom_path|]; [|apply Hearly; now left].
  unfold bind at 1.
  pose proof (main_loop_ok w c5_path wroom_path fuel st Hok Hopen) as Hpost.
  destruct (main_loop w fuel c5_path wroom_path st) as [r st1].
  destruct Hpost as [_ Hend]. cbn [fst snd] in Hend.
  destruct r as [[|c] | e |].
  - unfold bind. cbn [emit get_results ret fst process_exit_code].
    intros H. inversion H.
    destruct (is_True _ || is_True _)%bool; [now left | now right].
  - destruct Hend as [-> _]. apply Hearly. now left.
  - apply Hearly. right. discriminate.
  - apply Hearly. right. discriminate.
Qed.

Lemma main_exit_status_is_0_or_1_witness :
  (1 = 0 \/ 1 = 1) /\ (0 = 0 \/ 0 = 1).
Proof.
  split.
  - apply (main_exit_status_is_0_or_1
             (two_device_world [Exited [] 0; connect_failure]) 5 [Line "q"]).
    vm_compute. reflexivity.
  - apply (main_exit_status_is_0_or_1 (two_device_world []) 5 []).
    vm_compute. reflexivity.
Defined.

Ltac rewrite_known :=
  repeat match goal with
         | H : ?l = _ |- context [?l] => rewrite H; cbn
         end.

(** X12.  A failure of the bootstrap ends [main] before anything is
    scanned, flashed or read from the keyboard, the session untouched:
    with status 1 when esptool cannot be installed, when the manifest
    cannot be fetched (a URL or HTTP error), when a merged image is not
    named in the manifest, or when an image cannot be downloaded; with
    the exception itself when the fetch raises anything else; and with a
    [KeyError] when the manifest lacks a device entry or its "version"
    (the C5 entry, its version, the WROOM entry, its version, in the
    order of lines 405-406), which is read only to be printed. *)
Theorem main_bootstrap_failures (w : World) (fuel : nat) (st : Session) :
  (check_esptool w = Returns false -> main w fuel st = (Ok 1, st)) /\
  (check_esptool w = Returns true ->
   (forall e,
       download_manifest w = Raises e ->
       main w fuel st
       = (if (is_class URLError e || is_class HTTPError e)%bool
          then Ok 1 else Raise e, st)) /\
   (forall m,
       download_manifest w = Returns m ->
       (manifest_c5 m = None ->
        main w fuel st = (Raise (mkExn KeyError "c5"), st)) /\
       (forall c5,
           manifest_c5 m = Some c5 -> version c5 = None ->
           main w fuel st = (Raise (mkExn KeyError "version"), st)) /\
       (forall c5 v5,
           manifest_c5 m = Some c5 -> version c5 = Some v5 ->
           manifest_wroom m = None ->
           main w fuel st = (Raise (mkExn KeyError "wroom"), st)) /\
       (forall c5 v5 wroom,
           manifest_c5 m = Some c5 -> version c5 = Some v5 ->
           manifest_wroom m = Some wroom -> version wroom = None ->
           main w fuel st = (Raise (mkExn KeyError "version"), st)) /\
       (forall c5 v5 wroom vw,
           manifest_c5 m = Some c5 -> version c5 = Some v5 ->
           manifest_wroom m = Some wroom -> version wroom = Some vw ->
           (truthy_port (mergedFilename c5) = false \/
            truthy_port (mergedFilename wroom) = false ->
            main w fuel st = (Ok 1, st)) /\
           (forall n5 nw p5 pw,
               mergedFilename c5 = Some n5 -> PyStr.truthy n5 = true ->
               mergedFilename wroom = Some nw -> PyStr.truthy nw = true ->
               download_firmware w n5 = Returns p5 ->
               download_firmware w nw = Returns pw ->
               p5 = None \/ pw = None ->
               main w fuel st = (Ok 1, st))))).
Proof.
  split.
  { intros H. unfold main, bind. now rewrite H. }
  intros Hc. split.
  { intros e H. unfold main, bind, try_except. rewrite_known.
    now destruct (_ || _)%bool. }
  intros m Hm. split; [|split; [|split; [|split]]].
  - intros H. unfold main, bind, try_except. now rewrite_known.
  - intros c5 H1 H2. unfold main, bind, try_except. now rewrite_known.
  - intros c5 v5 H1 H2 H3. unfold main, bind, try_except. now rewrite_known.
  - intros c5 v5 wroom H1 H2 H3 H4. unfold main, bind, try_except.
    now rewrite_known.
  - intros c5 v5 wroom vw H1 H2 H3 H4. split.
    + intros H. unfold main, bind, try_except.
      destruct H as [H | H]; rewrite_known; [reflexivity|].
      now destruct (truthy_port (mergedFilename c5)).
    + intros n5 nw p5 pw E5 T5 Ew Tw D5 Dw Hnone.
      unfold main, bind, try_except.
      destruct Hnone as [-> | ->]; rewrite_known; [reflexivity|].
      now destruct p5.
Qed.

Lemma flash_device_success_state (w : World) (t : DeviceType)
  (port firmware : string) (erase_first : bool) (st : Session)
  (o : option string) :
  fst (flash_device w t port firmware erase_first st) = Ok (true, o) ->
  write_calls (snd (flash_device w t port firmware erase_first st))
  = S (write_calls st) /\
  (exists lines, write_at w (write_calls st) = Exited lines 0) /\
  (exists cmd older,
      log (snd (flash_device w t port firmware erase_first st))
      = (EvWrite cmd, flash_results st) :: older).
Proof.
  remember (flash_device w t port firmware erase_first st) as res eqn:Hres.
  open_flash w st Hres.
  destruct (fst (list_com_ports w st)) as [ports | e |].
  2,3: subst res; discriminate.
  destruct (existsb _ ports); simp_in Hres.
  2: subst res; discriminate.
  assert (Hwrite : forall s0 : Session,
             fst (match write_at w (write_calls st) with
                  | Exited lines returncode =>
                      ret (write_result (map PyStr.rstrip lines) returncode)
                  | WriteRaised e =>
                      if is_class TimeoutExpired e
                      then ret (false, Some "Flash operation timed out")
                      else if is_Exception e
                           then ret (false, Some (exn_text e))
                           else raise e
                  end s0) = Ok (true, o) ->
             exists lines, write_at w (write_calls st) = Exited lines 0).
  { intros s0. destruct (write_at w (write_calls st)) as [lines rc | e].
    - cbn [ret fst]. intros H. inversion H as [H'].
      destruct (write_result_true _ _ _ H') as [-> _]. now exists lines.
    - destruct (is_class TimeoutExpired e); [discriminate|].
      destruct (is_Exception e); discriminate. }
  destruct erase_first; simp_in Hres.
  - destruct (erase_at w (erase_calls st)) as [rc out err | e]; simp_in Hres.
    + destruct (rc =? 0); simp_in Hres; [|subst res; discriminate].
      subst res. intros H. rewrite write_block_session. cbn.
      split; [reflexivity|]. split; [now apply Hwrite in H|].
      eexists; eexists; reflexivity.
    + destruct (is_class TimeoutExpired e); subst res; discriminate.
  - subst res. intros H. rewrite write_block_session. cbn.
    split; [reflexivity|]. split; [now apply Hwrite in H|].
    eexists; eexists; reflexivity.
Qed.

Lemma settles_step (w : World) (t : DeviceType) (st st1 : Session)
  (res : Result LoopExit * Session) :
  flash_results st1 = flash_results st ->
  (write_calls st <= write_calls st1)%nat ->
  settles w t st1 res -> settles w t st res.
Proof.
  intros Hr Hw [H1 H2]. rewrite Hr in H2. split; [lia|].
  destruct H2 as [H | [[Ha [Hb [Hc Hd]]] | H]]; [now left | | now right; right].
  right. left. split; [exact Ha|]. split; [exact Hb|]. split; [lia | exact Hd].
Qed.

Lemma settles_unchanged (w : World) (t : DeviceType) (st st' : Session)
  (r : Result LoopExit) :
  flash_results st' = flash_results st ->
  (write_calls st <= write_calls st')%nat ->
  settles w t st (r, st').
Proof. intros Hr Hw. split; [exact Hw | now left]. Qed.

Lemma attempt_loop_settles (w : World) (t : DeviceType)
  (port firmware : string) :
  forall (fuel : nat) (erase_flash : bool) (st : Session),
    settles w t st (attempt_loop w fuel t port firmware erase_flash st).
Proof.
  induction fuel as [|fuel IH]; intros erase_flash st.
  - apply settles_unchanged; cbn; [reflexivity | lia].
  - cbn [attempt_loop]. unfold bind at 1.
    destruct (flash_device_counters w t port firmware erase_flash st)
      as [_ [_ [[Hw1 _] [_ [_ [_ [_ Hr1]]]]]]].
    pose proof (flash_device_success_state w t port firmware erase_flash st)
      as Hsucc.
    destruct (flash_device w t port firmware erase_flash st) as [r st1].
    cbn [fst snd] in Hw1, Hr1, Hsucc.
    destruct r as [[success error] | e |].
    2,3: now apply settles_unchanged.
    destruct success.
    { destruct (Hsucc error eq_refl) as [Hw [Hexit [cmd [older Hlog]]]].
      unfold bind. cbn. split; [cbn; lia|].
      right. left. cbn. rewrite Hr1, Hw. cbn [Nat.pred].
      split; [reflexivity|]. split; [reflexivity|]. split; [lia|].
      split; [exact Hexit|]. now exists cmd, (flash_results st), older. }
    unfold bind at 1. rewrite port_exists_eq.
    destruct (fst (list_com_ports w st1)) as [ports | e |].
    2,3: now apply settles_unchanged.
    cbn [fst snd].
    destruct (existsb _ ports); cbn [negb].
    + unfold bind at 1, prompt_retry. rewrite prompt_with_eq.
      cbn [fst snd].
      set (st3 := snd (emit _ _)).
      assert (Hr3 : flash_results st3 = flash_results st) by exact Hr1.
      assert (Hw3 : (write_calls st <= write_calls st3)%nat) by exact Hw1.
      destruct (fst (prompt_retry_loop (stdin (snd (next_enum st1))))) eqn:Ha.
      * eapply settles_step; [exact Hr3 | exact Hw3 | apply IH].
      * eapply settles_step; [exact Hr3 | exact Hw3 | apply IH].
      * unfold bind. cbn. split; [exact Hw3|].
        right. right. cbn.
        split; [now rewrite Hr1|]. split; [reflexivity|].
        eexists; eexists; reflexivity.
      * now apply settles_unchanged.
      * now apply settles_unchanged.
    + unfold bind at 1, prompt_disconnect. rewrite prompt_with_eq.
      cbn [fst snd].
      destruct (fst (prompt_rescan_loop (stdin (snd (next_enum st1)))));
        now apply settles_unchanged.
Qed.

(** X13.  An attempt sequence changes the outcomes in two ways only: it
    marks its device type flashed, leaving by [break] right after a
    write that exited with status 0; or it marks it skipped, leaving by
    [break] right after the operator's choice "skip".  It never touches
    the other device type.  So a quit, a rescan and a disconnect leave
    the outcomes as they were. *)
Theorem attempt_loop_settles_by_success_or_skip (w : World)
  (t : DeviceType) (port firmware : string) (fuel : nat)
  (erase_flash : bool) (st : Session) :
  let res := attempt_loop w fuel t port firmware erase_flash st in
  (flash_results (snd res) = flash_results st \/
   (flash_results (snd res) = res_set (flash_results st) t true /\
    fst res = Ok Break /\
    (write_calls st < write_calls (snd res))%nat /\
    (exists lines,
        write_at w (Nat.pred (write_calls (snd res))) = Exited lines 0) /\
    (exists cmd s older, log (snd res) = (EvWrite cmd, s) :: older)) \/
   (flash_results (snd res) = res_set (flash_results st) t false /\
    fst res = Ok Break /\
    (exists s older,
        log (snd res) = (EvChoice PromptRetry Skip, s) :: older))) /\
  (forall t', t' <> t ->
              res_get (flash_results (snd res)) t'
              = res_get (flash_results st) t') /\
  (forall code, fst res = Ok (Return code) ->
                flash_results (snd res) = flash_results st) /\
  (forall site a s older,
      log (snd res) = (EvChoice site a, s) :: older ->
      (site, a) <> (PromptRetry, Skip) ->
      flash_results (snd res) = flash_results st).
Proof.
  cbv zeta.
  destruct (attempt_loop_settles w t port firmware fuel erase_flash st)
    as [_ H].
  destruct (attempt_loop w fuel t port firmware erase_flash st) as [r st'].
  cbn [fst snd] in *.
  assert (Hother : forall b t', t' <> t ->
             res_get (res_set (flash_results st) t b) t'
             = res_get (flash_results st) t').
  { intros b t' Hne. destruct t, t'; try reflexivity; now destruct Hne. }
  destruct H as [H | [[H1 [H2 [Hlt [H3 H4]]]] | [H1 [H2 H3]]]].
  - split; [now left|]. split; [intros; now rewrite H|]. split; intros; exact H.
  - split; [right; left; auto|]. split; [intros t' Hne; rewrite H1; auto|].
    split.
    + intros code Hc. rewrite H2 in Hc. discriminate Hc.
    + intros site a s older Hl _. destruct H4 as [cmd [s' [older' Hl']]].
      rewrite Hl in Hl'. discriminate Hl'.
  - split; [right; right; auto|]. split; [intros t' Hne; rewrite H1; auto|].
    split.
    + intros code Hc. rewrite H2 in Hc. discriminate Hc.
    + intros site a s older Hl Hne. destruct H3 as [s' [older' Hl']].
      rewrite Hl in Hl'. inversion Hl'; subst. now destruct Hne.
Qed.

(* ================================================================== *)
(** * The bootstrap: fetching the manifest *)
(* ================================================================== *)

Lemma backoff_app (first : Z) (n : nat) :
  backoff first (S n) = (backoff first n ++ [2 ^ (first + Z.of_nat n)])%list.
Proof.
  revert first. induction n as [|n IH]; intros first.
  - cbn [backoff app]. now rewrite Z.add_0_r.
  - change (backoff first (S (S n)))
      with (2 ^ first :: backoff (first + 1) (S n)).
    rewrite IH. cbn [backoff app].
    replace (first + 1 + Z.of_nat n) with (first + Z.of_nat (S n)) by lia.
    reflexivity.
Qed.

Lemma total_backoff (n : nat) : total (backoff 0 n) = 2 ^ Z.of_nat n - 1.
Proof.
  induction n as [|n IH]; [reflexivity|].
  rewrite backoff_app. unfold total in *. rewrite fold_right_app.
  cbn [fold_right]. rewrite Z.add_0_r, Z.add_0_l.
  assert (H : forall l a, fold_right Z.add a l = fold_right Z.add 0 l + a).
  { induction l as [|x l IHl]; intros a; cbn [fold_right]; [lia|].
    rewrite IHl. lia. }
  rewrite H, IH, Nat2Z.inj_succ, Z.pow_succ_r by lia. lia.
Qed.

Section ManifestFacts.

Context {Json : Type} (fetch : nat -> Outcome (option Json)) (retries : Z).

(** After [k] failures of the URL family, the first request that is not
    one decides. *)
Lemma manifest_attempts_decided (k : nat) :
  forall (todo : nat) (attempt : Z) (net : Bootstrap.Net),
    (k < todo)%nat ->
    attempt + Z.of_nat todo = retries ->
    (forall i, (i < k)%nat ->
               url_failure (fetch (Bootstrap.requests net + i))) ->
    ~ url_failure (fetch (Bootstrap.requests net + k)) ->
    Bootstrap.manifest_attempts Json fetch retries todo attempt net
    = (fetch (Bootstrap.requests net + k)%nat,
       Bootstrap.mkNet (Bootstrap.requests net + k + 1)
         (Bootstrap.slept net ++ backoff attempt k)).
Proof.
  induction k as [|k IH]; intros todo attempt net Hk Hinv Hfail Hok.
  - destruct todo as [|todo]; [lia|]. cbn [Bootstrap.manifest_attempts].
    rewrite Nat.add_0_r in *. cbn [backoff]. rewrite app_nil_r.
    replace (Bootstrap.requests net + 1)%nat with (S (Bootstrap.requests net))
      by lia.
    destruct (fetch (Bootstrap.requests net)) as [m | e]; [reflexivity|].
    destruct (is_class URLError e || is_class HTTPError e)%bool eqn:E;
      [|reflexivity].
    exfalso. apply Hok. now exists e.
  - destruct todo as [|todo]; [lia|]. cbn [Bootstrap.manifest_attempts].
    destruct (Hfail O ltac:(lia)) as [e [He Hc]].
    rewrite Nat.add_0_r in He. rewrite He, Hc.
    assert (Hlt : (attempt <? retries - 1) = true) by (apply Z.ltb_lt; lia).
    rewrite Hlt. cbn [Bootstrap.requests Bootstrap.slept].
    rewrite (IH todo (attempt + 1)); cbn [Bootstrap.requests Bootstrap.slept].
    + replace (S (Bootstrap.requests net) + k)%nat
        with (Bootstrap.requests net + S k)%nat by lia.
      cbn [backoff app]. now rewrite <- app_assoc.
    + lia.
    + lia.
    + intros i Hi.
      replace (S (Bootstrap.requests net) + i)%nat
        with (Bootstrap.requests net + S i)%nat by lia.
      apply Hfail. lia.
    + replace (S (Bootstrap.requests net) + k)%nat
        with (Bootstrap.requests net + S k)%nat by lia.
      exact Hok.
Qed.

(** When every turn fails with an error of the URL family, the last
    error is raised, and there is no wait after it. *)
Lemma manifest_attempts_exhausted :
  forall (todo : nat) (attempt : Z) (net : Bootstrap.Net),
    attempt + Z.of_nat (S todo) = retries ->
    (forall i, (i <= todo)%nat ->
               url_failure (fetch (Bootstrap.requests net + i))) ->
    exists e,
      fetch (Bootstrap.requests net + todo) = Raises e /\
      Bootstrap.manifest_attempts Json fetch retries (S todo) attempt net
      = (Raises e,
         Bootstrap.mkNet (Bootstrap.requests net + S todo)
           (Bootstrap.slept net ++ backoff attempt todo)).
Proof.
  induction todo as [|todo IH]; intros attempt net Hinv Hfail.
  - destruct (Hfail O ltac:(lia)) as [e [He Hc]]. exists e.
    split; [exact He|]. cbn [Bootstrap.manifest_attempts].
    rewrite Nat.add_0_r in He. rewrite He, Hc.
    assert (Hlt : (attempt <? retries - 1) = false) by (apply Z.ltb_ge; lia).
    rewrite Hlt. cbn [backoff]. rewrite app_nil_r. do 2 f_equal. lia.
  - destruct (Hfail O ltac:(lia)) as [e [He Hc]].
    rewrite Nat.add_0_r in He.
    destruct (IH (attempt + 1)
                (Bootstrap.mkNet (S (Bootstrap.requests net))
                   (Bootstrap.slept net ++ [2 ^ attempt])))
      as [e' [He' Hrun]].
    + lia.
    + intros i Hi. cbn [Bootstrap.requests].
      replace (S (Bootstrap.requests net) + i)%nat
        with (Bootstrap.requests net + S i)%nat by lia.
      apply Hfail. lia.
    + cbn [Bootstrap.requests] in He'. exists e'. split.
      * replace (Bootstrap.requests net + S todo)%nat
          with (S (Bootstrap.requests net) + todo)%nat by lia.
        exact He'.
      * change (Bootstrap.manifest_attempts Json fetch retries
                  (S (S todo)) attempt net)
          with (let net1 := Bootstrap.mkNet (S (Bootstrap.requests net))
                              (Bootstrap.slept net) in
                match fetch (Bootstrap.requests net) with
                | Returns manifest => (Returns manifest, net1)
                | Raises e0 =>
                    if (is_class URLError e0 || is_class HTTPError e0)%bool
                    then
                      if attempt <? retries - 1
                      then
                        Bootstrap.manifest_attempts Json fetch retries
                          (S todo) (attempt + 1)
                          (Bootstrap.mkNet (Bootstrap.requests net1)
                             (Bootstrap.slept net1 ++ [2 ^ attempt]))
                      else (Raises e0, net1)
                    else (Raises e0, net1)
                end).
        cbv zeta. rewrite He, Hc.
        assert (Hlt : (attempt <? retries - 1) = true)
          by (apply Z.ltb_lt; lia).
        rewrite Hlt. cbn [Bootstrap.requests Bootstrap.slept].
        rewrite Hrun. cbn [Bootstrap.requests Bootstrap.slept].
        replace (S (Bootstrap.requests net) + S todo)%nat
          with (Bootstrap.requests net + S (S todo))%nat by lia.
        cbn [backoff app]. now rewrite <- app_assoc.
Qed.

End ManifestFacts.

(** X14.  [download_manifest] returns the answer of the first request
    that does not fail with a URL or HTTP error, be it the manifest or
    another exception, which is passed on at once.  Before the request
    number k (from 0) it has waited 1, 2, ..., 2^(k-1) seconds, 2^k - 1 in
    all, and it has made k + 1 requests. *)
Theorem download_manifest_first_answer {Json : Type}
  (fetch : nat -> Outcome (option Json)) (retries : Z) (net : Bootstrap.Net)
  (k : nat) :
  Z.of_nat k < retries ->
  (forall i, (i < k)%nat ->
             url_failure (fetch (Bootstrap.requests net + i)%nat)) ->
  ~ url_failure (fetch (Bootstrap.requests net + k)%nat) ->
  Bootstrap.download_manifest Json fetch retries net
  = (fetch (Bootstrap.requests net + k)%nat,
     Bootstrap.mkNet (Bootstrap.requests net + k + 1)%nat
       (Bootstrap.slept net ++ backoff 0 k)) /\
  total (backoff 0 k) = 2 ^ Z.of_nat k - 1.
Proof.
  intros Hk Hfail Hok. split; [|apply total_backoff].
  unfold Bootstrap.download_manifest.
  apply manifest_attempts_decided; try assumption; lia.
Qed.

(** X15.  When all [retries] requests fail with URL or HTTP errors,
    [download_manifest] raises the error of the last one.  It has made
    [retries] requests and waited after each failure but the last:
    2^(retries-1) - 1 seconds in all, 3 seconds for the 3 tries [main]
    asks for. *)
Theorem download_manifest_gives_up {Json : Type}
  (fetch : nat -> Outcome (option Json)) (retries : Z) (net : Bootstrap.Net) :
  1 <= retries ->
  (forall i, Z.of_nat i < retries ->
             url_failure (fetch (Bootstrap.requests net + i)%nat)) ->
  exists e,
    fetch (Bootstrap.requests net + Z.to_nat (retries - 1))%nat = Raises e /\
    Bootstrap.download_manifest Json fetch retries net
    = (Raises e,
       Bootstrap.mkNet (Bootstrap.requests net + Z.to_nat retries)%nat
         (Bootstrap.slept net ++ backoff 0 (Z.to_nat (retries - 1)))) /\
    total (backoff 0 (Z.to_nat (retries - 1))) = 2 ^ (retries - 1) - 1.
Proof.
  intros Hr Hfail. unfold Bootstrap.download_manifest.
  replace (Z.to_nat retries) with (S (Z.to_nat (retries - 1))) by lia.
  destruct (manifest_attempts_exhausted fetch retries
              (Z.to_nat (retries - 1)) 0 net) as [e [He Hrun]].
  - lia.
  - intros i Hi. apply Hfail. lia.
  - exists e. split; [exact He|]. split; [exact Hrun|].
    rewrite total_backoff. f_equal. f_equal. lia.
Qed.

Lemma download_manifest_first_answer_witness :
  Bootstrap.download_manifest Manifest (flaky_server 2 (Some good_manifest)) 3
    fresh_net
  = (Returns (Some good_manifest), Bootstrap.mkNet 3 [1; 2]).
Proof.
  destruct (download_manifest_first_answer (flaky_server 2 (Some good_manifest)) 3
              fresh_net 2) as [H _].
  - lia.
  - intros i Hi. destruct i as [|[|i]]; [| |lia];
      (eexists; split; [reflexivity | reflexivity]).
  - intros [e [H _]]. discriminate H.
  - exact H.
Defined.

Lemma download_manifest_gives_up_witness :
  exists e,
    Bootstrap.download_manifest Manifest (flaky_server 5 (Some good_manifest)) 3
      fresh_net
    = (Raises e, Bootstrap.mkNet 3 [1; 2]) /\
    total [1; 2] = 3.
Proof.
  destruct (download_manifest_gives_up (flaky_server 5 (Some good_manifest)) 3
              fresh_net) as [e [_ [H1 H2]]].
  - lia.
  - intros i Hi. destruct i as [|[|[|i]]]; [| | |lia];
      (eexists; split; [reflexivity | reflexivity]).
  - exists e. split; [exact H1 | exact H2].
Defined.

Lemma manifest_attempts_bounds {Json : Type}
  (fetch : nat -> Outcome (option Json)) (retries : Z) :
  forall (todo : nat) (attempt : Z) (net : Bootstrap.Net),
    attempt + Z.of_nat todo = retries ->
    let res := Bootstrap.manifest_attempts Json fetch retries todo attempt net in
    (fst res = Returns None ->
     todo = O \/ exists k, (k < todo)%nat /\ null_body_at fetch net k) /\
    (Bootstrap.requests net <= Bootstrap.requests (snd res)
     <= Bootstrap.requests net + todo)%nat.
Proof.
  induction todo as [|todo IH]; intros attempt net Hinv; cbv zeta.
  - cbn. split; [now left | lia].
  - cbn [Bootstrap.manifest_attempts].
    destruct (fetch (Bootstrap.requests net)) as [m | e] eqn:Hfetch.
    { cbn [fst snd Bootstrap.requests]. split; [|lia].
      intros H. right. exists O. split; [lia|]. split; [intros i Hi; lia|].
      rewrite Nat.add_0_r, Hfetch. exact H. }
    destruct (is_class URLError e || is_class HTTPError e)%bool eqn:Hclass.
    2:{ cbn. split; [discriminate | lia]. }
    destruct (attempt <? retries - 1) eqn:Hlt.
    2:{ cbn. split; [discriminate | lia]. }
    apply Z.ltb_lt in Hlt.
    specialize (IH (attempt + 1)
                  (Bootstrap.mkNet (S (Bootstrap.requests net))
                     (Bootstrap.slept net ++ [2 ^ attempt]))
                  ltac:(lia)).
    cbv zeta in IH. cbn [Bootstrap.requests Bootstrap.slept] in *.
    destruct IH as [IH1 IH2]. split; [|lia].
    intros H. right. destruct (IH1 H) as [H0 | [k [Hk [Hfail Hnull]]]]; [lia|].
    cbn [Bootstrap.requests] in Hfail, Hnull.
    exists (S k). split; [lia|]. split.
    + intros i Hi. destruct i as [|i].
      * rewrite Nat.add_0_r, Hfetch. now exists e.
      * replace (Bootstrap.requests net + S i)%nat
          with (S (Bootstrap.requests net) + i)%nat by lia.
        apply Hfail. lia.
    + replace (Bootstrap.requests net + S k)%nat
        with (S (Bootstrap.requests net) + k)%nat by lia.
      exact Hnull.
Qed.

(** X16.  [download_manifest] returns [None] in two cases only: it is
    asked for no try at all ([retries] zero or negative), and then it
    makes no request; or the first request that does not fail with a URL
    or HTTP error has a body that [json.loads] reads as [None] (the JSON
    text [null]), which is returned as any manifest is.  And it never
    makes more than [retries] requests. *)
Theorem download_manifest_none_iff {Json : Type}
  (fetch : nat -> Outcome (option Json)) (retries : Z)
  (net : Bootstrap.Net) :
  let res := Bootstrap.download_manifest Json fetch retries net in
  (fst res = Returns None <->
   retries <= 0 \/
   exists k, Z.of_nat k < retries /\ null_body_at fetch net k) /\
  (retries <= 0 -> snd res = net) /\
  (Bootstrap.requests net <= Bootstrap.requests (snd res)
   <= Bootstrap.requests net + Z.to_nat retries)%nat.
Proof.
  cbv zeta. unfold Bootstrap.download_manifest.
  destruct (Z_le_gt_dec retries 0) as [Hle | Hgt].
  - replace (Z.to_nat retries) with O by lia. cbn.
    split; [split; [now left | reflexivity]|]. split; [reflexivity | lia].
  - destruct (manifest_attempts_bounds fetch retries (Z.to_nat retries) 0 net)
      as [H1 H2]; [lia|].
    split; [|split; [lia | exact H2]].
    split.
    + intros H. right. destruct (H1 H) as [H0 | [k [Hk Hnull]]]; [lia|].
      exists k. split; [lia | exact Hnull].
    + intros [Hle | [k [Hk [Hfail Hnull]]]]; [lia|].
      assert (Hok : ~ url_failure (fetch (Bootstrap.requests net + k)%nat)).
      { rewrite Hnull. intros [e [H _]]. discriminate H. }
      rewrite (manifest_attempts_decided fetch retries k
                 (Z.to_nat retries) 0 net ltac:(lia) ltac:(lia) Hfail Hok).
      cbn [fst]. exact Hnull.
Qed.

(** The server answers the first request with the body [null]: [None]
    is returned with all three tries left. *)
Example download_manifest_null_body :
  Bootstrap.download_manifest Manifest (fun _ => Returns None) 3 fresh_net
  = (Returns None, Bootstrap.mkNet 1 []).
Proof. reflexivity. Qed.

(* ================================================================== *)
(** * The bootstrap: the image cache *)
(* ================================================================== *)



Section FirmwareFacts.

Context {Path : Type} (joinpath : Path -> string -> Path)
  (locate : Path -> string) (CACHE_DIR : Path)
  (FIRMWARE_BASE_URL : string).

Lemma download_firmware_goes (urlopen : string -> nat -> Bootstrap.Response)
  (filename : string) (force : bool) (c : Bootstrap.Cache) :
  Bootstrap.path_exists (locate (joinpath CACHE_DIR filename)) c = false
  \/ force = true ->
  (Bootstrap.path_exists (locate (joinpath CACHE_DIR filename)) c
   && negb force)%bool = false.
Proof. intros [-> | ->]; [reflexivity | apply andb_false_r]. Qed.

End FirmwareFacts.



(** X18.  When [urlopen] fails with a URL or HTTP error,
    [download_firmware] returns [None] and leaves every file as it was:
    after a failed forced refresh the old image is still in the cache,
    and a call without [force] returns it.  No URL or HTTP error ever
    leaves [download_firmware]. *)
Theorem download_firmware_url_error_keeps_cache {Path : Type}
  (joinpath : Path -> string -> Path) (locate : Path -> string)
  (CACHE_DIR : Path) (FIRMWARE_BASE_URL : string)
  (urlopen : string -> nat -> Bootstrap.Response)
  (filename : string) (force : bool) (c : Bootstrap.Cache) :
  let path := joinpath CACHE_DIR filename in
  let res := Bootstrap.download_firmware Path joinpath locate CACHE_DIR
               FIRMWARE_BASE_URL urlopen filename force c in
  (forall e,
      Bootstrap.path_exists (locate path) c = false \/ force = true ->
      urlopen (FIRMWARE_BASE_URL ++ filename) (Bootstrap.downloads c)
      = Bootstrap.OpenRaised e ->
      (is_class URLError e || is_class HTTPError e)%bool = true ->
      fst res = Returns None /\
      Bootstrap.files (snd res) = Bootstrap.files c /\
      (Bootstrap.path_exists (locate path) c = true ->
       forall urlopen',
         fst (Bootstrap.download_firmware Path joinpath locate CACHE_DIR
                FIRMWARE_BASE_URL urlopen' filename false (snd res))
         = Returns (Some path))) /\
  (forall e, fst res = Raises e ->
             (is_class URLError e || is_class HTTPError e)%bool = false).
Proof.
  cbv zeta. split.
  - intros e Hmiss Hopen Hclass.
    pose proof (download_firmware_goes joinpath locate CACHE_DIR urlopen
                  filename force c Hmiss) as Hgo.
    remember (Bootstrap.download_firmware Path joinpath locate CACHE_DIR
                FIRMWARE_BASE_URL urlopen filename force c) as res eqn:Hres.
    unfold Bootstrap.download_firmware in Hres.
    rewrite Hgo, Hopen, Hclass in Hres. subst res.
    cbn [fst snd Bootstrap.files].
    split; [reflexivity|]. split; [reflexivity|].
    intros Hex urlopen'. unfold Bootstrap.download_firmware.
    unfold Bootstrap.path_exists in *. cbn [Bootstrap.files].
    destruct (Bootstrap.read_file _ (Bootstrap.files c)); [reflexivity|].
    discriminate Hex.
  - intros e. unfold Bootstrap.download_firmware.
    destruct (_ && _)%bool; [discriminate|].
    destruct (urlopen _ _) as [e0 | [data | e0]].
    + destruct (is_class URLError e0 || is_class HTTPError e0)%bool eqn:E;
        [discriminate|]. intros H. inversion H; subst. exact E.
    + discriminate.
    + destruct (is_class URLError e0 || is_class HTTPError e0)%bool eqn:E;
        [discriminate|]. intros H. inversion H; subst. exact E.
Qed.



(* ================================================================== *)
(** * The bootstrap: looking for esptool *)
(* ================================================================== *)

Lemma lstrip_head (s : string) (c : ascii) (r : string) :
  PyStr.lstrip s = String c r -> PyStr.isspace c = false.
Proof.
  induction s as [|a s IH]; cbn; [discriminate|].
  destruct (PyStr.isspace a) eqn:E; [exact IH|].
  intros H. inversion H; subst. exact E.
Qed.

Lemma split_on_head (sep c : ascii) (r : string) :
  Ascii.eqb c sep = false ->
  exists first, hd EmptyString (Bootstrap.split_on sep (String c r))
                = String c first.
Proof.
  intros H. cbn [Bootstrap.split_on]. rewrite H.
  destruct (Bootstrap.split_on sep r) as [|first others].
  - now exists EmptyString.
  - now exists first.
Qed.

Lemma no_blank_snoc (s : string) (c : ascii) :
  no_blank s -> PyStr.isspace c = false ->
  no_blank (s ++ String c EmptyString).
Proof.
  intros Hs Hc. induction s as [|a s IH]; intros x Hx.
  - cbn in Hx. destruct Hx as [<- | []]. exact Hc.
  - cbn in Hx. destruct Hx as [<- | Hx].
    + apply Hs. now left.
    + apply IH; [|exact Hx]. intros y Hy. apply Hs. now right.
Qed.

Lemma snoc_not_empty (s : string) (c : ascii) :
  (s ++ String c EmptyString)%string <> EmptyString.
Proof. destruct s; discriminate. Qed.

Lemma words_from_words (s current : string) :
  no_blank current ->
  Forall (fun w => w <> EmptyString /\ no_blank w)
         (Bootstrap.words_from current s).
Proof.
  revert current. induction s as [|c s IH]; intros current Hcur.
  - cbn. destruct current; [constructor|].
    constructor; [|constructor]. split; [discriminate | exact Hcur].
  - cbn [Bootstrap.words_from]. destruct (PyStr.isspace c) eqn:E.
    + assert (Hnil : no_blank EmptyString) by (intros x []).
      destruct current.
      * now apply IH.
      * constructor; [split; [discriminate | exact Hcur]|]. now apply IH.
    + apply IH. now apply no_blank_snoc.
Qed.

Lemma words_from_current (s current : string) :
  current <> EmptyString -> Bootstrap.words_from current s <> [].
Proof.
  revert current. induction s as [|c s IH]; intros current Hcur.
  - cbn. destruct current; [contradiction | discriminate].
  - cbn [Bootstrap.words_from]. destruct (PyStr.isspace c).
    + destruct current; [contradiction | discriminate].
    + apply IH. apply snoc_not_empty.
Qed.

Lemma split_starts_with_word (c : ascii) (r : string) :
  PyStr.isspace c = false -> Bootstrap.split (String c r) <> [].
Proof.
  intros H. unfold Bootstrap.split. cbn [Bootstrap.words_from]. rewrite H.
  apply words_from_current. discriminate.
Qed.

(** X20.  When the version run exits with status 0, pip is not run,
    whatever it would do.  If the output of the run is blank,
    [check_esptool] raises the IndexError of [split()[-1]], which none of
    its handlers catches, and prints nothing; otherwise it returns True
    and prints one version, a word that is not empty and holds no
    blank. *)
Theorem check_esptool_version_run_ok
  (stdout stderr : string) (pip_run : RunOutcome) :
  let res := Bootstrap.check_esptool (Completed 0 stdout stderr) pip_run in
  (PyStr.strip stdout = "" -> res = (Raises Bootstrap.IndexError, [])) /\
  (PyStr.strip stdout <> "" ->
   exists v, res = (Returns true, [Bootstrap.PrintVersion v]) /\
             v <> "" /\ no_blank v).
Proof.
  cbv zeta. unfold Bootstrap.check_esptool. cbn [Z.eqb]. split.
  - intros ->. reflexivity.
  - intros Hne. destruct (PyStr.strip stdout) as [|c r] eqn:Es;
      [contradiction|].
    assert (Hc : PyStr.isspace c = false).
    { unfold PyStr.strip in Es. exact (lstrip_head _ _ _ Es). }
    assert (Hnl : Ascii.eqb c (ascii_of_nat 10) = false).
    { destruct (Ascii.eqb c (ascii_of_nat 10)) eqn:E; [|reflexivity].
      apply Ascii.eqb_eq in E. subst c. discriminate Hc. }
    destruct (split_on_head _ c r Hnl) as [first Hfirst].
    rewrite Hfirst.
    pose proof (split_starts_with_word c first Hc) as Hwords.
    pose proof (words_from_words (String c first) EmptyString) as Hall.
    fold (Bootstrap.split (String c first)) in Hall.
    destruct (rev (Bootstrap.split (String c first))) as [|v vs] eqn:Er.
    + apply (f_equal (@rev string)) in Er. rewrite rev_involutive in Er.
      cbn in Er. contradiction.
    + exists v. split; [reflexivity|].
      assert (Hin : In v (Bootstrap.split (String c first))).
      { apply in_rev. rewrite Er. now left. }
      rewrite Forall_forall in Hall.
      apply Hall; [intros x [] | exact Hin].
Qed.

(** X21.  [check_esptool] returns False exactly when the version run
    does not show a working esptool (nonzero exit status, timeout, or
    interpreter not found) and the pip run then ends in a
    CalledProcessError; in that case it has printed that it installs and
    that the installation failed. *)
Theorem check_esptool_false_iff (version_run pip_run : RunOutcome) :
  let res := Bootstrap.check_esptool version_run pip_run in
  (fst res = Returns false <-> needs_install version_run /\ pip_failed pip_run)
  /\
  (fst res = Returns false ->
   snd res = [Bootstrap.PrintInstalling; Bootstrap.PrintInstallFailed]).
Proof.
  cbv zeta.
  assert (Hinst : (fst (Bootstrap.install_esptool pip_run) = Returns false
                   <-> pip_failed pip_run) /\
                  (fst (Bootstrap.install_esptool pip_run) = Returns false ->
                   snd (Bootstrap.install_esptool pip_run)
                   = [Bootstrap.PrintInstalling;
                      Bootstrap.PrintInstallFailed])).
  { unfold Bootstrap.install_esptool, pip_failed.
    destruct pip_run as [rc out err | e].
    - destruct (rc =? 0) eqn:E; cbn [fst snd].
      + apply Z.eqb_eq in E. split; [split|]; try discriminate.
        intros [(rc' & o & e' & H & Hrc) | (e' & H & _)];
          [inversion H; subst; lia | discriminate H].
      + apply Z.eqb_neq in E. split; [split|]; try reflexivity.
        intros _. left. now exists rc, out, err.
    - destruct (is_class CalledProcessError e) eqn:E; cbn [fst snd].
      + split; [split|]; try reflexivity.
        intros _. right. now exists e.
      + split; [split|]; try discriminate.
        intros [(rc' & o & e' & H & _) | (e' & H & Hc)];
          [discriminate H | inversion H; subst; congruence]. }
  destruct Hinst as [Hiff Hprint].
  unfold Bootstrap.check_esptool, needs_install.
  destruct version_run as [rc out err | e].
  - destruct (rc =? 0) eqn:E.
    + apply Z.eqb_eq in E.
      assert (Hno : fst (match rev (Bootstrap.split
                           (hd EmptyString
                              (Bootstrap.split_on (ascii_of_nat 10)
                                 (PyStr.strip out)))) with
                         | v :: _ => (Returns true, [Bootstrap.PrintVersion v])
                         | [] => (Raises Bootstrap.IndexError, [])
                         end) <> Returns false).
      { destruct (rev _); cbn; discriminate. }
      split; [split|]; try (intros H; now destruct (Hno H)).
      intros [[(rc' & o & e' & H & Hrc) | (e' & H & _)] _];
        [inversion H; subst; lia | discriminate H].
    + apply Z.eqb_neq in E. split; [|exact Hprint]. rewrite Hiff.
      split; [|tauto]. intros H. split; [|exact H].
      left. now exists rc, out, err.
  - destruct (is_class TimeoutExpired e || is_class FileNotFoundError e)%bool
      eqn:E.
    + split; [|exact Hprint]. rewrite Hiff.
      split; [|tauto]. intros H. split; [|exact H]. right. now exists e.
    + cbn [fst snd]. split; [split|]; try discriminate.
      intros [[(rc' & o & e' & H & _) | (e' & H & Hc)] _];
        [discriminate H | inversion H; subst; congruence].
Qed.

(* ================================================================== *)
(** * The summary *)
(* ================================================================== *)

(** The main flash loop is left by [break] only with a device type
    settled. *)
Lemma main_loop_break_handled (w : World) (c5_firmware wroom_firmware : string) :
  forall (fuel : nat) (st : Session) (r : Result LoopExit) (st' : Session),
    main_loop w fuel c5_firmware wroom_firmware st = (r, st') ->
    r = Ok Break -> handled_some (flash_results st').
Proof.
  induction fuel as [|fuel IH]; intros st r st' H Hr; subst r.
  - cbn in H. discriminate H.
  - cbn [main_loop] in H. unfold bind at 1 in H.
    destruct (scan_for_devices w st) as [[devices | e |] st1];
      [| discriminate H
       | discriminate H].
    destruct (truthy_port (dev_c5 devices) || truthy_port (dev_wroom devices))%bool;
      cbn [negb] in H.
    + unfold bind at 1 in H.
      destruct (flash_one w fuel C5 devices c5_firmware st1)
        as [[[|code] | e |] st2];
        try (discriminate H).
      unfold bind at 1 in H.
      destruct (flash_one w fuel Wroom devices wroom_firmware st2)
        as [[[|code] | e |] st3];
        try (discriminate H).
      unfold bind at 1 in H. cbn [get_results] in H.
      unfold handled_some. cbn [filter] in H.
      destruct (res_get (flash_results st3) C5) as [b5|] eqn:E5;
        destruct (res_get (flash_results st3) Wroom) as [bw|] eqn:Ew;
        cbn [is_pending negb ret] in H.
      * injection H as <-. left. now rewrite E5.
      * unfold bind at 1 in H.
        destruct (read_choice_quiet st3) as [c [st4 [Hread [_ Hres4]]]].
        rewrite Hread in H.
        destruct c as [c|];
          [|injection H as <-; left; rewrite Hres4; now rewrite E5].
        destruct (c =? "q")%string;
          [injection H as <-; left; rewrite Hres4; now rewrite E5|].
        exact (IH _ _ _ H eq_refl).
      * unfold bind at 1 in H.
        destruct (read_choice_quiet st3) as [c [st4 [Hread [_ Hres4]]]].
        rewrite Hread in H.
        destruct c as [c|];
          [|injection H as <-; right; rewrite Hres4; now rewrite Ew].
        destruct (c =? "q")%string;
          [injection H as <-; right; rewrite Hres4; now rewrite Ew|].
        exact (IH _ _ _ H eq_refl).
      * exact (IH _ _ _ H eq_refl).
    + unfold bind at 1 in H.
      destruct (prompt_no_devices st1) as [[action | e |] st2];
        try (discriminate H).
      destruct action; try exact (IH _ _ _ H eq_refl).
      discriminate H.
Qed.

Lemma summary_post_open {r : Result Z} (st : Session) :
  open_session st -> summary_post (r, st).
Proof.
  intros Hopen s Hin. specialize (Hopen _ _ Hin). discriminate Hopen.
Qed.

Lemma main_summary (w : World) (fuel : nat) (st : Session) :
  session_ok st -> open_session st -> summary_post (main w fuel st).
Proof.
  intros Hok Hopen.
  unfold main. unfold bind at 1.
  destruct (check_esptool w) as [ok | e]; cbn [lift ret raise];
    [|now apply summary_post_open].
  destruct ok; cbn [negb]; [|now apply summary_post_open].
  unfold bind at 1, try_except, bind at 1.
  destruct (download_manifest w) as [manifest | e]; cbn [lift ret raise].
  2:{ destruct (is_class URLError e || is_class HTTPError e)%bool;
        now apply summary_post_open. }
  unfold bind at 1.
  destruct (manifest_c5 manifest) as [c5|]; cbn [subscript ret raise];
    [|now apply summary_post_open].
  unfold bind at 1.
  destruct (version c5) as [c5_version|]; cbn [subscript ret raise];
    [|now apply summary_post_open].
  unfold bind at 1.
  destruct (manifest_wroom manifest) as [wroom|]; cbn [subscript ret raise];
    [|now apply summary_post_open].
  unfold bind at 1.
  destruct (version wroom) as [wroom_version|]; cbn [subscript ret raise];
    [|now apply summary_post_open].
  destruct (truthy_port (mergedFilename c5)); cbn [negb];
    [|now apply summary_post_open].
  destruct (truthy_port (mergedFilename wroom)); cbn [negb];
    [|now apply summary_post_open].
  destruct (mergedFilename c5) as [c5_name|]; [|now apply summary_post_open].
  destruct (mergedFilename wroom) as [wroom_name|];
    [|now apply summary_post_open].
  unfold bind at 1.
  destruct (download_firmware w c5_name) as [c5_firmware | e];
    cbn [lift ret raise]; [|now apply summary_post_open].
  unfold bind at 1.
  destruct (download_firmware w wroom_name) as [wroom_firmware | e];
    cbn [lift ret raise]; [|now apply summary_post_open].
  destruct c5_firmware as [c5_path|]; [|now apply summary_post_open].
  destruct wroom_firmware as [wroom_path|]; [|now apply summary_post_open].
  unfold bind at 1.
  pose proof (main_loop_ok w c5_path wroom_path fuel st Hok Hopen) as Hpost.
  pose proof (main_loop_break_handled w c5_path wroom_path fuel st) as Hbreak.
  destruct (main_loop w fuel c5_path wroom_path st) as [r st1].
  specialize (Hbreak r st1 eq_refl).
  destruct Hpost as [Hok1 Hend]. cbn [fst snd] in Hok1, Hend.
  destruct r as [[|code] | e |].
  - unfold bind. cbn [emit get_results ret].
    intros s [Heq | Hin].
    + inversion Heq; subst. cbn [snd flash_results].
      split; [reflexivity | now apply Hbreak].
    + specialize (Hend _ _ Hin). discriminate Hend.
  - destruct Hend as [_ [site [s0 [rest Hlog]]]]. cbn [ret].
    intros s Hin. cbn [snd] in Hin.
    destruct (final_entry_is_newest _ _ _ (proj1 Hok1) Hin eq_refl)
      as [older E].
    rewrite Hlog in E. inversion E.
  - now apply summary_post_open.
  - now apply summary_post_open.
Qed.

(** X23.  A summary is printed only once a device type is settled: in
    any run of [main], a summary in the log shows the final outcomes, at
    least one of them is a success or a skip, and when none is a success
    (exit status 1) the operator has skipped a device.  So with both
    device types pending [main] never ends with the summary. *)
Theorem summary_needs_an_outcome (w : World) (fuel : nat)
  (keys : list InputEvent) (s : FlashResults) :
  In (EvSummary, s) (log (snd (main w fuel (initial_session keys)))) ->
  s = flash_results (snd (main w fuel (initial_session keys))) /\
  handled_some s /\
  (some_success s = false ->
   res_get s C5 = Some false \/ res_get s Wroom = Some false).
Proof.
  intros Hin.
  destruct (initial_session_ok keys) as [Hok Hopen].
  destruct (main_summary w fuel _ Hok Hopen s Hin) as [Hs Hh].
  split; [exact Hs|]. split; [exact Hh|].
  unfold some_success, handled_some in *.
  destruct s as [c5 wroom]. cbn in *.
  destruct c5 as [[|]|]; destruct wroom as [[|]|]; cbn;
    intros Hf; try discriminate Hf; try (now left); try (now right).
  destruct Hh as [H | H]; now destruct H.
Qed.

(** The C5 fails to connect and is skipped, no WROOM is plugged in, and
    the operator answers q to "Q to finish": the summary shows the skip
    and the status is 1. *)
Lemma summary_needs_an_outcome_witness :
  let run := main (one_c5_world [connect_failure]) 5
               (initial_session [Line "s"; Line "q"]) in
  fst run = Ok 1 /\
  flash_results (snd run) = mkResults (Some false) None /\
  handled_some (mkResults (Some false) None).
Proof.
  cbv zeta.
  pose proof (summary_needs_an_outcome (one_c5_world [connect_failure]) 5
                [Line "s"; Line "q"] (mkResults (Some false) None)) as H.
  destruct H as (H1 & H2 & _).
  - vm_compute. left. reflexivity.
  - split; [vm_compute; reflexivity|].
    split; [symmetry; exact H1 | exact H2].
Defined.

(* ================================================================== *)
(** * What a failed write is reported as *)
(* ================================================================== *)

(** X22.  With the port present and no erase asked for, a write that
    ends with a nonzero status is reported by what esptool printed,
    read with the letter case as printed: "Failed to connect" comes
    first, then "Timed out", and anything else is reported with the
    exit status.  A write that raises a timeout is reported as "Flash
    operation timed out", any other [Exception] by its text, and an
    interrupt leaves [flash_device]. *)
Theorem flash_device_write_failure_message (w : World) (t : DeviceType)
  (port firmware : string) (st : Session) :
  port_present w st port ->
  let res := flash_device w t port firmware false st in
  (forall lines rc,
      write_at w (write_calls st) = Exited lines rc -> rc <> 0 ->
      let output := PyStr.join newline (map PyStr.rstrip lines) in
      (occurs_in "Failed to connect" output ->
       fst res
       = Ok (false, Some "Failed to connect (device not in download mode?)"))
      /\
      (~ occurs_in "Failed to connect" output ->
       occurs_in "Timed out" output ->
       fst res = Ok (false, Some "Connection timed out")) /\
      (~ occurs_in "Failed to connect" output ->
       ~ occurs_in "Timed out" output ->
       fst res
       = Ok (false, Some ("Flash failed (exit code "
                            ++ PyStr.str_of_int rc ++ ")")))) /\
  (forall e,
      write_at w (write_calls st) = WriteRaised e ->
      fst res
      = if is_class TimeoutExpired e
        then Ok (false, Some "Flash operation timed out")
        else if is_Exception e then Ok (false, Some (exn_text e))
             else Raise e).
Proof.
  intros Hpresent. cbv zeta.
  apply port_present_existsb in Hpresent.
  destruct Hpresent as [ports [Hports Hex]].
  remember (flash_device w t port firmware false st) as res eqn:Hres.
  open_flash w st Hres. rewrite Hports in Hres. simp_in Hres.
  rewrite Hex in Hres. simp_in Hres.
  destruct (write_at w (write_calls st)) as [lines0 rc0 | e0] eqn:Hw;
    simp_in Hres.
  - split; [|intros e H; discriminate H].
    intros lines rc H Hrc. inversion H; subst lines0 rc0. subst res.
    cbn [fst].
    destruct (write_result_cases (map PyStr.rstrip lines) rc)
      as (_ & H1 & H2 & H3).
    split; [intros Ho; now rewrite H1|].
    split; [intros Hn Ho; now rewrite H2 | intros Hn1 Hn2; now rewrite H3].
  - split; [intros lines rc H; discriminate H|].
    intros e H. inversion H; subst e0.
    destruct (is_class TimeoutExpired e); [subst res; reflexivity|].
    destruct (is_Exception e); subst res; reflexivity.
Qed.

(** esptool prints both "Timed out" and "Failed to connect": the report
    is "Failed to connect". *)
Lemma flash_device_write_failure_message_witness :
  fst (flash_device
         (one_port_world "COM5"
            (Exited ["Timed out waiting for packet header";
                     "A fatal error occurred: Failed to connect to ESP32"] 2))
         C5 "COM5" "c5_merged.bin" false (initial_session []))
  = Ok (false, Some "Failed to connect (device not in download mode?)").
Proof.
  assert (Hp : port_present
                 (one_port_world "COM5"
                    (Exited ["Timed out waiting for packet header";
                             "A fatal error occurred: Failed to connect to ESP32"]
                       2))
                 (initial_session []) "COM5").
  { exists [mkPortInfo "COM5" "USB Serial Device"].
    split; [reflexivity | left; reflexivity]. }
  pose proof (flash_device_write_failure_message _ C5 "COM5" "c5_merged.bin"
                (initial_session []) Hp) as H.
  cbv zeta in H. destruct H as [H _].
  destruct (H ["Timed out waiting for packet header";
               "A fatal error occurred: Failed to connect to ESP32"] 2)
    as [H1 _].
  - reflexivity.
  - discriminate.
  - apply H1. apply contains_spec. vm_compute. reflexivity.
Defined.
